(** * Tenant-scoped authorization of the multi-tenant competition platform

    A shallow embedding of the Fastify route guards and handlers of
    [api/src/routes/{tenants,users,competitions,competition-allowed-schools}.ts]
    and of the hooks of [api/src/middleware/auth.middleware.ts], over an
    in-memory model of the four Supabase tables.

    Conventions of the embedding:
    - a JavaScript value that is either a string or [undefined] is an
      [option string]; truthiness and [===] are written out below;
    - a table is the list of its rows, a Supabase query is a [filter] over it,
      [.single()] succeeds on exactly one row;
    - the ids are of type [uuid]: the store compares them as values and
      returns them in lower case, whatever the case of the hexadecimal digits
      in the request, whereas JavaScript compares them as strings;
    - a hook either lets the request continue or replies 403
      ([Decision]); a handler produces a [Response];
    - every request is authenticated: [request.user] has been set by
      [authPlugin], so [request.user?.x] is [x] of the caller record, and its
      [tenant_id] is populated as the plugin requires for these routes;
    - a PUT or POST request carries a JSON object as its body, whose keys may
      go beyond those its schema declares (no schema forbids additional
      properties); of those only the keys that name a column are kept;
    - the store answers every query, a text that spells no uuid being an id
      that no row carries; the only errors it raises are the violations of
      the constraints declared in SUPABASE_SCRIPT.md. Its row-level security
      policies are not part of the model. *)

From Stdlib Require Import String Ascii List Bool Arith Lia.
Import ListNotations.
Local Open Scope string_scope.

(** ** JavaScript values *)

(** [x] used as a condition, for [x : string | undefined]. *)
Definition truthy (x : option string) : bool :=
  match x with
  | Some s => negb (s =? EmptyString)
  | None => false
  end.

(** [x === y] for [x, y : string | undefined]. *)
Definition strict_eq (x y : option string) : bool :=
  match x, y with
  | Some a, Some b => a =? b
  | None, None => true
  | _, _ => false
  end.

(** [x || y]. *)
Definition js_or (x y : option string) : option string :=
  if truthy x then x else y.

(** [allowedRoles.includes(role)]. *)
Definition includes (l : list string) (s : string) : bool :=
  existsb (fun x => x =? s) l.

(** ** The [uuid] columns (SUPABASE_SCRIPT.md)

    Every id of the four tables is a [uuid]. The [uuid] format of the routes
    admits the hexadecimal digits in either case, and the store reads both as
    the same value; the text it returns has them in lower case. *)

Definition lower_hex (c : ascii) : ascii :=
  if Ascii.eqb c "A" then "a"
  else if Ascii.eqb c "B" then "b"
  else if Ascii.eqb c "C" then "c"
  else if Ascii.eqb c "D" then "d"
  else if Ascii.eqb c "E" then "e"
  else if Ascii.eqb c "F" then "f"
  else c.

(** The text the store holds and returns for the uuid written [s]. *)
Fixpoint uuid_text (s : string) : string :=
  match s with
  | EmptyString => EmptyString
  | String c rest => String (lower_hex c) (uuid_text rest)
  end.

(** [.eq(column, b)] on a [uuid] column holding [a]. *)
Definition same_uuid (a b : string) : bool := uuid_text a =? uuid_text b.

(** [.in(column, values)] on a [uuid] column holding [s]. *)
Definition uuid_in (values : list string) (s : string) : bool :=
  existsb (fun v => same_uuid v s) values.

(** ** Data model (types/Database, SUPABASE_SCRIPT.md) *)

Inductive Visibility : Type := public | private | restricted.

Inductive Role : Type := school_admin | student | superuser.

Definition Visibility_eqb (a b : Visibility) : bool :=
  match a, b with
  | public, public | private, private | restricted, restricted => true
  | _, _ => false
  end.

Definition visibility_name (v : Visibility) : string :=
  match v with
  | public => "public"
  | private => "private"
  | restricted => "restricted"
  end.

Definition visibility_of_string (s : string) : option Visibility :=
  if s =? "public" then Some public
  else if s =? "private" then Some private
  else if s =? "restricted" then Some restricted
  else None.

Definition role_name (r : Role) : string :=
  match r with
  | school_admin => "school_admin"
  | student => "student"
  | superuser => "superuser"
  end.

Definition role_of_string (s : string) : option Role :=
  if s =? "school_admin" then Some school_admin
  else if s =? "student" then Some student
  else if s =? "superuser" then Some superuser
  else None.

Module Tenant.
Record t : Type := mk { id : string; name : string; created_at : string }.
End Tenant.

Module User.
Record t : Type := mk { id : string; email : string; tenant_id : string; role : Role }.
End User.

Module Competition.
Record t : Type := mk {
  id : string;
  title : string;
  description : option string;
  visibility : Visibility;
  tenant_id : string;
  created_at : string
}.
End Competition.

Module AllowedSchool.
Record t : Type := mk { competition_id : string; school_id : string }.
End AllowedSchool.

(** [request.user], as declared in auth.middleware.ts: the role is an
    unconstrained string taken from the token. *)
Module Caller.
Record t : Type := mk { id : string; email : string; tenant_id : string; role : string }.
End Caller.

(** The four tables. *)
Record Store : Type := mkStore {
  tenants : list Tenant.t;
  users : list User.t;
  competitions : list Competition.t;
  competition_allowed_schools : list AllowedSchool.t
}.

(** ** Replies *)

(** Outcome of a hook: [return] (continue to the next stage) or
    [return reply.code(403).send({ error })]. *)
Inductive Decision : Type :=
| Allow
| Deny (reason : string).

(** Outcome of a route: [reply.code(c).send(data)] or
    [reply.code(c).send({ error })]. *)
Inductive Response (A : Type) : Type :=
| Sent (code : nat) (data : A)
| Failed (code : nat) (error : string).
Arguments Sent {A} code data.
Arguments Failed {A} code error.

Definition status {A} (r : Response A) : nat :=
  match r with
  | Sent c _ => c
  | Failed c _ => c
  end.

Definition is_deny (d : Decision) : bool :=
  match d with
  | Allow => false
  | Deny _ => true
  end.

(** A route stage guarded by a hook: a denial is the 403 reply and the store
    is left as it was. *)
Definition guarded {A S} (d : Decision) (st : S) (next : Response A * S)
  : Response A * S :=
  match d with
  | Allow => next
  | Deny m => (Failed 403 m, st)
  end.

(** The validation stage: a request that fails its schema is answered 400. *)
Definition validation_error : string := "Bad Request".

Definition validated {A S} (ok : bool) (st : S) (next : Response A * S)
  : Response A * S :=
  if ok then next else (Failed 400 validation_error, st).

(** ** Supabase query builder *)

(** [.single()]: the row when the result has exactly one, otherwise the
    error PGRST116. *)
Definition single {A} (rows : list A) : option A :=
  match rows with
  | [r] => Some r
  | _ => None
  end.

(** [from('competitions').select(..).eq('id', id)] *)
Definition competitions_eq_id (st : Store) (id : string) : list Competition.t :=
  filter (fun c => same_uuid (Competition.id c) id) (competitions st).

(** [from('users').select(..).eq('id', id)] *)
Definition users_eq_id (st : Store) (id : string) : list User.t :=
  filter (fun u => same_uuid (User.id u) id) (users st).

(** [from('competition_allowed_schools').select('*')
      .eq('competition_id', cid).eq('school_id', sid)] *)
Definition allowed_eq (st : Store) (cid sid : string) : list AllowedSchool.t :=
  filter (fun a => same_uuid (AllowedSchool.competition_id a) cid
                   && same_uuid (AllowedSchool.school_id a) sid)
         (competition_allowed_schools st).

(** Error messages of the store are opaque to the routes; the constraint that
    failed is all the model keeps. *)
Definition unique_violation : string := "duplicate key value violates unique constraint".
Definition foreign_key_violation : string := "insert or update violates foreign key constraint".
Definition constraint_violation : string := "new row violates a constraint".

(** [update(..).eq(..).select()]: the table after the update and the rows
    returned; [None] when the store rejects a new row. *)
Fixpoint update_where {A} (sel : A -> bool) (f : A -> option A) (rows : list A)
  : option (list A * list A) :=
  match rows with
  | [] => Some ([], [])
  | r :: rest =>
      match update_where sel f rest with
      | None => None
      | Some (table, returned) =>
          if sel r then
            match f r with
            | Some r' => Some (r' :: table, r' :: returned)
            | None => None
            end
          else Some (r :: table, returned)
      end
  end.

Definition tenant_exists (st : Store) (tid : string) : bool :=
  existsb (fun t => same_uuid (Tenant.id t) tid) (tenants st).

Definition with_users (st : Store) (rows : list User.t) : Store :=
  mkStore (tenants st) rows (competitions st) (competition_allowed_schools st).

Definition with_competitions (st : Store) (rows : list Competition.t) : Store :=
  mkStore (tenants st) (users st) rows (competition_allowed_schools st).

Definition with_allowed_schools (st : Store) (rows : list AllowedSchool.t) : Store :=
  mkStore (tenants st) (users st) (competitions st) rows.

Definition with_tenants (st : Store) (rows : list Tenant.t) : Store :=
  mkStore rows (users st) (competitions st) (competition_allowed_schools st).

(** [from('tenants').select('*').eq('id', id)] *)
Definition tenants_eq_id (st : Store) (id : string) : list Tenant.t :=
  filter (fun t => same_uuid (Tenant.id t) id) (tenants st).

(** [from('competitions')...eq('id', cid)] has a row. *)
Definition competition_exists (st : Store) (cid : string) : bool :=
  existsb (fun c => same_uuid (Competition.id c) cid) (competitions st).

(** What the store supplies to an insert: the column defaults
    [uuid_generate_v4()] and [now()], as the texts it returns for them. *)
Record Env : Type := mkEnv {
  generated_id : string;
  current_time : string
}.

(** ** Hooks of auth.middleware.ts *)

Inductive Method : Type := GET | POST | PUT | DELETE.

(** Sequencing of hooks: a hook that has replied ends the request. *)
Definition and_then (d : Decision) (k : Decision) : Decision :=
  match d with
  | Allow => k
  | Deny m => Deny m
  end.

Module Middleware.

(** [requireRole(allowedRoles)], for an authenticated request. *)
Definition requireRole (allowedRoles : list string) (u : Caller.t) : Decision :=
  if negb (includes allowedRoles (Caller.role u))
  then Deny "Insufficient permissions"
  else Allow.

(** [enforceTenantId]: the hook checks the [tenantId] route or query parameter
    and, on a request that is not a GET and has a parsed body, overwrites
    [body.tenant_id]. [set_tenant_id] is the assignment on the body type of the
    route; [body] is [None] while the body is not parsed (onRequest). *)
Definition enforceTenantId {B : Type} (set_tenant_id : B -> string -> B)
    (u : Caller.t) (method : Method)
    (params_tenantId query_tenantId : option string) (body : option B)
  : Decision * option B :=
  if Caller.role u =? "superuser" then (Allow, body)
  else
    let requestTenantId := js_or params_tenantId query_tenantId in
    if truthy requestTenantId
       && negb (strict_eq requestTenantId (Some (Caller.tenant_id u)))
    then (Deny "Access denied: tenant mismatch", body)
    else
      match method with
      | GET => (Allow, body)
      | _ => (Allow, option_map (fun b => set_tenant_id b (Caller.tenant_id u)) body)
      end.

End Middleware.

(** ** Request bodies and their JSON schemas *)

(** The body of POST and PUT /users, typed
    [Partial<Omit<Tables<'users'>, 'id'>>]. The schemas declare [email],
    [tenant_id] and [role]; [id] and [created_at] are the other columns of
    the table, which a body may name as well. *)
Module UserBody.
Record t : Type := make {
  email : option string;
  tenant_id : option string;
  role : option string;
  id : option string;
  created_at : option string
}.
(** A body with keys of the schema only. *)
Definition mk (email tenant_id role : option string) : t :=
  make email tenant_id role None None.
(** [{}]: no key names a column. *)
Definition is_empty (b : t) : bool :=
  match email b, tenant_id b, role b, id b, created_at b with
  | None, None, None, None, None => true
  | _, _, _, _, _ => false
  end.
End UserBody.

(** The body of POST and PUT /competitions, typed
    [Partial<Omit<Tables<'competitions'>, 'id' | 'created_at'>>];
    [description] may be present and null. The schemas declare the first four
    keys; [id] and [created_at] are the other columns of the table, which a
    body may name as well. *)
Module CompetitionBody.
Record t : Type := make {
  title : option string;
  description : option (option string);
  visibility : option string;
  tenant_id : option string;
  id : option string;
  created_at : option string
}.
(** A body with keys of the schema only. *)
Definition mk (title : option string) (description : option (option string))
    (visibility tenant_id : option string) : t :=
  make title description visibility tenant_id None None.
(** [body.tenant_id = tid] *)
Definition set_tenant_id (b : t) (tid : string) : t :=
  make (title b) (description b) (visibility b) (Some tid) (id b) (created_at b).
(** [{}]: no key names a column. *)
Definition is_empty (b : t) : bool :=
  match title b, description b, visibility b, tenant_id b, id b, created_at b with
  | None, None, None, None, None, None => true
  | _, _, _, _, _, _ => false
  end.
End CompetitionBody.

(** The string formats of the schema validator ([format: 'uuid'],
    [format: 'email']) are library code; the routes are parameterised by
    them. *)
Record Formats : Type := mkFormats {
  format_uuid : string -> bool;
  format_email : string -> bool
}.

(** A property of an object schema: absent, or present and accepted. *)
Definition optional (check : string -> bool) (x : option string) : bool :=
  match x with
  | Some s => check s
  | None => true
  end.

(** A property listed under [required]. *)
Definition required (check : string -> bool) (x : option string) : bool :=
  match x with
  | Some s => check s
  | None => false
  end.

Definition any_string (s : string) : bool := true.

(** [{ type: 'string', enum: [...] }] *)
Definition enum (values : list string) (s : string) : bool := includes values s.

(** ** routes/users.ts *)

Module UserRoutes.

(** [server.addHook('onRequest', enforceTenantId)]: the hook runs before the
    body is parsed, so only its parameter check has an effect. *)
Definition onRequest (u : Caller.t) (method : Method)
    (params_tenantId query_tenantId : option string) : Decision :=
  fst (Middleware.enforceTenantId (fun (b : UserBody.t) (_ : string) => b)
         u method params_tenantId query_tenantId None).

(** GET /users *)
Definition get_all_preHandler (u : Caller.t) : Decision :=
  Middleware.requireRole ["superuser"] u.

(** GET /users/:id *)
Definition get_by_id_preHandler (u : Caller.t) (id : string) (st : Store) : Decision :=
  if id =? Caller.id u then Allow
  else
    let same_tenant :=
      if Caller.role u =? "school_admin" then
        match single (users_eq_id st id) with
        | Some data => User.tenant_id data =? Caller.tenant_id u
        | None => false
        end
      else false in
    if same_tenant then Allow
    else if Caller.role u =? "superuser" then Allow
    else Deny "Insufficient permissions".

(** POST /users *)
Definition create_preHandler (u : Caller.t) (body : UserBody.t) : Decision :=
  let only_superusers :=
    if strict_eq (UserBody.role body) (Some "superuser")
       && negb (Caller.role u =? "superuser")
    then Deny "Only superusers can create superuser accounts"
    else Allow in
  if Caller.role u =? "school_admin" then
    if negb (strict_eq (UserBody.tenant_id body) (Some (Caller.tenant_id u)))
    then Deny "Cannot create users for other tenants"
    else if strict_eq (UserBody.role body) (Some "superuser")
    then Deny "Cannot create superuser accounts"
    else only_superusers
  else only_superusers.

(** PUT /users/:id *)
Definition update_preHandler (u : Caller.t) (id : string) (body : UserBody.t)
    (st : Store) : Decision :=
  if id =? Caller.id u then
    if truthy (UserBody.role body) || truthy (UserBody.tenant_id body)
    then Deny "Cannot change your own role or tenant"
    else Allow
  else
    let superusers_only :=
      if negb (Caller.role u =? "superuser")
      then Deny "Insufficient permissions"
      else Allow in
    if Caller.role u =? "school_admin" then
      match single (users_eq_id st id) with
      | None => Deny "Cannot update users from other tenants"
      | Some data =>
          if negb (User.tenant_id data =? Caller.tenant_id u)
          then Deny "Cannot update users from other tenants"
          else if (role_name (User.role data) =? "superuser")
                  || strict_eq (UserBody.role body) (Some "superuser")
          then Deny "Cannot update superuser accounts"
          else if truthy (UserBody.tenant_id body)
                  && negb (strict_eq (UserBody.tenant_id body) (Some (Caller.tenant_id u)))
          then Deny "Cannot change tenant_id to another tenant"
          else superusers_only
      end
    else superusers_only.

(** DELETE /users/:id *)
Definition delete_preHandler (u : Caller.t) (id : string) (st : Store) : Decision :=
  if id =? Caller.id u then Deny "Cannot delete your own account"
  else if Caller.role u =? "school_admin" then
    match single (users_eq_id st id) with
    | None => Deny "Cannot delete users from other tenants"
    | Some data =>
        if negb (User.tenant_id data =? Caller.tenant_id u)
        then Deny "Cannot delete users from other tenants"
        else if role_name (User.role data) =? "superuser"
        then Deny "Cannot delete superuser accounts"
        else Allow
    end
  else if negb (Caller.role u =? "superuser")
  then Deny "Insufficient permissions"
  else Allow.

(** GET /users/tenant/:tenantId *)
Definition get_by_tenant_preHandler (u : Caller.t) (tenantId : string) : Decision :=
  if (Caller.role u =? "school_admin") && negb (tenantId =? Caller.tenant_id u)
  then Deny "Access denied: tenant mismatch"
  else if Caller.role u =? "student"
  then Deny "Insufficient permissions"
  else Allow.

(** Schema of the PUT body. *)
Definition update_schema (F : Formats) (body : UserBody.t) : bool :=
  optional (format_email F) (UserBody.email body)
  && optional (format_uuid F) (UserBody.tenant_id body)
  && optional (enum ["school_admin"; "student"]) (UserBody.role body).

(** The row after [update(updateData)]: every column the body names takes the
    value of the body, [id] included; [None] when the check constraint on
    [role] rejects the value. ([created_at] is not among the columns the API
    returns for a user.) *)
Definition apply_update (body : UserBody.t) (r : User.t) : option User.t :=
  let role' :=
    match UserBody.role body with
    | Some s => role_of_string s
    | None => Some (User.role r)
    end in
  match role' with
  | None => None
  | Some ro =>
      Some (User.mk
              (match UserBody.id body with Some i => uuid_text i | None => User.id r end)
              (match UserBody.email body with Some e => e | None => User.email r end)
              (match UserBody.tenant_id body with
               | Some t => uuid_text t
               | None => User.tenant_id r
               end)
              ro)
  end.

(** Handlers of GET /users, GET /users/:id and GET /users/tenant/:tenantId *)
Definition get_all_handler (st : Store) : Response (list User.t) * Store :=
  (Sent 200 (users st), st).

Definition get_by_id_handler (id : string) (st : Store) : Response User.t * Store :=
  match single (users_eq_id st id) with
  | None => (Failed 404 "User not found", st)
  | Some data => (Sent 200 data, st)
  end.

Definition get_by_tenant_handler (tenantId : string) (st : Store)
  : Response (list User.t) * Store :=
  (Sent 200 (filter (fun r => same_uuid (User.tenant_id r) tenantId) (users st)), st).

(** Schema of the POST body. *)
Definition create_schema (F : Formats) (body : UserBody.t) : bool :=
  required (format_email F) (UserBody.email body)
  && required (format_uuid F) (UserBody.tenant_id body)
  && required (enum ["school_admin"; "student"]) (UserBody.role body).

(** Handler of POST /users: [insert({ email, tenant_id, role })] under the
    constraints of [users] (check on [role], foreign key, primary key on the
    generated id). The schema makes the three fields required, so the handler
    runs on bodies that have them; the last case is not reached through the
    route. *)
Definition create_handler (env : Env) (body : UserBody.t) (st : Store)
  : Response User.t * Store :=
  match UserBody.email body, UserBody.tenant_id body, UserBody.role body with
  | Some email, Some tenant_id, Some role =>
      match role_of_string role with
      | None => (Failed 500 constraint_violation, st)
      | Some ro =>
          if existsb (fun _ => true) (users_eq_id st (generated_id env))
          then (Failed 500 unique_violation, st)
          else if negb (tenant_exists st tenant_id)
          then (Failed 500 foreign_key_violation, st)
          else
            let data := User.mk (generated_id env) email (uuid_text tenant_id) ro in
            (Sent 201 data, with_users st (users st ++ [data]))
      end
  | _, _, _ => (Failed 500 constraint_violation, st)
  end.

(** Row constraints of [users] on a row of [update(..).eq('id', id)]: the
    check on [role], the foreign key on [tenant_id], and the primary key, which
    a row outside the update may already hold. *)
Definition checked_update (id : string) (body : UserBody.t) (st : Store) (r : User.t)
  : option User.t :=
  match apply_update body r with
  | Some r' =>
      if negb (tenant_exists st (User.tenant_id r')) then None
      else if existsb (fun x => same_uuid (User.id x) (User.id r')
                                && negb (same_uuid (User.id x) id))
                (users st)
      then None
      else Some r'
  | None => None
  end.

(** Handler of PUT /users/:id. An update that names no column changes and
    returns no row, so that [.single()] fails with PGRST116. *)
Definition update_handler (id : string) (body : UserBody.t) (st : Store)
  : Response User.t * Store :=
  if UserBody.is_empty body then (Failed 404 "User not found", st)
  else
    match update_where (fun r => same_uuid (User.id r) id) (checked_update id body st)
            (users st) with
    | None => (Failed 500 constraint_violation, st)
    | Some (table, returned) =>
        match single returned with
        | Some data => (Sent 200 data, with_users st table)
        | None => (Failed 404 "User not found", with_users st table)
        end
    end.

(** Handler of DELETE /users/:id *)
Definition delete_handler (id : string) (st : Store) : Response unit * Store :=
  (Sent 204 tt, with_users st (filter (fun r => negb (same_uuid (User.id r) id)) (users st))).

(** PUT /users/:id through the request lifecycle:
    onRequest, validation, preHandler, handler. *)
Definition update (F : Formats) (u : Caller.t) (id : string)
    (query_tenantId : option string) (body : UserBody.t) (st : Store)
  : Response User.t * Store :=
  guarded (onRequest u PUT None query_tenantId) st
    (validated (format_uuid F id && update_schema F body) st
       (guarded (update_preHandler u id body st) st
          (update_handler id body st))).

(** DELETE /users/:id through the request lifecycle. *)
Definition delete (F : Formats) (u : Caller.t) (id : string)
    (query_tenantId : option string) (st : Store) : Response unit * Store :=
  guarded (onRequest u DELETE None query_tenantId) st
    (validated (format_uuid F id) st
       (guarded (delete_preHandler u id st) st
          (delete_handler id st))).

(** GET /users through the request lifecycle. *)
Definition get_all (u : Caller.t) (query_tenantId : option string) (st : Store)
  : Response (list User.t) * Store :=
  guarded (onRequest u GET None query_tenantId) st
    (guarded (get_all_preHandler u) st (get_all_handler st)).

(** GET /users/:id through the request lifecycle. *)
Definition get_by_id (F : Formats) (u : Caller.t) (id : string)
    (query_tenantId : option string) (st : Store) : Response User.t * Store :=
  guarded (onRequest u GET None query_tenantId) st
    (validated (format_uuid F id) st
       (guarded (get_by_id_preHandler u id st) st (get_by_id_handler id st))).

(** GET /users/tenant/:tenantId through the request lifecycle. *)
Definition get_by_tenant (F : Formats) (u : Caller.t) (tenantId : string)
    (query_tenantId : option string) (st : Store) : Response (list User.t) * Store :=
  guarded (onRequest u GET (Some tenantId) query_tenantId) st
    (validated (format_uuid F tenantId) st
       (guarded (get_by_tenant_preHandler u tenantId) st
          (get_by_tenant_handler tenantId st))).

(** POST /users through the request lifecycle. *)
Definition create (F : Formats) (env : Env) (u : Caller.t)
    (query_tenantId : option string) (body : UserBody.t) (st : Store)
  : Response User.t * Store :=
  guarded (onRequest u POST None query_tenantId) st
    (validated (create_schema F body) st
       (guarded (create_preHandler u body) st (create_handler env body st))).

End UserRoutes.

(** ** routes/competitions.ts *)

Module CompetitionRoutes.

(** [getAllCompetitionsHandler]: declared with a role check, never registered. *)
Definition getAllCompetitionsHandler_preHandler (u : Caller.t) : Decision :=
  Middleware.requireRole ["superuser"; "school_admin"; "student"] u.

(** GET /competitions: the registered route has no hook and its handler does
    not read the request. *)
Definition get_all (u : Caller.t) (st : Store) : Response (list Competition.t) * Store :=
  (Sent 200 (competitions st), st).

(** GET /competitions/:id *)
Definition get_by_id_preHandler (u : Caller.t) (id : string) (st : Store) : Decision :=
  if Caller.role u =? "superuser" then Allow
  else
    match single (competitions_eq_id st id) with
    | None => Allow
    | Some competition =>
        if (Caller.role u =? "school_admin")
           && (Competition.tenant_id competition =? Caller.tenant_id u)
        then Allow
        else if Visibility_eqb (Competition.visibility competition) public then Allow
        else if Competition.tenant_id competition =? Caller.tenant_id u then Allow
        else if Visibility_eqb (Competition.visibility competition) restricted
                && match single (allowed_eq st id (Caller.tenant_id u)) with
                   | Some _ => true
                   | None => false
                   end
        then Allow
        else Deny "Access denied to this competition"
    end.

Definition get_by_id_handler (id : string) (st : Store) : Response Competition.t * Store :=
  match single (competitions_eq_id st id) with
  | None => (Failed 404 "Competition not found", st)
  | Some data => (Sent 200 data, st)
  end.

Definition get_by_id (F : Formats) (u : Caller.t) (id : string) (st : Store)
  : Response Competition.t * Store :=
  validated (format_uuid F id) st
    (guarded (get_by_id_preHandler u id st) st
       (get_by_id_handler id st)).

(** POST /competitions: the preValidation hook sees the body as sent. *)
Definition create_preValidation (u : Caller.t) (body : CompetitionBody.t) : Decision :=
  if negb (Caller.role u =? "superuser")
     && negb (strict_eq (CompetitionBody.tenant_id body) (Some (Caller.tenant_id u)))
  then Deny "Cannot create competitions for other tenants"
  else if negb (Caller.role u =? "school_admin") && negb (Caller.role u =? "superuser")
  then Deny "Only school administrators can create competitions"
  else Allow.

(** PUT /competitions/:id: the preValidation hook sees the body as sent. *)
Definition update_preValidation (u : Caller.t) (id : string) (body : CompetitionBody.t)
    (st : Store) : Decision :=
  match single (competitions_eq_id st id) with
  | None => Allow
  | Some competition =>
      if (Caller.role u =? "school_admin")
         && negb (Competition.tenant_id competition =? Caller.tenant_id u)
      then Deny "Cannot update competitions from other tenants"
      else if Caller.role u =? "student"
      then Deny "Students cannot update competitions"
      else if truthy (CompetitionBody.tenant_id body)
              && negb (strict_eq (CompetitionBody.tenant_id body)
                         (Some (Competition.tenant_id competition)))
      then Deny "Cannot change the owner tenant of a competition"
      else Allow
  end.

(** Schema of the PUT body; [title] and [description] accept every string. *)
Definition update_schema (F : Formats) (body : CompetitionBody.t) : bool :=
  optional any_string (CompetitionBody.title body)
  && optional (enum ["public"; "private"; "restricted"]) (CompetitionBody.visibility body)
  && optional (format_uuid F) (CompetitionBody.tenant_id body).

(** A row of [update(updateData).eq('id', id)] after the update: every column
    the body names takes the value of the body, [id] and [created_at]
    included. [None] when a constraint of [competitions] rejects the row: the
    enum type of [visibility], the foreign key on [tenant_id], the primary
    key, which a row outside the update may already hold, and the foreign key
    of the grants, which keep an id that is in use from changing. *)
Definition checked_update (id : string) (body : CompetitionBody.t) (st : Store)
    (r : Competition.t) : option Competition.t :=
  let visibility' :=
    match CompetitionBody.visibility body with
    | Some s => visibility_of_string s
    | None => Some (Competition.visibility r)
    end in
  let tenant_id' :=
    match CompetitionBody.tenant_id body with
    | Some t => uuid_text t
    | None => Competition.tenant_id r
    end in
  let id' :=
    match CompetitionBody.id body with
    | Some i => uuid_text i
    | None => Competition.id r
    end in
  match visibility' with
  | None => None
  | Some v =>
      if negb (tenant_exists st tenant_id') then None
      else if existsb (fun x => same_uuid (Competition.id x) id'
                                && negb (same_uuid (Competition.id x) id))
                (competitions st)
      then None
      else if negb (same_uuid id' (Competition.id r))
              && existsb (fun a => same_uuid (AllowedSchool.competition_id a)
                                     (Competition.id r))
                   (competition_allowed_schools st)
      then None
      else
        Some (Competition.mk id'
                (match CompetitionBody.title body with
                 | Some s => s
                 | None => Competition.title r
                 end)
                (match CompetitionBody.description body with
                 | Some d => d
                 | None => Competition.description r
                 end)
                v tenant_id'
                (match CompetitionBody.created_at body with
                 | Some t => t
                 | None => Competition.created_at r
                 end))
  end.

(** Handler of PUT /competitions/:id. An update that names no column changes
    and returns no row, so that [.single()] fails with PGRST116. *)
Definition update_handler (id : string) (body : CompetitionBody.t) (st : Store)
  : Response Competition.t * Store :=
  if CompetitionBody.is_empty body then (Failed 404 "Competition not found", st)
  else
    match update_where (fun r => same_uuid (Competition.id r) id)
            (checked_update id body st) (competitions st) with
    | None => (Failed 500 constraint_violation, st)
    | Some (table, returned) =>
        match single returned with
        | Some data => (Sent 200 data, with_competitions st table)
        | None => (Failed 404 "Competition not found", with_competitions st table)
        end
    end.

(** PUT /competitions/:id through the request lifecycle: preValidation,
    validation, preHandler [enforceTenantId], handler on the body the hook
    left. *)
Definition update (F : Formats) (u : Caller.t) (id : string)
    (query_tenantId : option string) (body : CompetitionBody.t) (st : Store)
  : Response Competition.t * Store :=
  guarded (update_preValidation u id body st) st
    (validated (format_uuid F id && update_schema F body) st
       (let (d, body') :=
          Middleware.enforceTenantId CompetitionBody.set_tenant_id
            u PUT None query_tenantId (Some body) in
        guarded d st
          (match body' with
           | Some b => update_handler id b st
           | None => update_handler id body st
           end))).

(** Schema of the POST body. *)
Definition create_schema (F : Formats) (body : CompetitionBody.t) : bool :=
  required any_string (CompetitionBody.title body)
  && optional (enum ["public"; "private"; "restricted"]) (CompetitionBody.visibility body)
  && required (format_uuid F) (CompetitionBody.tenant_id body).

(** Handler of POST /competitions:
    [insert({ title, description, visibility: visibility || 'private', tenant_id })]
    under the constraints of [competitions]. The schema makes [title] and
    [tenant_id] required, so the handler runs on bodies that have them; the
    last case is not reached through the route. *)
Definition create_handler (env : Env) (body : CompetitionBody.t) (st : Store)
  : Response Competition.t * Store :=
  match CompetitionBody.title body, CompetitionBody.tenant_id body,
        js_or (CompetitionBody.visibility body) (Some "private") with
  | Some title, Some tenant_id, Some visibility =>
      match visibility_of_string visibility with
      | None => (Failed 500 constraint_violation, st)
      | Some v =>
          if existsb (fun _ => true) (competitions_eq_id st (generated_id env))
          then (Failed 500 unique_violation, st)
          else if negb (tenant_exists st tenant_id)
          then (Failed 500 foreign_key_violation, st)
          else
            let data :=
              Competition.mk (generated_id env) title
                (match CompetitionBody.description body with
                 | Some d => d
                 | None => None
                 end)
                v (uuid_text tenant_id) (current_time env) in
            (Sent 201 data, with_competitions st (competitions st ++ [data]))
      end
  | _, _, _ => (Failed 500 constraint_violation, st)
  end.

(** POST /competitions through the request lifecycle: preValidation,
    validation, preHandler [enforceTenantId], handler on the body the hook
    left. *)
Definition create (F : Formats) (env : Env) (u : Caller.t)
    (query_tenantId : option string) (body : CompetitionBody.t) (st : Store)
  : Response Competition.t * Store :=
  guarded (create_preValidation u body) st
    (validated (create_schema F body) st
       (let (d, body') :=
          Middleware.enforceTenantId CompetitionBody.set_tenant_id
            u POST None query_tenantId (Some body) in
        guarded d st
          (match body' with
           | Some b => create_handler env b st
           | None => create_handler env body st
           end))).

(** DELETE /competitions/:id *)
Definition delete_preHandler (u : Caller.t) (id : string) (st : Store) : Decision :=
  if Caller.role u =? "superuser" then Allow
  else
    match single (competitions_eq_id st id) with
    | None => Allow
    | Some competition =>
        if (Caller.role u =? "school_admin")
           && negb (Competition.tenant_id competition =? Caller.tenant_id u)
        then Deny "Cannot delete competitions from other tenants"
        else if Caller.role u =? "student"
        then Deny "Students cannot delete competitions"
        else Allow
    end.

(** [delete().eq('id', id)]; the grants of the competition go with it
    ([on delete cascade]). *)
Definition delete_handler (id : string) (st : Store) : Response unit * Store :=
  (Sent 204 tt,
   mkStore (tenants st) (users st)
     (filter (fun r => negb (same_uuid (Competition.id r) id)) (competitions st))
     (filter (fun a => negb (same_uuid (AllowedSchool.competition_id a) id))
        (competition_allowed_schools st))).

Definition delete (F : Formats) (u : Caller.t) (id : string) (st : Store)
  : Response unit * Store :=
  validated (format_uuid F id) st
    (guarded (delete_preHandler u id st) st
       (delete_handler id st)).

(** GET /competitions/tenant/:tenantId: both mismatch branches only log, their
    403 replies are commented out. *)
Definition get_by_tenant_preHandler (u : Caller.t) (tenantId : string) : Decision :=
  if Caller.role u =? "superuser" then Allow
  else
    and_then
      (if (Caller.role u =? "school_admin") && negb (tenantId =? Caller.tenant_id u)
       then Allow
       else Allow)
      (if (Caller.role u =? "student") && negb (tenantId =? Caller.tenant_id u)
       then Allow
       else Allow).

Definition get_by_tenant_handler (tenantId : string) (st : Store)
  : Response (list Competition.t) * Store :=
  (Sent 200 (filter (fun c => same_uuid (Competition.tenant_id c) tenantId)
               (competitions st)), st).

Definition get_by_tenant (F : Formats) (u : Caller.t) (tenantId : string) (st : Store)
  : Response (list Competition.t) * Store :=
  validated (format_uuid F tenantId) st
    (guarded (get_by_tenant_preHandler u tenantId) st
       (get_by_tenant_handler tenantId st)).

(** GET /competitions/visibility/public *)
Definition get_public (u : Caller.t) (st : Store) : Response (list Competition.t) * Store :=
  (Sent 200 (filter (fun c => Visibility_eqb (Competition.visibility c) public)
               (competitions st)), st).

End CompetitionRoutes.

(** ** routes/tenants.ts *)

Module TenantRoutes.

(** GET /tenants, POST /tenants, PUT /tenants/:id, DELETE /tenants/:id *)
Definition manage_preHandler (u : Caller.t) : Decision :=
  Middleware.requireRole ["superuser"] u.

(** GET /tenants/:id *)
Definition get_by_id_preHandler (u : Caller.t) (id : string) : Decision :=
  if Caller.role u =? "superuser" then Allow
  else if id =? Caller.tenant_id u then Allow
  else Deny "Access denied: Cannot view other tenants".

(** Handlers of GET /tenants and GET /tenants/:id *)
Definition get_all_handler (st : Store) : Response (list Tenant.t) * Store :=
  (Sent 200 (tenants st), st).

Definition get_by_id_handler (id : string) (st : Store) : Response Tenant.t * Store :=
  match single (tenants_eq_id st id) with
  | None => (Failed 404 "Tenant not found", st)
  | Some data => (Sent 200 data, st)
  end.

(** Handler of POST /tenants: [insert({ name })]. *)
Definition create_handler (env : Env) (name : string) (st : Store)
  : Response Tenant.t * Store :=
  if tenant_exists st (generated_id env)
  then (Failed 500 unique_violation, st)
  else
    let data := Tenant.mk (generated_id env) name (current_time env) in
    (Sent 201 data, with_tenants st (tenants st ++ [data])).

(** Handler of PUT /tenants/:id: [update({ name }).eq('id', id)]. *)
Definition update_handler (id name : string) (st : Store) : Response Tenant.t * Store :=
  match update_where (fun t => same_uuid (Tenant.id t) id)
          (fun t => Some (Tenant.mk (Tenant.id t) name (Tenant.created_at t)))
          (tenants st) with
  | None => (Failed 500 constraint_violation, st)
  | Some (table, returned) =>
      match single returned with
      | Some data => (Sent 200 data, with_tenants st table)
      | None => (Failed 404 "Tenant not found", with_tenants st table)
      end
  end.

(** Handler of DELETE /tenants/:id. The rows that reference a deleted tenant
    go with it ([on delete cascade]): its users, its competitions with their
    grants, and the grants that name it as a school. *)
Definition delete_handler (id : string) (st : Store) : Response unit * Store :=
  if tenant_exists st id then
    (Sent 204 tt,
     mkStore
       (filter (fun t => negb (same_uuid (Tenant.id t) id)) (tenants st))
       (filter (fun r => negb (same_uuid (User.tenant_id r) id)) (users st))
       (filter (fun c => negb (same_uuid (Competition.tenant_id c) id)) (competitions st))
       (filter (fun a =>
                  negb (same_uuid (AllowedSchool.school_id a) id)
                  && negb (existsb
                             (fun c => same_uuid (Competition.id c)
                                         (AllowedSchool.competition_id a)
                                       && same_uuid (Competition.tenant_id c) id)
                             (competitions st)))
          (competition_allowed_schools st)))
  else (Sent 204 tt, st).

(** The five routes through the request lifecycle. The body of POST and PUT
    is [{ name }], required by the schema. *)
Definition get_all (u : Caller.t) (st : Store) : Response (list Tenant.t) * Store :=
  guarded (manage_preHandler u) st (get_all_handler st).

Definition get_by_id (F : Formats) (u : Caller.t) (id : string) (st : Store)
  : Response Tenant.t * Store :=
  validated (format_uuid F id) st
    (guarded (get_by_id_preHandler u id) st (get_by_id_handler id st)).

Definition create (env : Env) (u : Caller.t) (name : option string) (st : Store)
  : Response Tenant.t * Store :=
  validated (required any_string name) st
    (guarded (manage_preHandler u) st
       (match name with
        | Some n => create_handler env n st
        | None => (Failed 500 constraint_violation, st)
        end)).

Definition update (F : Formats) (u : Caller.t) (id : string) (name : option string)
    (st : Store) : Response Tenant.t * Store :=
  validated (format_uuid F id && required any_string name) st
    (guarded (manage_preHandler u) st
       (match name with
        | Some n => update_handler id n st
        | None => (Failed 500 constraint_violation, st)
        end)).

Definition delete (F : Formats) (u : Caller.t) (id : string) (st : Store)
  : Response unit * Store :=
  validated (format_uuid F id) st
    (guarded (manage_preHandler u) st (delete_handler id st)).

End TenantRoutes.

(** ** JavaScript [Map], keyed by strings

    Entries are kept in the order in which their keys were first set; setting
    a key that is present replaces its value in place. *)

Fixpoint Map_set {V} (m : list (string * V)) (k : string) (v : V) : list (string * V) :=
  match m with
  | [] => [(k, v)]
  | (k', v') :: rest =>
      if k' =? k then (k', v) :: rest else (k', v') :: Map_set rest k v
  end.

(** [new Map(entries)] *)
Definition Map_new {V} (entries : list (string * V)) : list (string * V) :=
  fold_left (fun m e => Map_set m (fst e) (snd e)) entries [].

(** [Array.from(m.values())] *)
Definition Map_values {V} (m : list (string * V)) : list V := map snd m.

(** ** routes/competition-allowed-schools.ts *)

Module AllowedSchoolRoutes.

(** GET /competition-allowed-schools *)
Definition get_all_preHandler (u : Caller.t) : Decision :=
  Middleware.requireRole ["superuser"] u.

(** GET /competition-allowed-schools/competition/:competitionId *)
Definition get_by_competition_preHandler (u : Caller.t) (competitionId : string)
    (st : Store) : Decision :=
  if Caller.role u =? "superuser" then Allow
  else
    match single (competitions_eq_id st competitionId) with
    | None => Allow
    | Some competition =>
        if (Caller.role u =? "school_admin")
           && (Competition.tenant_id competition =? Caller.tenant_id u)
        then Allow
        else if Visibility_eqb (Competition.visibility competition) restricted
                && match single (allowed_eq st competitionId (Caller.tenant_id u)) with
                   | Some _ => true
                   | None => false
                   end
        then Allow
        else if Visibility_eqb (Competition.visibility competition) public then Allow
        else if Competition.tenant_id competition =? Caller.tenant_id u then Allow
        else Deny "Access denied"
    end.

(** GET /competition-allowed-schools/school/:schoolId: the mismatch branch
    only logs, its 403 reply is commented out. *)
Definition get_by_school_preHandler (u : Caller.t) (schoolId : string) : Decision :=
  if Caller.role u =? "superuser" then Allow
  else if negb (schoolId =? Caller.tenant_id u) then Allow
  else Allow.

(** The three queries of the handler and their combination. *)
Definition publicCompetitions (st : Store) : list Competition.t :=
  filter (fun c => Visibility_eqb (Competition.visibility c) public) (competitions st).

Definition ownedRestrictedCompetitions (schoolId : string) (st : Store)
  : list Competition.t :=
  filter (fun c => Visibility_eqb (Competition.visibility c) restricted)
    (filter (fun c => same_uuid (Competition.tenant_id c) schoolId) (competitions st)).

Definition allowedSchools (schoolId : string) (st : Store) : list AllowedSchool.t :=
  filter (fun a => same_uuid (AllowedSchool.school_id a) schoolId)
    (competition_allowed_schools st).

Definition allowedCompetitions (schoolId : string) (st : Store) : list Competition.t :=
  if Nat.ltb 0 (List.length (allowedSchools schoolId st)) then
    let competitionIds := map AllowedSchool.competition_id (allowedSchools schoolId st) in
    filter (fun c => negb (same_uuid (Competition.tenant_id c) schoolId))
      (filter (fun c => uuid_in competitionIds (Competition.id c)) (competitions st))
  else [].

Definition accessibleCompetitions (schoolId : string) (st : Store) : list Competition.t :=
  publicCompetitions st ++ ownedRestrictedCompetitions schoolId st
  ++ allowedCompetitions schoolId st.

Definition uniqueCompetitions (schoolId : string) (st : Store) : list Competition.t :=
  Map_values (Map_new (map (fun comp => (Competition.id comp, comp))
                         (accessibleCompetitions schoolId st))).

Definition get_by_school_handler (schoolId : string) (st : Store)
  : Response (list Competition.t) * Store :=
  (Sent 200 (uniqueCompetitions schoolId st), st).

Definition get_by_school (F : Formats) (u : Caller.t) (schoolId : string) (st : Store)
  : Response (list Competition.t) * Store :=
  validated (format_uuid F schoolId) st
    (guarded (get_by_school_preHandler u schoolId) st
       (get_by_school_handler schoolId st)).

(** POST /competition-allowed-schools: the preHandler of a school
    administrator also writes to [competitions]. *)
Definition create_preHandler (u : Caller.t) (body : AllowedSchool.t) (st : Store)
  : Decision * Store :=
  let competition_id := AllowedSchool.competition_id body in
  if Caller.role u =? "superuser" then (Allow, st)
  else if Caller.role u =? "school_admin" then
    match single (competitions_eq_id st competition_id) with
    | None => (Deny "Cannot manage allowed schools for competitions from other tenants", st)
    | Some competition =>
        if negb (Competition.tenant_id competition =? Caller.tenant_id u)
        then (Deny "Cannot manage allowed schools for competitions from other tenants", st)
        else
          (Allow,
           with_competitions st
             (map (fun c =>
                     if same_uuid (Competition.id c) competition_id
                     then Competition.mk (Competition.id c) (Competition.title c)
                            (Competition.description c) restricted
                            (Competition.tenant_id c) (Competition.created_at c)
                     else c)
                (competitions st)))
    end
  else (Deny "Only school administrators can manage competition visibility", st).

(** [insert({ competition_id, school_id })] under the primary key and the two
    foreign keys of the table. *)
Definition create_handler (body : AllowedSchool.t) (st : Store)
  : Response AllowedSchool.t * Store :=
  let competition_id := AllowedSchool.competition_id body in
  let school_id := AllowedSchool.school_id body in
  if existsb (fun _ => true) (allowed_eq st competition_id school_id)
  then (Failed 500 unique_violation, st)
  else if negb (competition_exists st competition_id)
          || negb (tenant_exists st school_id)
  then (Failed 500 foreign_key_violation, st)
  else
    let data := AllowedSchool.mk (uuid_text competition_id) (uuid_text school_id) in
    (Sent 201 data,
     with_allowed_schools st (competition_allowed_schools st ++ [data])).

Definition create (F : Formats) (u : Caller.t) (body : AllowedSchool.t) (st : Store)
  : Response AllowedSchool.t * Store :=
  validated (format_uuid F (AllowedSchool.competition_id body)
             && format_uuid F (AllowedSchool.school_id body)) st
    (let (d, st') := create_preHandler u body st in
     guarded d st (create_handler body st')).

(** DELETE /competition-allowed-schools/:competitionId/:schoolId *)
Definition delete_preHandler (u : Caller.t) (competitionId : string) (st : Store)
  : Decision :=
  if Caller.role u =? "superuser" then Allow
  else if Caller.role u =? "school_admin" then
    match single (competitions_eq_id st competitionId) with
    | None => Deny "Cannot manage allowed schools for competitions from other tenants"
    | Some competition =>
        if negb (Competition.tenant_id competition =? Caller.tenant_id u)
        then Deny "Cannot manage allowed schools for competitions from other tenants"
        else Allow
    end
  else Deny "Only school administrators can manage competition visibility".

(** Handler of GET /competition-allowed-schools *)
Definition get_all_handler (st : Store) : Response (list AllowedSchool.t) * Store :=
  (Sent 200 (competition_allowed_schools st), st).

Definition get_all (u : Caller.t) (st : Store) : Response (list AllowedSchool.t) * Store :=
  guarded (get_all_preHandler u) st (get_all_handler st).

(** Handler of GET /competition-allowed-schools/competition/:competitionId:
    the tenants named by the grants of the competition. *)
Definition get_by_competition_handler (competitionId : string) (st : Store)
  : Response (list Tenant.t) * Store :=
  let schoolIds :=
    map AllowedSchool.school_id
      (filter (fun a => same_uuid (AllowedSchool.competition_id a) competitionId)
         (competition_allowed_schools st)) in
  if Nat.ltb 0 (List.length schoolIds)
  then (Sent 200 (filter (fun t => uuid_in schoolIds (Tenant.id t)) (tenants st)), st)
  else (Sent 200 [], st).

Definition get_by_competition (F : Formats) (u : Caller.t) (competitionId : string)
    (st : Store) : Response (list Tenant.t) * Store :=
  validated (format_uuid F competitionId) st
    (guarded (get_by_competition_preHandler u competitionId st) st
       (get_by_competition_handler competitionId st)).

(** Handler of DELETE /competition-allowed-schools/:competitionId/:schoolId *)
Definition delete_handler (competitionId schoolId : string) (st : Store)
  : Response unit * Store :=
  (Sent 204 tt,
   with_allowed_schools st
     (filter (fun a => negb (same_uuid (AllowedSchool.competition_id a) competitionId
                             && same_uuid (AllowedSchool.school_id a) schoolId))
        (competition_allowed_schools st))).

Definition delete (F : Formats) (u : Caller.t) (competitionId schoolId : string)
    (st : Store) : Response unit * Store :=
  validated (format_uuid F competitionId && format_uuid F schoolId) st
    (guarded (delete_preHandler u competitionId st) st
       (delete_handler competitionId schoolId st)).

End AllowedSchoolRoutes.

(** ** The decision table

    One constructor per registered route; [decide] runs the hooks of the route
    in the order of the request lifecycle (onRequest, preValidation,
    preHandler), the schema validation left out. *)



Inductive Operation : Type :=
| TenantList
| TenantGet (id : string)
| TenantCreate
| TenantUpdate (id : string)
| TenantDelete (id : string)
| UserDebug
| UserList
| UserGet (id : string)
| UserCreate (body : UserBody.t)
| UserUpdate (id : string) (body : UserBody.t)
| UserDelete (id : string)
| UserListByTenant (tenantId : string)
| CompetitionList
| CompetitionGet (id : string)
| CompetitionCreate (body : CompetitionBody.t)
| CompetitionUpdate (id : string) (body : CompetitionBody.t)
| CompetitionDelete (id : string)
| CompetitionListByTenant (tenantId : string)
| CompetitionListPublic
| GrantList
| GrantListByCompetition (competitionId : string)
| GrantListBySchool (schoolId : string)
| GrantCreate (body : AllowedSchool.t)
| GrantDelete (competitionId schoolId : string).



Record Request : Type := mkRequest {
  user : Caller.t;
  query_tenantId : option string;
  operation : Operation
}.

Definition decide (r : Request) (st : Store) : Decision :=
  let u := user r in
  let q := query_tenantId r in
  match operation r with
  | TenantList | TenantCreate | TenantUpdate _ | TenantDelete _ =>
      TenantRoutes.manage_preHandler u
  | TenantGet id => TenantRoutes.get_by_id_preHandler u id
  | UserDebug => UserRoutes.onRequest u GET None q
  | UserList =>
      and_then (UserRoutes.onRequest u GET None q) (UserRoutes.get_all_preHandler u)
  | UserGet id =>
      and_then (UserRoutes.onRequest u GET None q) (UserRoutes.get_by_id_preHandler u id st)
  | UserCreate body =>
      and_then (UserRoutes.onRequest u POST None q) (UserRoutes.create_preHandler u body)
  | UserUpdate id body =>
      and_then (UserRoutes.onRequest u PUT None q) (UserRoutes.update_preHandler u id body st)
  | UserDelete id =>
      and_then (UserRoutes.onRequest u DELETE None q) (UserRoutes.delete_preHandler u id st)
  | UserListByTenant tenantId =>
      and_then (UserRoutes.onRequest u GET (Some tenantId) q)
        (UserRoutes.get_by_tenant_preHandler u tenantId)
  | CompetitionList | CompetitionListPublic => Allow
  | CompetitionGet id => CompetitionRoutes.get_by_id_preHandler u id st
  | CompetitionCreate body =>
      and_then (CompetitionRoutes.create_preValidation u body)
        (fst (Middleware.enforceTenantId CompetitionBody.set_tenant_id
                u POST None q (Some body)))
  | CompetitionUpdate id body =>
      and_then (CompetitionRoutes.update_preValidation u id body st)
        (fst (Middleware.enforceTenantId CompetitionBody.set_tenant_id
                u PUT None q (Some body)))
  | CompetitionDelete id => CompetitionRoutes.delete_preHandler u id st
  | CompetitionListByTenant tenantId => CompetitionRoutes.get_by_tenant_preHandler u tenantId
  | GrantList => AllowedSchoolRoutes.get_all_preHandler u
  | GrantListByCompetition competitionId =>
      AllowedSchoolRoutes.get_by_competition_preHandler u competitionId st
  | GrantListBySchool schoolId => AllowedSchoolRoutes.get_by_school_preHandler u schoolId
  | GrantCreate body => fst (AllowedSchoolRoutes.create_preHandler u body st)
  | GrantDelete competitionId _ => AllowedSchoolRoutes.delete_preHandler u competitionId st
  end.

(** The requests on which a guard replies 403 to a superuser: a DELETE
    /users/:id whose [:id] is the caller's id as the token spells it, a PUT
    /users/:id with such an [:id] whose body carries a role or a tenant, and a
    PUT /competitions/:id of an existing competition whose body carries a
    tenant that is not, as a string, the tenant of the row. *)
Definition superuser_exception (r : Request) (st : Store) : bool :=
  match operation r with
  | UserDelete id => id =? Caller.id (user r)
  | UserUpdate id body =>
      (id =? Caller.id (user r))
      && (truthy (UserBody.role body) || truthy (UserBody.tenant_id body))
  | CompetitionUpdate id body =>
      match single (competitions_eq_id st id) with
      | Some competition =>
          truthy (CompetitionBody.tenant_id body)
          && negb (strict_eq (CompetitionBody.tenant_id body)
                     (Some (Competition.tenant_id competition)))
      | None => false
      end
  | _ => false
  end.

(** The primary key of a table: no two rows carry the same uuid. *)
Definition primary_key {A} (key : A -> string) (rows : list A) : Prop :=
  NoDup (map (fun r => uuid_text (key r)) rows).

(** An AllowedSchool grant names [school] for the competition [cid]. *)
Definition granted (st : Store) (cid school : string) : bool :=
  existsb (fun a => same_uuid (AllowedSchool.competition_id a) cid
                    && same_uuid (AllowedSchool.school_id a) school)
    (competition_allowed_schools st).

(** The rows the per-school query is specified to return for tenant [A]:
    every public competition, every competition owned by [A], and every
    restricted competition of another tenant with a grant naming [A]. *)
Definition spec_school_accessible (A : string) (st : Store) (c : Competition.t) : bool :=
  Visibility_eqb (Competition.visibility c) public
  || same_uuid (Competition.tenant_id c) A
  || (Visibility_eqb (Competition.visibility c) restricted
      && negb (same_uuid (Competition.tenant_id c) A)
      && granted st (Competition.id c) A).

(** The rows the three queries of the handler select for [schoolId]. *)
Definition code_school_accessible (schoolId : string) (st : Store) (c : Competition.t)
  : bool :=
  Visibility_eqb (Competition.visibility c) public
  || (same_uuid (Competition.tenant_id c) schoolId
      && Visibility_eqb (Competition.visibility c) restricted)
  || (negb (same_uuid (Competition.tenant_id c) schoolId)
      && granted st (Competition.id c) schoolId).

(** The closed set of roles of the data model. *)
Definition known_role (role : string) : Prop :=
  role = "superuser" \/ role = "school_admin" \/ role = "student".

(** ** The authentication hook of auth.middleware.ts

    [authPlugin] decodes the bearer token and sets [request.user]. The token
    library is a parameter; the values of the token are JSON strings or null,
    [JUndefined] standing for an absent key. *)

Inductive JsVal : Type := JUndefined | JNull | JStr (s : string).

Definition js_truthy (v : JsVal) : bool :=
  match v with
  | JStr s => negb (s =? EmptyString)
  | _ => false
  end.

(** [s.startsWith(pat)] and [s.includes(pat)] *)
Fixpoint starts_with (s pat : string) : bool :=
  match pat with
  | EmptyString => true
  | String p pat' =>
      match s with
      | EmptyString => false
      | String c s' => Ascii.eqb c p && starts_with s' pat'
      end
  end.

Fixpoint str_includes (s pat : string) : bool :=
  starts_with s pat
  || match s with
     | EmptyString => false
     | String _ rest => str_includes rest pat
     end.

(** [s.split(sep)] for a separator of one character. *)
Fixpoint split_on (sep : ascii) (s : string) : list string :=
  match s with
  | EmptyString => [EmptyString]
  | String c rest =>
      if Ascii.eqb c sep then EmptyString :: split_on sep rest
      else
        match split_on sep rest with
        | [] => [String c EmptyString]
        | piece :: pieces => String c piece :: pieces
        end
  end.

(** The keys of [user_metadata] that [request.user] exposes. *)
Module Metadata.
Record t : Type := mk { id : JsVal; email : JsVal; tenant_id : JsVal; role : JsVal }.
Definition empty : t := mk JUndefined JUndefined JUndefined JUndefined.
Definition set_tenant_id (m : t) (v : JsVal) : t := mk (id m) (email m) v (role m).
End Metadata.

(** The decoded token. *)
Module Payload.
Record t : Type := mk { sub : JsVal; user_metadata : option Metadata.t }.
End Payload.

(** [request.user] as the hook builds it. *)
Module RequestUser.
Record t : Type := mk { id : JsVal; email : JsVal; tenant_id : JsVal; role : JsVal }.
End RequestUser.

Module AuthPlugin.

(** The four ways the hook calls [jwt.verify]: with the secret as it is, with
    its base64 decoding as a string, as a buffer, and as a buffer with the
    algorithm HS256. *)
Inductive Attempt : Type := RawSecret | DecodedString | DecodedBuffer | DecodedBufferHS256.

Inductive Result : Type :=
| Skipped
| Rejected (code : nat) (message : string)
| Authenticated (user : RequestUser.t) (backfill : option (string * string)).

Definition public_endpoints : list string :=
  ["/health"; "/api/login"; "/api/register"; "/docs"; "/documentation"].

(** [authHeader && authHeader.split(' ')[1]] *)
Definition bearer_token (authorization : option string) : option string :=
  if truthy authorization then
    match authorization with
    | Some h => nth_error (split_on " "%char h) 1
    | None => None
    end
  else authorization.

(** The first of the four calls that does not throw. *)
Definition verify_any (jwt_verify : Attempt -> string -> string -> option Payload.t)
    (jwtSecret token : string) : option Payload.t :=
  match jwt_verify RawSecret jwtSecret token with
  | Some decoded => Some decoded
  | None =>
      match jwt_verify DecodedString jwtSecret token with
      | Some decoded => Some decoded
      | None =>
          match jwt_verify DecodedBuffer jwtSecret token with
          | Some decoded => Some decoded
          | None => jwt_verify DecodedBufferHS256 jwtSecret token
          end
      end
  end.

Definition isTenantRequired (url : string) : bool :=
  negb (str_includes url "/api/auth-test")
  && negb (str_includes url "/api/tenants")
  && negb (str_includes url "/api/users/me").

(** A key of [{ ..., ...userMetadata }]: the value of the metadata when the
    key is there, the value written before the spread otherwise. *)
Definition spread (before metadata : JsVal) : JsVal :=
  match metadata with
  | JUndefined => before
  | v => v
  end.

(** [{ id: decoded.sub, tenant_id: userMetadata.tenant_id,
       role: userMetadata.role || 'student', ...userMetadata }] *)
Definition request_user (sub : string) (userMetadata : Metadata.t) : RequestUser.t :=
  RequestUser.mk
    (spread (JStr sub) (Metadata.id userMetadata))
    (spread JUndefined (Metadata.email userMetadata))
    (spread (Metadata.tenant_id userMetadata) (Metadata.tenant_id userMetadata))
    (spread (if js_truthy (Metadata.role userMetadata)
             then Metadata.role userMetadata
             else JStr "student")
       (Metadata.role userMetadata)).

(** The onRequest hook. [backfill] is the call
    [supabase.auth.admin.updateUserById(sub, { user_metadata: { tenant_id } })]
    the hook makes when it takes the tenant from the table of users. *)
Definition onRequest (jwt_verify : Attempt -> string -> string -> option Payload.t)
    (jwtSecret : option string) (st : Store) (url : string)
    (authorization : option string) : Result :=
  if negb (url =? EmptyString)
     && existsb (fun endpoint => str_includes url endpoint) public_endpoints
  then Skipped
  else
    match bearer_token authorization with
    | None => Rejected 401 "No token provided"
    | Some token =>
        if token =? EmptyString then Rejected 401 "No token provided"
        else if negb (truthy jwtSecret) then Rejected 500 "Server configuration error"
        else
          match jwtSecret with
          | None => Rejected 500 "Server configuration error"
          | Some secret =>
              match verify_any jwt_verify secret token with
              | None => Rejected 401 "Invalid authentication token"
              | Some decoded =>
                  match Payload.sub decoded with
                  | JStr sub =>
                      if sub =? EmptyString then Rejected 401 "Invalid token"
                      else
                        let userMetadata :=
                          match Payload.user_metadata decoded with
                          | Some m => m
                          | None => Metadata.empty
                          end in
                        if negb (js_truthy (Metadata.tenant_id userMetadata))
                           && isTenantRequired url
                        then
                          match single (users_eq_id st sub) with
                          | Some userData =>
                              if negb (User.tenant_id userData =? EmptyString)
                              then
                                Authenticated
                                  (request_user sub
                                     (Metadata.set_tenant_id userMetadata
                                        (JStr (User.tenant_id userData))))
                                  (Some (sub, User.tenant_id userData))
                              else Rejected 403 "User does not have a tenant assigned"
                          | None => Rejected 403 "User does not have a tenant assigned"
                          end
                        else Authenticated (request_user sub userMetadata) None
                  | _ => Rejected 401 "Invalid token"
                  end
              end
          end
    end.

(** The caller the routes see, when the three keys they read are strings. *)
Definition caller_of (user : RequestUser.t) : option Caller.t :=
  match RequestUser.id user, RequestUser.tenant_id user, RequestUser.role user with
  | JStr id, JStr tenant_id, JStr role =>
      Some (Caller.mk id
              (match RequestUser.email user with
               | JStr e => e
               | _ => EmptyString
               end)
              tenant_id role)
  | _, _, _ => None
  end.

End AuthPlugin.

(** ** The writes of the API

    One constructor per route that writes to the store, with the payload the
    route reads; [perform] runs the route through its lifecycle and keeps the
    status of the reply and the store it leaves. *)

Inductive Write : Type :=
| WTenantCreate (name : option string)
| WTenantUpdate (id : string) (name : option string)
| WTenantDelete (id : string)
| WUserCreate (body : UserBody.t)
| WUserUpdate (id : string) (body : UserBody.t)
| WUserDelete (id : string)
| WCompetitionCreate (body : CompetitionBody.t)
| WCompetitionUpdate (id : string) (body : CompetitionBody.t)
| WCompetitionDelete (id : string)
| WGrantCreate (body : AllowedSchool.t)
| WGrantDelete (competitionId schoolId : string).

Definition outcome {A} (r : Response A * Store) : nat * Store :=
  (status (fst r), snd r).

Definition perform (F : Formats) (env : Env) (u : Caller.t) (q : option string)
    (w : Write) (st : Store) : nat * Store :=
  match w with
  | WTenantCreate name => outcome (TenantRoutes.create env u name st)
  | WTenantUpdate id name => outcome (TenantRoutes.update F u id name st)
  | WTenantDelete id => outcome (TenantRoutes.delete F u id st)
  | WUserCreate body => outcome (UserRoutes.create F env u q body st)
  | WUserUpdate id body => outcome (UserRoutes.update F u id q body st)
  | WUserDelete id => outcome (UserRoutes.delete F u id q st)
  | WCompetitionCreate body => outcome (CompetitionRoutes.create F env u q body st)
  | WCompetitionUpdate id body => outcome (CompetitionRoutes.update F u id q body st)
  | WCompetitionDelete id => outcome (CompetitionRoutes.delete F u id st)
  | WGrantCreate body => outcome (AllowedSchoolRoutes.create F u body st)
  | WGrantDelete competitionId schoolId =>
      outcome (AllowedSchoolRoutes.delete F u competitionId schoolId st)
  end.

(** The key of a grant: the pair of its two uuids. *)
Definition grant_key (a : AllowedSchool.t) : string * string :=
  (uuid_text (AllowedSchool.competition_id a), uuid_text (AllowedSchool.school_id a)).

(** The primary keys of SUPABASE_SCRIPT.md. *)
Definition keys_hold (st : Store) : Prop :=
  primary_key Tenant.id (tenants st)
  /\ primary_key User.id (users st)
  /\ primary_key Competition.id (competitions st)
  /\ NoDup (map grant_key (competition_allowed_schools st)).

(** The foreign keys of SUPABASE_SCRIPT.md. *)
Definition references_hold (st : Store) : Prop :=
  (forall r, In r (users st) -> tenant_exists st (User.tenant_id r) = true)
  /\ (forall c, In c (competitions st) ->
                tenant_exists st (Competition.tenant_id c) = true)
  /\ (forall a, In a (competition_allowed_schools st) ->
                competition_exists st (AllowedSchool.competition_id a) = true
                /\ tenant_exists st (AllowedSchool.school_id a) = true).

Definition consistent (st : Store) : Prop := keys_hold st /\ references_hold st.

(** The condition under which the guards of GET /competitions/:id and of
    GET /competition-allowed-schools/competition/:competitionId let a caller
    through for a row [c]. *)
Definition may_read (u : Caller.t) (st : Store) (c : Competition.t) : bool :=
  (Caller.role u =? "superuser")
  || Visibility_eqb (Competition.visibility c) public
  || (Competition.tenant_id c =? Caller.tenant_id u)
  || (Visibility_eqb (Competition.visibility c) restricted
      && match single (allowed_eq st (Competition.id c) (Caller.tenant_id u)) with
         | Some _ => true
         | None => false
         end).

(** The write of the preHandler of POST /competition-allowed-schools on one
    row: [update({ visibility: 'restricted' }).eq('id', cid)]. *)
Definition restrict_competition (cid : string) (c : Competition.t) : Competition.t :=
  if same_uuid (Competition.id c) cid
  then Competition.mk (Competition.id c) (Competition.title c)
         (Competition.description c) restricted
         (Competition.tenant_id c) (Competition.created_at c)
  else c.

Definition is_superuser (r : User.t) : bool :=
  match User.role r with
  | superuser => true
  | _ => false
  end.

(** The rows of [users] with the role superuser. *)
Definition superusers (st : Store) : list User.t := filter is_superuser (users st).

(** The routes whose only guard is [requireRole(['superuser'])]. *)
Definition superuser_only (op : Operation) : bool :=
  match op with
  | TenantList | TenantCreate | TenantUpdate _ | TenantDelete _ | UserList | GrantList =>
      true
  | _ => false
  end.

(** ** The seed data of SUPABASE_SEED.md *)

Module Seed.

Definition is_hex (c : Ascii.ascii) : bool :=
  let n := Ascii.nat_of_ascii c in
  (Nat.leb 48 n && Nat.leb n 57) || (Nat.leb 97 n && Nat.leb n 102)
  || (Nat.leb 65 n && Nat.leb n 70).

Fixpoint uuid_from (i : nat) (s : string) : bool :=
  match s with
  | EmptyString => Nat.eqb i 36
  | String c rest =>
      (if Nat.eqb i 8 || Nat.eqb i 13 || Nat.eqb i 18 || Nat.eqb i 23
       then Ascii.eqb c "-"%char
       else is_hex c)
      && uuid_from (S i) rest
  end.

(** A stand-in for the formats of the validator: 8-4-4-4-12 hexadecimal
    digits, and any non-empty string as an e-mail address. *)
Definition formats : Formats :=
  mkFormats (uuid_from 0) (fun s => negb (s =? EmptyString)).

Definition school1 : string := "34560171-ffd9-48c6-8367-460efd424ee5".
Definition school2 : string := "a367592b-20be-4605-ba64-8d7726a66c60".
Definition school3 : string := "90b0527f-28e3-476e-9826-e33ab734a1a6".

Definition now : string := "2025-01-01T00:00:00+00:00".

Definition developer : User.t :=
  User.mk "ef594b11-d187-4e8f-b738-4840d5bf22aa" "developer@josematoswork.com"
    school1 superuser.
Definition admin1 : User.t :=
  User.mk "d3230f42-571a-497c-b9a7-cc1f77c305fe" "admin@school1.com" school1 school_admin.
Definition admin2 : User.t :=
  User.mk "8ee5a2cd-351a-4d48-b119-72665e820502" "admin@school2.com" school2 school_admin.
Definition admin3 : User.t :=
  User.mk "d6af08ba-c600-4283-a157-fb03c9c93c25" "admin@school3.com" school3 school_admin.
Definition student1 : User.t :=
  User.mk "92be4158-5543-414f-8dcf-dcda61127f06" "student1@school1.com" school1 student.
Definition student2 : User.t :=
  User.mk "e4aad776-b198-4df4-a8b6-07313dba54e2" "student2@school2.com" school2 student.
Definition student3 : User.t :=
  User.mk "4718948e-7fe5-4f33-a0ff-bfb5ed9964d4" "student3@school3.com" school3 student.
Definition student4 : User.t :=
  User.mk "6be643f0-fd4e-4eb3-8ba8-fce94f8bf3d1" "student4@school3.com" school3 student.

Definition s1c1 : Competition.t :=
  Competition.mk "182a0a89-7cbf-4fa8-9288-076c599129eb" "School 1 Competition 1"
    (Some "Public competition held by School 1") public school1 now.
Definition s1c2 : Competition.t :=
  Competition.mk "65eff365-bad0-413e-a6d4-8937b3339275" "School 1 Competition 2"
    (Some "Private competition held by School 1") private school1 now.
Definition s1c3 : Competition.t :=
  Competition.mk "25183447-ee94-49d0-8c20-55cf7f6207b0" "School 1 Competition 3"
    (Some "Restricted competition held by School 1") restricted school1 now.
Definition s2c1 : Competition.t :=
  Competition.mk "59cba21e-34e1-44c2-8268-33be815211f4" "School 2 Competition 1"
    (Some "Public competition held by School 2") public school2 now.
Definition s2c2 : Competition.t :=
  Competition.mk "37d40bb3-35bc-4292-8b76-980fa42212d4" "School 2 Competition 2"
    (Some "Private competition held by School 2") private school2 now.
Definition s2c3 : Competition.t :=
  Competition.mk "bb4d7c70-4ded-46ab-b195-9286567cdcb7" "School 2 Competition 3"
    (Some "Restricted competition held by School 2") restricted school2 now.
Definition s3c1 : Competition.t :=
  Competition.mk "69d5bb4c-46e6-4b44-b008-0f92657a5bc2" "School 3 Competition 1"
    (Some "Public competition held by School 3") public school3 now.
Definition s3c2 : Competition.t :=
  Competition.mk "0c2aaf25-1da5-43e0-93e7-a5f8e7465713" "School 3 Competition 2"
    (Some "Private competition held by School 3") private school3 now.
Definition s3c3 : Competition.t :=
  Competition.mk "3aded718-afaa-42eb-97af-cb4792a85563" "School 3 Competition 3"
    (Some "Restricted competition held by School 3") restricted school3 now.

Definition store : Store :=
  mkStore
    [Tenant.mk school1 "School 1" now; Tenant.mk school2 "School 2" now;
     Tenant.mk school3 "School 3" now]
    [admin3; admin2; developer; admin1; student3; student4; student2; student1]
    [s1c1; s1c2; s1c3; s2c1; s2c2; s2c3; s3c1; s3c2; s3c3]
    [AllowedSchool.mk (Competition.id s1c3) school3;
     AllowedSchool.mk (Competition.id s2c3) school1;
     AllowedSchool.mk (Competition.id s3c3) school2].

(** The identity the token of a stored user resolves to. *)
Definition caller_of (r : User.t) : Caller.t :=
  Caller.mk (User.id r) (User.email r) (User.tenant_id r) (role_name (User.role r)).

(** An identifier no row carries. *)
Definition nobody : string := "00000000-0000-0000-0000-000000000000".

(** A caller of School 2 whose token names a role outside the three of the
    data model. *)
Definition teacher : Caller.t :=
  Caller.mk (User.id student2) (User.email student2) school2 "teacher".

(** The ids of the seeded superuser and of the administrator of School 1,
    written with the hexadecimal digits in upper case. *)
Definition developer_upper : string := "EF594B11-D187-4E8F-B738-4840D5BF22AA".
Definition admin1_upper : string := "D3230F42-571A-497C-B9A7-CC1F77C305FE".

End Seed.

(** * Properties *)

(** ** Strings and queries *)

Lemma single_Some {A} (rows : list A) (r : A) :
  single rows = Some r -> rows = [r].
Proof.
  destruct rows as [|x [|y rest]]; simpl; intros H; try discriminate.
  now inversion H.
Qed.

Lemma single_nil {A} : single (@nil A) = None.
Proof. reflexivity. Qed.

Lemma truthy_Some (s : string) : s <> EmptyString -> truthy (Some s) = true.
Proof.
  intros H; simpl. destruct (String.eqb_spec s EmptyString); [contradiction | reflexivity].
Qed.

Lemma strict_eq_Some (a b : string) : strict_eq (Some a) (Some b) = (a =? b).
Proof. reflexivity. Qed.

Lemma and_then_deny (d k : Decision) :
  is_deny d = true -> is_deny (and_then d k) = true.
Proof. destruct d; simpl; [discriminate | reflexivity]. Qed.

Lemma is_deny_false (d : Decision) : is_deny d = false <-> d = Allow.
Proof. destruct d; simpl; split; congruence. Qed.

(** ** Uuids *)

Lemma lower_hex_idem (c : ascii) : lower_hex (lower_hex c) = lower_hex c.
Proof.
  unfold lower_hex.
  repeat match goal with
         | |- context [Ascii.eqb c ?x] => destruct (Ascii.eqb_spec c x); [subst; reflexivity |]
         end.
  repeat match goal with
         | |- context [Ascii.eqb c ?x] => destruct (Ascii.eqb_spec c x); [contradiction |]
         end.
  reflexivity.
Qed.

Lemma uuid_text_idem (s : string) : uuid_text (uuid_text s) = uuid_text s.
Proof.
  induction s as [|c s IH]; simpl; [reflexivity |].
  now rewrite lower_hex_idem, IH.
Qed.

Lemma same_uuid_eq (a b : string) : same_uuid a b = true <-> uuid_text a = uuid_text b.
Proof. unfold same_uuid. apply String.eqb_eq. Qed.

Lemma same_uuid_neq (a b : string) : same_uuid a b = false <-> uuid_text a <> uuid_text b.
Proof. unfold same_uuid. apply String.eqb_neq. Qed.

Lemma same_uuid_refl (a : string) : same_uuid a a = true.
Proof. apply same_uuid_eq. reflexivity. Qed.

Lemma same_uuid_sym (a b : string) : same_uuid a b = same_uuid b a.
Proof. unfold same_uuid. apply String.eqb_sym. Qed.

Lemma same_uuid_text_l (a b : string) : same_uuid (uuid_text a) b = same_uuid a b.
Proof. unfold same_uuid. now rewrite uuid_text_idem. Qed.

Lemma same_uuid_text_r (a b : string) : same_uuid a (uuid_text b) = same_uuid a b.
Proof. unfold same_uuid. now rewrite uuid_text_idem. Qed.

(** Two spellings of one uuid select the same rows. *)
Lemma same_uuid_congr (a b x : string) :
  uuid_text a = uuid_text b -> same_uuid x a = same_uuid x b.
Proof. unfold same_uuid. now intros ->. Qed.

Lemma same_uuid_spec (a b : string) :
  reflect (uuid_text a = uuid_text b) (same_uuid a b).
Proof. unfold same_uuid. apply String.eqb_spec. Qed.

(** ** Superusers *)

Lemma requireRole_superuser (u : Caller.t) :
  Caller.role u = "superuser" -> Middleware.requireRole ["superuser"] u = Allow.
Proof. intros H. unfold Middleware.requireRole. rewrite H. reflexivity. Qed.

Lemma enforceTenantId_superuser {B} (set : B -> string -> B) (u : Caller.t)
    (m : Method) (p q : option string) (body : option B) :
  Caller.role u = "superuser" ->
  Middleware.enforceTenantId set u m p q body = (Allow, body).
Proof. intros H. unfold Middleware.enforceTenantId. rewrite H. reflexivity. Qed.

Lemma onRequest_superuser (u : Caller.t) (m : Method) (p q : option string) :
  Caller.role u = "superuser" -> UserRoutes.onRequest u m p q = Allow.
Proof.
  intros H. unfold UserRoutes.onRequest.
  now rewrite enforceTenantId_superuser.
Qed.




(** The guards that single out the caller compare the [:id] of the route with
    the id of the token as strings: the same uuid spelled with upper-case
    digits is let through, and the store then finds the caller's own row. *)
Example superuser_own_row_by_spelling :
  uuid_text Seed.developer_upper = User.id Seed.developer
  /\ superuser_exception
       (mkRequest (Seed.caller_of Seed.developer) None
          (UserDelete Seed.developer_upper)) Seed.store = false
  /\ decide (mkRequest (Seed.caller_of Seed.developer) None
               (UserDelete Seed.developer_upper)) Seed.store = Allow
  /\ users_eq_id Seed.store Seed.developer_upper = [Seed.developer].
Proof. repeat split. Qed.

(** ** Lookups under the primary key *)

Lemma filter_key_absent {A} (key : A -> string) (rows : list A) (k : string) :
  ~ In (uuid_text k) (map (fun r => uuid_text (key r)) rows) ->
  filter (fun r => same_uuid (key r) k) rows = [].
Proof.
  induction rows as [|a rows IH]; simpl; intros Hk; [reflexivity |].
  destruct (same_uuid_spec (key a) k) as [E|E].
  - exfalso. apply Hk. left. exact E.
  - apply IH. intros Hin. apply Hk. now right.
Qed.

(** Under the primary key, a uuid selects the one row that carries it,
    however it is spelled. *)
Lemma filter_key_spelled {A} (key : A -> string) (rows : list A) (r : A) (k : string) :
  primary_key key rows -> In r rows -> uuid_text (key r) = uuid_text k ->
  filter (fun x => same_uuid (key x) k) rows = [r].
Proof.
  unfold primary_key.
  induction rows as [|a rows IH]; simpl; intros Hnd Hin Hk; [contradiction |].
  inversion Hnd as [|? ? Ha Hrows]; subst.
  destruct Hin as [->|Hin].
  - rewrite (proj2 (same_uuid_eq (key r) k) Hk). f_equal.
    apply filter_key_absent. now rewrite <- Hk.
  - destruct (same_uuid_spec (key a) k) as [E|E].
    + exfalso. apply Ha. rewrite E, <- Hk.
      apply (in_map (fun r => uuid_text (key r))). exact Hin.
    + now apply IH.
Qed.

Lemma filter_key_unique {A} (key : A -> string) (rows : list A) (r : A) :
  primary_key key rows -> In r rows ->
  filter (fun x => same_uuid (key x) (key r)) rows = [r].
Proof. intros Hpk Hin. now apply filter_key_spelled. Qed.

Lemma competition_lookup (st : Store) (c : Competition.t) :
  primary_key Competition.id (competitions st) -> In c (competitions st) ->
  single (competitions_eq_id st (Competition.id c)) = Some c.
Proof.
  intros Hpk Hin. unfold competitions_eq_id.
  now rewrite (filter_key_unique Competition.id _ c Hpk Hin).
Qed.

Lemma competition_lookup_spelled (st : Store) (c : Competition.t) (id : string) :
  primary_key Competition.id (competitions st) -> In c (competitions st) ->
  uuid_text (Competition.id c) = uuid_text id ->
  competitions_eq_id st id = [c].
Proof. intros Hpk Hin E. now apply filter_key_spelled. Qed.

Lemma user_lookup (st : Store) (r : User.t) :
  primary_key User.id (users st) -> In r (users st) ->
  single (users_eq_id st (User.id r)) = Some r.
Proof.
  intros Hpk Hin. unfold users_eq_id.
  now rewrite (filter_key_unique User.id _ r Hpk Hin).
Qed.

Lemma user_lookup_spelled (st : Store) (r : User.t) (id : string) :
  primary_key User.id (users st) -> In r (users st) ->
  uuid_text (User.id r) = uuid_text id ->
  users_eq_id st id = [r].
Proof. intros Hpk Hin E. now apply filter_key_spelled. Qed.

(** The row a lookup finds carries the uuid that was asked for. *)
Lemma single_filter_In {A} (p : A -> bool) (rows : list A) (r : A) :
  single (filter p rows) = Some r -> In r rows /\ p r = true.
Proof.
  intros H. apply single_Some in H. apply filter_In. rewrite H. now left.
Qed.

Lemma single_filter_only {A} (p : A -> bool) (rows : list A) (r x : A) :
  single (filter p rows) = Some r -> In x rows -> p x = true -> x = r.
Proof.
  intros H Hin Hp. apply single_Some in H.
  assert (Hx : In x (filter p rows)) by (apply filter_In; auto).
  rewrite H in Hx. destruct Hx as [E|[]]. now symmetry.
Qed.

Lemma seed_competitions_key : primary_key Competition.id (competitions Seed.store).
Proof.
  unfold primary_key. simpl.
  repeat (constructor; [simpl; intuition discriminate |]). constructor.
Qed.

Lemma seed_users_key : primary_key User.id (users Seed.store).
Proof.
  unfold primary_key. simpl.
  repeat (constructor; [simpl; intuition discriminate |]). constructor.
Qed.

Lemma primary_key_inj_uuid {A} (key : A -> string) (rows : list A) (a b : A) :
  primary_key key rows -> In a rows -> In b rows ->
  uuid_text (key a) = uuid_text (key b) -> a = b.
Proof.
  intros Hpk Ha Hb E.
  pose proof (filter_key_unique key rows a Hpk Ha) as Fa.
  assert (Hin : In b (filter (fun x => same_uuid (key x) (key a)) rows)).
  { apply filter_In. split; [exact Hb |]. apply same_uuid_eq. now symmetry. }
  rewrite Fa in Hin. destruct Hin as [H|[]]. exact H.
Qed.

Lemma primary_key_inj {A} (key : A -> string) (rows : list A) (a b : A) :
  primary_key key rows -> In a rows -> In b rows -> key a = key b -> a = b.
Proof.
  intros Hpk Ha Hb E. apply (primary_key_inj_uuid key rows a b Hpk Ha Hb).
  now rewrite E.
Qed.

(** Two rows of a table differ in their uuids, hence in their spelled keys. *)
Lemma primary_key_NoDup {A} (key : A -> string) (rows : list A) :
  primary_key key rows -> NoDup (map key rows).
Proof.
  unfold primary_key. intros H.
  rewrite <- (map_map key uuid_text) in H. now apply NoDup_map_inv in H.
Qed.

(** ** Reading competitions *)

(** C7: GET /competitions has no guard and answers every caller with the
    whole table, private and restricted rows of every tenant included; the
    reply does not depend on the caller. *)
Theorem get_all_competitions_ignores_caller (u1 u2 : Caller.t) (q : option string)
    (st : Store) :
  decide (mkRequest u1 q CompetitionList) st = Allow
  /\ CompetitionRoutes.get_all u1 st = (Sent 200 (competitions st), st)
  /\ CompetitionRoutes.get_all u1 st = CompetitionRoutes.get_all u2 st.
Proof. repeat split. Qed.

(** The list is wider than the guard of the single read: a student of
    School 1 is refused the private competition of School 2 by id and receives
    it in the list. *)
Example list_all_returns_rows_read_by_id_denies :
  decide (mkRequest (Seed.caller_of Seed.student1) None
            (CompetitionGet (Competition.id Seed.s2c2))) Seed.store
  = Deny "Access denied to this competition"
  /\ exists rows,
      fst (CompetitionRoutes.get_all (Seed.caller_of Seed.student1) Seed.store)
      = Sent 200 rows
      /\ In Seed.s2c2 rows.
Proof.
  split; [reflexivity |]. eexists. split; [reflexivity |]. simpl. tauto.
Qed.

(** C9: a competition of the table whose visibility is public can be read by
    every authenticated caller, whatever the role and the tenant: the guard of
    GET /competitions/:id allows the request and the route answers 200 with
    the row. *)
Theorem public_competition_read_allowed (F : Formats) (u : Caller.t)
    (q : option string) (st : Store) (c : Competition.t) :
  primary_key Competition.id (competitions st) ->
  In c (competitions st) ->
  Competition.visibility c = public ->
  decide (mkRequest u q (CompetitionGet (Competition.id c))) st = Allow
  /\ (format_uuid F (Competition.id c) = true ->
      CompetitionRoutes.get_by_id F u (Competition.id c) st = (Sent 200 c, st)).
Proof.
  intros Hpk Hin Hvis.
  pose proof (competition_lookup st c Hpk Hin) as Hc.
  assert (Hd : CompetitionRoutes.get_by_id_preHandler u (Competition.id c) st = Allow).
  { unfold CompetitionRoutes.get_by_id_preHandler. rewrite Hc, Hvis. simpl.
    destruct (Caller.role u =? "superuser"); [reflexivity |].
    destruct ((Caller.role u =? "school_admin")
              && (Competition.tenant_id c =? Caller.tenant_id u)); reflexivity. }
  split; [exact Hd |].
  intros Hfmt. unfold CompetitionRoutes.get_by_id, CompetitionRoutes.get_by_id_handler.
  rewrite Hfmt, Hd, Hc. reflexivity.
Qed.

Lemma public_competition_read_allowed_witness :
  decide (mkRequest (Seed.caller_of Seed.student3) None
            (CompetitionGet (Competition.id Seed.s1c1))) Seed.store = Allow
  /\ CompetitionRoutes.get_by_id Seed.formats (Seed.caller_of Seed.student3)
       (Competition.id Seed.s1c1) Seed.store = (Sent 200 Seed.s1c1, Seed.store).
Proof.
  destruct (public_competition_read_allowed Seed.formats (Seed.caller_of Seed.student3)
              None Seed.store Seed.s1c1 seed_competitions_key) as [Hd Hr].
  - simpl. tauto.
  - reflexivity.
  - split; [exact Hd | apply Hr; reflexivity].
Defined.

(** ** Tenant-scoped lists *)

Lemma get_by_tenant_never_denies (u : Caller.t) (tenantId : string) :
  CompetitionRoutes.get_by_tenant_preHandler u tenantId = Allow.
Proof.
  unfold CompetitionRoutes.get_by_tenant_preHandler.
  destruct (Caller.role u =? "superuser"); [reflexivity |].
  destruct ((Caller.role u =? "school_admin") && negb (tenantId =? Caller.tenant_id u));
    destruct ((Caller.role u =? "student") && negb (tenantId =? Caller.tenant_id u));
    reflexivity.
Qed.

Lemma get_by_school_never_denies (u : Caller.t) (schoolId : string) :
  AllowedSchoolRoutes.get_by_school_preHandler u schoolId = Allow.
Proof.
  unfold AllowedSchoolRoutes.get_by_school_preHandler.
  destruct (Caller.role u =? "superuser"); [reflexivity |].
  destruct (negb (schoolId =? Caller.tenant_id u)); reflexivity.
Qed.

(** C6 does not hold of the code: a student of School 1 who asks for the
    competitions of School 2, or for the competitions School 2 can access, is
    not denied and receives the rows of School 2, its private competition
    among them. *)
Theorem tenant_mismatch_not_enforced :
  Caller.role (Seed.caller_of Seed.student1) = "student"
  /\ Caller.tenant_id (Seed.caller_of Seed.student1) <> Seed.school2
  /\ decide (mkRequest (Seed.caller_of Seed.student1) None
               (CompetitionListByTenant Seed.school2)) Seed.store = Allow
  /\ fst (CompetitionRoutes.get_by_tenant Seed.formats (Seed.caller_of Seed.student1)
            Seed.school2 Seed.store)
     = Sent 200 [Seed.s2c1; Seed.s2c2; Seed.s2c3]
  /\ decide (mkRequest (Seed.caller_of Seed.student1) None
               (GrantListBySchool Seed.school2)) Seed.store = Allow
  /\ fst (AllowedSchoolRoutes.get_by_school Seed.formats (Seed.caller_of Seed.student1)
            Seed.school2 Seed.store)
     = Sent 200 [Seed.s1c1; Seed.s2c1; Seed.s3c1; Seed.s2c3; Seed.s3c3].
Proof. repeat split; try reflexivity. discriminate. Qed.

(** ** Updating users *)


(** C4 does not hold of the code: the administrator of School 1 who changes
    the e-mail address of a student of School 1 passes the three checks of the
    school_admin branch and is then refused by the final role test. *)
Theorem school_admin_update_same_tenant_denied :
  Caller.role (Seed.caller_of Seed.admin1) = "school_admin"
  /\ In Seed.student1 (users Seed.store)
  /\ User.tenant_id Seed.student1 = Caller.tenant_id (Seed.caller_of Seed.admin1)
  /\ User.role Seed.student1 = student
  /\ decide (mkRequest (Seed.caller_of Seed.admin1) None
               (UserUpdate (User.id Seed.student1)
                  (UserBody.mk (Some "student.one@school1.com") None None)))
       Seed.store
     = Deny "Insufficient permissions"
  /\ UserRoutes.update Seed.formats (Seed.caller_of Seed.admin1) (User.id Seed.student1)
       None (UserBody.mk (Some "student.one@school1.com") None None) Seed.store
     = (Failed 403 "Insufficient permissions", Seed.store).
Proof. repeat split; try reflexivity. simpl. tauto. Qed.

Lemma enum_roles_truthy (r : string) :
  enum ["school_admin"; "student"] r = true -> truthy (Some r) = true.
Proof.
  unfold enum, includes. cbn [existsb].
  rewrite !orb_true_iff, !String.eqb_eq.
  intros [<-|[<-|H]]; [reflexivity | reflexivity | discriminate].
Qed.

Lemma format_truthy (check : string -> bool) (s : string) :
  check EmptyString = false -> check s = true -> truthy (Some s) = true.
Proof.
  intros H0 Hs. apply truthy_Some. intros ->. congruence.
Qed.

Lemma guarded_deny {A S} (d : Decision) (st : S) (next : Response A * S) :
  is_deny d = true -> exists m, guarded d st next = (Failed 403 m, st).
Proof. destruct d as [|m]; simpl; [discriminate | intros _; now exists m]. Qed.

Lemma update_schema_truthy (F : Formats) (body : UserBody.t) :
  format_uuid F EmptyString = false ->
  UserRoutes.update_schema F body = true ->
  UserBody.role body <> None \/ UserBody.tenant_id body <> None ->
  truthy (UserBody.role body) || truthy (UserBody.tenant_id body) = true.
Proof.
  intros H0 Hschema Hset.
  unfold UserRoutes.update_schema in Hschema.
  apply andb_prop in Hschema as [Hschema Hrole].
  apply andb_prop in Hschema as [_ Htenant].
  destruct Hset as [Hset|Hset].
  - destruct (UserBody.role body) as [r|]; [| congruence].
    simpl in Hrole. now rewrite (enum_roles_truthy r Hrole).
  - destruct (UserBody.tenant_id body) as [t|]; [| congruence].
    simpl in Htenant. rewrite (format_truthy _ t H0 Htenant). apply orb_true_r.
Qed.

Lemma self_update_preHandler (u : Caller.t) (body : UserBody.t) (st : Store) :
  UserRoutes.update_preHandler u (Caller.id u) body st
  = if truthy (UserBody.role body) || truthy (UserBody.tenant_id body)
    then Deny "Cannot change your own role or tenant"
    else Allow.
Proof. unfold UserRoutes.update_preHandler. now rewrite String.eqb_refl. Qed.

(** C8 does not hold of the code: the guard recognises a self-update by
    comparing the [:id] of the route with the id of the token as strings. The
    seeded superuser who sends the own id with the hexadecimal digits in upper
    case and the body [{ role: 'student' }] passes the schema and the guard
    (the request is taken for the update of another user, which a superuser
    may do), the store finds the caller's own row under that id, and the
    reply is 200 with the caller's role changed. *)
Theorem self_update_by_spelling_changes_role :
  Caller.id (Seed.caller_of Seed.developer) = User.id Seed.developer
  /\ users_eq_id Seed.store Seed.developer_upper = [Seed.developer]
  /\ format_uuid Seed.formats Seed.developer_upper = true
  /\ UserRoutes.update_schema Seed.formats (UserBody.mk None None (Some "student")) = true
  /\ decide (mkRequest (Seed.caller_of Seed.developer) None
               (UserUpdate Seed.developer_upper (UserBody.mk None None (Some "student"))))
       Seed.store
     = Allow
  /\ fst (UserRoutes.update Seed.formats (Seed.caller_of Seed.developer)
            Seed.developer_upper None (UserBody.mk None None (Some "student"))
            Seed.store)
     = Sent 200 (User.mk (User.id Seed.developer) (User.email Seed.developer)
                   (User.tenant_id Seed.developer) student)
  /\ map User.role
       (users_eq_id
          (snd (UserRoutes.update Seed.formats (Seed.caller_of Seed.developer)
                  Seed.developer_upper None (UserBody.mk None None (Some "student"))
                  Seed.store))
          (Caller.id (Seed.caller_of Seed.developer)))
     = [student].
Proof. repeat split. Qed.

(** X26: what the guard of PUT /users/:id does catch. When the [:id] of the
    route is the caller's id as the token spells it, and the body has passed
    the schema of the route and sets [role] or [tenant_id], the guard replies
    403, whatever else the body holds, and the store is untouched. *)
Theorem self_update_role_or_tenant_denied (F : Formats) (u : Caller.t)
    (q : option string) (body : UserBody.t) (st : Store) :
  format_uuid F EmptyString = false ->
  UserRoutes.update_schema F body = true ->
  UserBody.role body <> None \/ UserBody.tenant_id body <> None ->
  UserRoutes.update_preHandler u (Caller.id u) body st
    = Deny "Cannot change your own role or tenant"
  /\ is_deny (decide (mkRequest u q (UserUpdate (Caller.id u) body)) st) = true
  /\ (format_uuid F (Caller.id u) = true ->
      exists m, UserRoutes.update F u (Caller.id u) q body st = (Failed 403 m, st)).
Proof.
  intros H0 Hschema Hset.
  assert (Hd : UserRoutes.update_preHandler u (Caller.id u) body st
               = Deny "Cannot change your own role or tenant").
  { now rewrite self_update_preHandler, (update_schema_truthy F body H0 Hschema Hset). }
  split; [exact Hd |]. split.
  - unfold decide; simpl. rewrite Hd.
    destruct (UserRoutes.onRequest u PUT None q); reflexivity.
  - intros Hid. unfold UserRoutes.update.
    destruct (UserRoutes.onRequest u PUT None q) as [|m]; simpl; [| eauto].
    rewrite Hid, Hschema, Hd. simpl. eauto.
Qed.

Lemma self_update_role_or_tenant_denied_witness :
  is_deny (decide (mkRequest (Seed.caller_of Seed.student1) None
                     (UserUpdate (Caller.id (Seed.caller_of Seed.student1))
                        (UserBody.mk None None (Some "school_admin"))))
             Seed.store) = true.
Proof.
  destruct (self_update_role_or_tenant_denied Seed.formats
              (Seed.caller_of Seed.student1) None
              (UserBody.mk None None (Some "school_admin")) Seed.store)
    as (_ & H & _).
  - reflexivity.
  - reflexivity.
  - left. simpl. discriminate.
  - exact H.
Defined.

(** Without any assumption on the body: a request on the caller's id as the
    token spells it that carries a role or a tenant is never applied; it is
    answered 403 by a hook or 400 by the schema. *)
Lemma self_update_never_applied (F : Formats) (u : Caller.t) (q : option string)
    (body : UserBody.t) (st : Store) :
  format_uuid F EmptyString = false ->
  UserBody.role body <> None \/ UserBody.tenant_id body <> None ->
  exists code m,
    UserRoutes.update F u (Caller.id u) q body st = (Failed code m, st)
    /\ (code = 403 \/ code = 400).
Proof.
  intros H0 Hset. unfold UserRoutes.update.
  destruct (UserRoutes.onRequest u PUT None q) as [|m]; simpl; [| eauto].
  destruct (format_uuid F (Caller.id u)); simpl; [| eauto].
  destruct (UserRoutes.update_schema F body) eqn:Hschema; simpl; [| eauto].
  rewrite self_update_preHandler, (update_schema_truthy F body H0 Hschema Hset).
  simpl. eauto.
Qed.

(** ** Updating competitions *)

(** Every row of the table after an update is an untouched row or the image
    of a selected one. *)
Lemma update_where_In {A} (sel : A -> bool) (f : A -> option A) (rows : list A)
    (table returned : list A) (x : A) :
  update_where sel f rows = Some (table, returned) ->
  In x table ->
  (In x rows /\ sel x = false) \/ (exists r, In r rows /\ sel r = true /\ f r = Some x).
Proof.
  revert table returned.
  induction rows as [|a rows IH]; simpl; intros table returned H Hin.
  - inversion H; subst. contradiction.
  - destruct (update_where sel f rows) as [[table0 returned0]|]; [| discriminate].
    specialize (IH table0 returned0 eq_refl).
    destruct (sel a) eqn:Ea.
    + destruct (f a) as [a'|] eqn:Fa; [| discriminate].
      inversion H; subst. destruct Hin as [<-|Hin].
      * right. exists a. auto.
      * destruct (IH Hin) as [[? ?]|(r & ? & ? & ?)]; [left | right; exists r]; auto.
    + inversion H; subst. destruct Hin as [<-|Hin].
      * left. auto.
      * destruct (IH Hin) as [[? ?]|(r & ? & ? & ?)]; [left | right; exists r]; auto.
Qed.

(** An update that keeps a column on the rows it selects keeps the column. *)
Lemma update_where_map {A B} (g : A -> B) (sel : A -> bool) (f : A -> option A)
    (rows table returned : list A) :
  (forall r r', In r rows -> sel r = true -> f r = Some r' -> g r' = g r) ->
  update_where sel f rows = Some (table, returned) ->
  map g table = map g rows.
Proof.
  revert table returned.
  induction rows as [|a rows IH]; simpl; intros table returned Hf H.
  - now inversion H.
  - destruct (update_where sel f rows) as [[table0 returned0]|]; [| discriminate].
    assert (IH' : map g table0 = map g rows).
    { apply (IH table0 returned0); [| reflexivity]. intros r r' Hr. apply Hf. now right. }
    destruct (sel a) eqn:Ea.
    + destruct (f a) as [a'|] eqn:Fa; [| discriminate].
      inversion H; subst. simpl. rewrite IH'. f_equal. apply Hf; auto.
    + inversion H; subst. simpl. now rewrite IH'.
Qed.

Lemma checked_update_fields (id : string) (body : CompetitionBody.t) (st : Store)
    (r r' : Competition.t) :
  CompetitionRoutes.checked_update id body st r = Some r' ->
  Competition.id r'
  = match CompetitionBody.id body with
    | Some i => uuid_text i
    | None => Competition.id r
    end
  /\ Competition.tenant_id r'
     = match CompetitionBody.tenant_id body with
       | Some t => uuid_text t
       | None => Competition.tenant_id r
       end
  /\ tenant_exists st (Competition.tenant_id r') = true
  /\ existsb (fun x => same_uuid (Competition.id x) (Competition.id r')
                       && negb (same_uuid (Competition.id x) id))
       (competitions st) = false
  /\ (uuid_text (Competition.id r') = uuid_text (Competition.id r)
      \/ existsb (fun a => same_uuid (AllowedSchool.competition_id a) (Competition.id r))
           (competition_allowed_schools st) = false).
Proof.
  unfold CompetitionRoutes.checked_update.
  destruct (match CompetitionBody.visibility body with
            | Some s => visibility_of_string s
            | None => Some (Competition.visibility r)
            end); [| discriminate].
  destruct (tenant_exists st _) eqn:Ht; simpl; [| discriminate].
  destruct (existsb _ (competitions st)) eqn:Hk; [discriminate |].
  destruct (same_uuid_spec
              (match CompetitionBody.id body with
               | Some i => uuid_text i
               | None => Competition.id r
               end) (Competition.id r)) as [E|E]; simpl.
  - intros H; inversion H; subst; simpl.
    split; [reflexivity |]. split; [reflexivity |]. split; [exact Ht |].
    split; [exact Hk | left; exact E].
  - destruct (existsb _ (competition_allowed_schools st)) eqn:Hg; [discriminate |].
    intros H; inversion H; subst; simpl.
    split; [reflexivity |]. split; [reflexivity |]. split; [exact Ht |].
    split; [exact Hk | right; reflexivity].
Qed.

(** The owner of a competition, as a uuid. *)
Lemma update_handler_owners (id : string) (b : CompetitionBody.t) (st : Store) :
  (forall r, In r (competitions st) -> same_uuid (Competition.id r) id = true ->
             CompetitionBody.tenant_id b = None
             \/ exists t, CompetitionBody.tenant_id b = Some t
                          /\ uuid_text t = uuid_text (Competition.tenant_id r)) ->
  map (fun c => uuid_text (Competition.tenant_id c))
    (competitions (snd (CompetitionRoutes.update_handler id b st)))
  = map (fun c => uuid_text (Competition.tenant_id c)) (competitions st).
Proof.
  intros Hb. unfold CompetitionRoutes.update_handler.
  destruct (CompetitionBody.is_empty b); [reflexivity |].
  destruct (update_where _ _ (competitions st)) as [[table returned]|] eqn:Hu;
    [| reflexivity].
  assert (Hm : map (fun c => uuid_text (Competition.tenant_id c)) table
               = map (fun c => uuid_text (Competition.tenant_id c)) (competitions st)).
  { apply (update_where_map _ _ _ _ _ _) with (2 := Hu).
    intros r r' Hr Hsel Hf.
    destruct (checked_update_fields id b st r r' Hf) as (_ & -> & _).
    destruct (Hb r Hr Hsel) as [->|(t & -> & E)]; [reflexivity |].
    now rewrite uuid_text_idem. }
  destruct (single returned); exact Hm.
Qed.

Lemma tenant_change_denied (u : Caller.t) (id : string) (body : CompetitionBody.t)
    (st : Store) (c : Competition.t) (t : string) :
  single (competitions_eq_id st id) = Some c ->
  CompetitionBody.tenant_id body = Some t ->
  t <> EmptyString -> t <> Competition.tenant_id c ->
  is_deny (CompetitionRoutes.update_preValidation u id body st) = true.
Proof.
  intros Hc Hb Ht Hne. unfold CompetitionRoutes.update_preValidation.
  rewrite Hc, Hb, (truthy_Some t Ht), strict_eq_Some.
  destruct (String.eqb_spec t (Competition.tenant_id c)); [contradiction |].
  simpl.
  destruct ((Caller.role u =? "school_admin")
            && negb (Competition.tenant_id c =? Caller.tenant_id u)); [reflexivity |].
  destruct (Caller.role u =? "student"); reflexivity.
Qed.

Lemma update_keeps_owners (F : Formats) (u : Caller.t) (q : option string)
    (id : string) (body : CompetitionBody.t) (st : Store) :
  primary_key Competition.id (competitions st) ->
  format_uuid F EmptyString = false ->
  known_role (Caller.role u) ->
  map (fun c => uuid_text (Competition.tenant_id c))
    (competitions (snd (CompetitionRoutes.update F u id q body st)))
  = map (fun c => uuid_text (Competition.tenant_id c)) (competitions st).
Proof.
  intros Hpk H0 Hrole. unfold CompetitionRoutes.update.
  destruct (CompetitionRoutes.update_preValidation u id body st) as [|m] eqn:Hpre;
    [| reflexivity].
  simpl.
  destruct (format_uuid F id && CompetitionRoutes.update_schema F body) eqn:Hv;
    [| reflexivity].
  simpl.
  apply andb_prop in Hv as [_ Hschema].
  unfold CompetitionRoutes.update_schema in Hschema.
  apply andb_prop in Hschema as [_ Htid].
  assert (Hrow : forall r, In r (competitions st) ->
                           same_uuid (Competition.id r) id = true ->
                           single (competitions_eq_id st id) = Some r).
  { intros r Hr Hsel. apply same_uuid_eq in Hsel.
    now rewrite (competition_lookup_spelled st r id Hpk Hr Hsel). }
  unfold CompetitionRoutes.update_preValidation in Hpre.
  destruct Hrole as [Hr|[Hr|Hr]].
  - (* superuser: the hook leaves the body as sent *)
    rewrite (enforceTenantId_superuser _ _ _ _ _ _ Hr). simpl.
    apply update_handler_owners. intros r Hin Hsel.
    rewrite (Hrow r Hin Hsel), Hr in Hpre. simpl in Hpre.
    destruct (CompetitionBody.tenant_id body) as [t|]; [right | now left].
    simpl in Htid. rewrite (format_truthy _ t H0 Htid), strict_eq_Some in Hpre.
    destruct (String.eqb_spec t (Competition.tenant_id r)); [| discriminate].
    exists t. split; [reflexivity | congruence].
  - (* school_admin: the hook writes the caller's tenant, which owns the row *)
    unfold Middleware.enforceTenantId. rewrite Hr. simpl.
    destruct (truthy (js_or None q) && negb (strict_eq (js_or None q)
                                               (Some (Caller.tenant_id u))));
      [reflexivity |].
    simpl. apply update_handler_owners. intros r Hin Hsel.
    rewrite (Hrow r Hin Hsel), Hr in Hpre. simpl in Hpre.
    destruct (String.eqb_spec (Competition.tenant_id r) (Caller.tenant_id u)) as [E|E];
      [| discriminate].
    right. exists (Caller.tenant_id u). split; [reflexivity | now rewrite E].
  - (* student: refused by the first hook when a row carries the id *)
    unfold Middleware.enforceTenantId. rewrite Hr. simpl.
    destruct (truthy (js_or None q) && negb (strict_eq (js_or None q)
                                               (Some (Caller.tenant_id u))));
      [reflexivity |].
    simpl. apply update_handler_owners. intros r Hin Hsel.
    rewrite (Hrow r Hin Hsel), Hr in Hpre. simpl in Hpre. discriminate.
Qed.

(** Without the assumption that the tenant sent is not the empty string: the
    update is never applied; it is answered 403 by the hook or 400 by the
    schema. *)
Lemma tenant_change_never_applied (F : Formats) (u : Caller.t) (q : option string)
    (body : CompetitionBody.t) (st : Store) (c : Competition.t) (t : string) :
  primary_key Competition.id (competitions st) -> In c (competitions st) ->
  format_uuid F EmptyString = false ->
  CompetitionBody.tenant_id body = Some t -> t <> Competition.tenant_id c ->
  exists code m,
    CompetitionRoutes.update F u (Competition.id c) q body st = (Failed code m, st)
    /\ (code = 403 \/ code = 400).
Proof.
  intros Hpk Hc H0 Hb Hne.
  destruct (String.eqb_spec t EmptyString) as [->|Ht].
  - unfold CompetitionRoutes.update.
    destruct (CompetitionRoutes.update_preValidation u (Competition.id c) body st)
      as [|m]; simpl; [| eauto].
    unfold CompetitionRoutes.update_schema. rewrite Hb. simpl. rewrite H0.
    rewrite !andb_false_r. simpl. eauto.
  - pose proof (tenant_change_denied u _ body st c t (competition_lookup st c Hpk Hc)
                  Hb Ht Hne) as Hd.
    unfold CompetitionRoutes.update.
    destruct (CompetitionRoutes.update_preValidation u (Competition.id c) body st)
      as [|m]; [discriminate | simpl; eauto].
Qed.

(** C10 does not hold of the code: the hooks of PUT /competitions/:id refuse
    the role student by name and let every other role string through. A
    caller of School 2 whose token names the role teacher updates the title of
    the private competition of School 1: the preValidation hook allows the
    request, [enforceTenantId] then writes the caller's tenant into the body,
    and the handler answers 200 with the competition owned by School 2. *)
Theorem unlisted_role_update_moves_competition :
  In Seed.s1c2 (competitions Seed.store)
  /\ Competition.tenant_id Seed.s1c2 = Seed.school1
  /\ Caller.tenant_id Seed.teacher = Seed.school2
  /\ decide (mkRequest Seed.teacher None
               (CompetitionUpdate (Competition.id Seed.s1c2)
                  (CompetitionBody.mk (Some "Spelling bee") None None None)))
       Seed.store
     = Allow
  /\ fst (CompetitionRoutes.update Seed.formats Seed.teacher (Competition.id Seed.s1c2)
            None (CompetitionBody.mk (Some "Spelling bee") None None None) Seed.store)
     = Sent 200 (Competition.mk (Competition.id Seed.s1c2) "Spelling bee"
                   (Competition.description Seed.s1c2) private Seed.school2
                   (Competition.created_at Seed.s1c2))
  /\ map Competition.tenant_id
       (competitions_eq_id
          (snd (CompetitionRoutes.update Seed.formats Seed.teacher
                  (Competition.id Seed.s1c2) None
                  (CompetitionBody.mk (Some "Spelling bee") None None None)
                  Seed.store))
          (Competition.id Seed.s1c2))
     = [Seed.school2].
Proof. repeat split. simpl. tauto. Qed.

(** X27: what the hooks of PUT /competitions/:id do enforce. For a competition
    of the table, a body whose [tenant_id] is a non-empty string other than
    the tenant of the row is answered 403 to a caller of any role, the store
    untouched; and when the caller's role is one of the three of the data
    model, every competition has the same owner after the request as before,
    whatever the id, the body and the reply. *)
Theorem competition_tenant_id_immutable (F : Formats) (u : Caller.t)
    (q : option string) (id : string) (body : CompetitionBody.t) (st : Store) :
  primary_key Competition.id (competitions st) ->
  format_uuid F EmptyString = false ->
  (forall c t,
      In c (competitions st) -> uuid_text (Competition.id c) = uuid_text id ->
      CompetitionBody.tenant_id body = Some t ->
      t <> EmptyString -> t <> Competition.tenant_id c ->
      is_deny (decide (mkRequest u q (CompetitionUpdate id body)) st) = true
      /\ exists m, CompetitionRoutes.update F u id q body st = (Failed 403 m, st))
  /\ (known_role (Caller.role u) ->
      map (fun c => uuid_text (Competition.tenant_id c))
        (competitions (snd (CompetitionRoutes.update F u id q body st)))
      = map (fun c => uuid_text (Competition.tenant_id c)) (competitions st)).
Proof.
  intros Hpk H0. split.
  - intros c t Hc Hid Hb Ht Hne.
    assert (Hlook : single (competitions_eq_id st id) = Some c)
      by now rewrite (competition_lookup_spelled st c id Hpk Hc Hid).
    pose proof (tenant_change_denied u id body st c t Hlook Hb Ht Hne) as Hd.
    split.
    + unfold decide; simpl. now apply and_then_deny.
    + unfold CompetitionRoutes.update. now apply guarded_deny.
  - intros Hrole. now apply update_keeps_owners.
Qed.

Lemma competition_tenant_id_immutable_witness :
  is_deny (decide (mkRequest (Seed.caller_of Seed.developer) None
                     (CompetitionUpdate (Competition.id Seed.s1c2)
                        (CompetitionBody.mk None None None (Some Seed.school2))))
             Seed.store) = true
  /\ map Competition.tenant_id
       (competitions
          (snd (CompetitionRoutes.update Seed.formats (Seed.caller_of Seed.admin1)
                  (Competition.id Seed.s1c2) None
                  (CompetitionBody.mk (Some "Spelling bee") None None None)
                  Seed.store)))
     = map Competition.tenant_id (competitions Seed.store).
Proof.
  split.
  - destruct (competition_tenant_id_immutable Seed.formats
                (Seed.caller_of Seed.developer) None (Competition.id Seed.s1c2)
                (CompetitionBody.mk None None None (Some Seed.school2))
                Seed.store seed_competitions_key eq_refl) as [H _].
    destruct (H Seed.s1c2 Seed.school2) as [Hd _].
    + simpl. tauto.
    + reflexivity.
    + reflexivity.
    + discriminate.
    + discriminate.
    + exact Hd.
  - destruct (competition_tenant_id_immutable Seed.formats (Seed.caller_of Seed.admin1)
                None (Competition.id Seed.s1c2)
                (CompetitionBody.mk (Some "Spelling bee") None None None)
                Seed.store seed_competitions_key eq_refl) as [_ H].
    assert (Hk : known_role (Caller.role (Seed.caller_of Seed.admin1)))
      by (right; left; reflexivity).
    specialize (H Hk). reflexivity.
Defined.

(** ** The JavaScript [Map] *)

Lemma Map_set_keys {V} (m : list (string * V)) (k : string) (v : V) (k' : string) :
  In k' (map fst (Map_set m k v)) <-> k' = k \/ In k' (map fst m).
Proof.
  induction m as [|[k0 v0] m IH]; simpl.
  - intuition.
  - destruct (String.eqb_spec k0 k) as [->|E]; simpl.
    + intuition.
    + rewrite IH. intuition.
Qed.

Lemma Map_set_NoDup {V} (m : list (string * V)) (k : string) (v : V) :
  NoDup (map fst m) -> NoDup (map fst (Map_set m k v)).
Proof.
  induction m as [|[k0 v0] m IH]; simpl; intros Hnd.
  - constructor; [intros [] | constructor].
  - inversion Hnd as [|? ? Hk0 Hm]; subst.
    destruct (String.eqb_spec k0 k) as [->|E]; simpl.
    + now constructor.
    + constructor; [| now apply IH].
      rewrite Map_set_keys. intros [->|H]; [now apply E | now apply Hk0].
Qed.

Lemma Map_set_entries {V} (m : list (string * V)) (k : string) (v : V)
    (e : string * V) :
  In e (Map_set m k v) -> e = (k, v) \/ In e m.
Proof.
  induction m as [|[k0 v0] m IH]; simpl.
  - intuition.
  - destruct (String.eqb_spec k0 k) as [->|E]; simpl.
    + intuition.
    + intros [H|H]; [auto |]. destruct (IH H); auto.
Qed.

Lemma Map_fold_keys {V} (entries m : list (string * V)) (k : string) :
  In k (map fst (fold_left (fun m e => Map_set m (fst e) (snd e)) entries m))
  <-> In k (map fst m) \/ In k (map fst entries).
Proof.
  revert m. induction entries as [|e entries IH]; simpl; intros m.
  - intuition.
  - rewrite IH, Map_set_keys. intuition.
Qed.

Lemma Map_fold_NoDup {V} (entries m : list (string * V)) :
  NoDup (map fst m) ->
  NoDup (map fst (fold_left (fun m e => Map_set m (fst e) (snd e)) entries m)).
Proof.
  revert m. induction entries as [|e entries IH]; simpl; intros m Hnd.
  - exact Hnd.
  - apply IH. now apply Map_set_NoDup.
Qed.

Lemma Map_fold_entries {V} (entries m : list (string * V)) (e : string * V) :
  In e (fold_left (fun m e => Map_set m (fst e) (snd e)) entries m) ->
  In e m \/ In e entries.
Proof.
  revert m. induction entries as [|e0 entries IH]; simpl; intros m H.
  - auto.
  - destruct (IH _ H) as [H1|H1]; [| auto].
    destruct (Map_set_entries _ _ _ _ H1) as [->|H2]; [| auto].
    right. left. now destruct e0.
Qed.

(** [Array.from(new Map(rows.map(r => [key(r), r])).values())] holds rows of
    [rows] only, one for each key of [rows]. *)
Lemma Map_dedupe {A} (key : A -> string) (rows : list A) :
  let unique := Map_values (Map_new (map (fun r => (key r, r)) rows)) in
  NoDup (map key unique)
  /\ (forall r, In r unique -> In r rows)
  /\ (forall k, In k (map key unique) <-> In k (map key rows)).
Proof.
  set (entries := map (fun r => (key r, r)) rows).
  assert (Hent : forall e, In e (Map_new entries) ->
                           In (snd e) rows /\ fst e = key (snd e)).
  { intros e He. unfold Map_new in He.
    destruct (Map_fold_entries _ _ _ He) as [[]|H].
    unfold entries in H. apply in_map_iff in H as (r & <- & Hr). simpl. auto. }
  assert (Hkeys : map key (Map_values (Map_new entries)) = map fst (Map_new entries)).
  { unfold Map_values. rewrite map_map. apply map_ext_in.
    intros e He. symmetry. now apply Hent. }
  simpl. fold entries. rewrite Hkeys. repeat split.
  - unfold Map_new. apply Map_fold_NoDup. constructor.
  - intros r Hr. unfold Map_values in Hr. apply in_map_iff in Hr as (e & <- & He).
    now apply Hent.
  - unfold Map_new. rewrite Map_fold_keys. simpl. intros [[]|H].
    unfold entries in H. now rewrite map_map in H.
  - intros H. unfold Map_new. rewrite Map_fold_keys. right.
    unfold entries. now rewrite map_map.
Qed.

(** ** Competitions a school can access *)

Lemma uuid_in_allowedSchools (schoolId cid : string) (st : Store) :
  uuid_in (map AllowedSchool.competition_id
             (AllowedSchoolRoutes.allowedSchools schoolId st)) cid
  = granted st cid schoolId.
Proof.
  unfold uuid_in, granted, AllowedSchoolRoutes.allowedSchools.
  induction (competition_allowed_schools st) as [|a rows IH]; simpl; [reflexivity |].
  destruct (same_uuid (AllowedSchool.school_id a) schoolId); simpl.
  - now rewrite IH, andb_true_r.
  - now rewrite IH, andb_false_r.
Qed.

Lemma In_allowedCompetitions (schoolId : string) (st : Store) (c : Competition.t) :
  In c (AllowedSchoolRoutes.allowedCompetitions schoolId st)
  <-> In c (competitions st)
      /\ negb (same_uuid (Competition.tenant_id c) schoolId)
          && granted st (Competition.id c) schoolId = true.
Proof.
  unfold AllowedSchoolRoutes.allowedCompetitions.
  destruct (Nat.ltb 0 _) eqn:Hlen.
  - rewrite !filter_In, uuid_in_allowedSchools, andb_true_iff. tauto.
  - assert (Hnil : AllowedSchoolRoutes.allowedSchools schoolId st = []).
    { destruct (AllowedSchoolRoutes.allowedSchools schoolId st); [reflexivity |].
      discriminate. }
    rewrite <- uuid_in_allowedSchools, Hnil. simpl. rewrite andb_false_r.
    split; [intros [] | intros [_ H]; discriminate].
Qed.

Lemma In_accessibleCompetitions (schoolId : string) (st : Store) (c : Competition.t) :
  In c (AllowedSchoolRoutes.accessibleCompetitions schoolId st)
  <-> In c (competitions st) /\ code_school_accessible schoolId st c = true.
Proof.
  unfold AllowedSchoolRoutes.accessibleCompetitions, code_school_accessible,
    AllowedSchoolRoutes.publicCompetitions,
    AllowedSchoolRoutes.ownedRestrictedCompetitions.
  rewrite !in_app_iff, In_allowedCompetitions, !filter_In, !orb_true_iff,
    !andb_true_iff.
  tauto.
Qed.

(** What the handler of GET /competition-allowed-schools/school/:schoolId
    returns: rows of [competitions] without a repeated id, namely the public
    ones, the restricted ones of the school, and those of other tenants with a
    grant naming the school. *)
Lemma uniqueCompetitions_spec (schoolId : string) (st : Store) :
  NoDup (map Competition.id (AllowedSchoolRoutes.uniqueCompetitions schoolId st))
  /\ (forall c, In c (AllowedSchoolRoutes.uniqueCompetitions schoolId st) ->
                In c (competitions st) /\ code_school_accessible schoolId st c = true)
  /\ (forall c, In c (competitions st) -> code_school_accessible schoolId st c = true ->
                In (Competition.id c)
                  (map Competition.id (AllowedSchoolRoutes.uniqueCompetitions schoolId st))).
Proof.
  unfold AllowedSchoolRoutes.uniqueCompetitions.
  destruct (Map_dedupe Competition.id
              (AllowedSchoolRoutes.accessibleCompetitions schoolId st))
    as (Hnd & Hsub & Hkeys).
  split; [exact Hnd |]. split.
  - intros c Hc. apply In_accessibleCompetitions. now apply Hsub.
  - intros c Hc Hacc. apply Hkeys. apply in_map.
    apply In_accessibleCompetitions. auto.
Qed.

(** C2 does not hold of the code: the private competition of School 1 is
    owned by School 1, so the specified result for School 1 contains it, and
    the list the route returns for School 1 does not. *)
Theorem school_accessible_omits_owned_private :
  In Seed.s1c2 (competitions Seed.store)
  /\ Competition.tenant_id Seed.s1c2 = Seed.school1
  /\ Competition.visibility Seed.s1c2 = private
  /\ spec_school_accessible Seed.school1 Seed.store Seed.s1c2 = true
  /\ fst (AllowedSchoolRoutes.get_by_school Seed.formats (Seed.caller_of Seed.student1)
            Seed.school1 Seed.store)
     = Sent 200 [Seed.s1c1; Seed.s2c1; Seed.s3c1; Seed.s1c3; Seed.s2c3]
  /\ ~ In (Competition.id Seed.s1c2)
         (map Competition.id
            (AllowedSchoolRoutes.uniqueCompetitions Seed.school1 Seed.store)).
Proof.
  repeat split; try reflexivity.
  - simpl. tauto.
  - simpl. intuition discriminate.
Qed.

(** ** Granting access to a school *)

(** The school_admin path: once the grant is created the competition is
    restricted. *)
Lemma school_admin_grant_forces_restricted (F : Formats) (u : Caller.t)
    (body : AllowedSchool.t) (st : Store) (c : Competition.t) :
  Caller.role u = "school_admin" ->
  status (fst (AllowedSchoolRoutes.create F u body st)) = 201 ->
  In c (competitions (snd (AllowedSchoolRoutes.create F u body st))) ->
  uuid_text (Competition.id c) = uuid_text (AllowedSchool.competition_id body) ->
  Competition.visibility c = restricted.
Proof.
  intros Hrole. unfold AllowedSchoolRoutes.create.
  destruct (format_uuid F (AllowedSchool.competition_id body)
            && format_uuid F (AllowedSchool.school_id body)); simpl; [| discriminate].
  unfold AllowedSchoolRoutes.create_preHandler. rewrite Hrole. simpl.
  destruct (single (competitions_eq_id st (AllowedSchool.competition_id body)))
    as [competition|]; simpl; [| discriminate].
  destruct (negb (Competition.tenant_id competition =? Caller.tenant_id u)); simpl;
    [discriminate |].
  unfold AllowedSchoolRoutes.create_handler.
  destruct (existsb _ (allowed_eq _ _ _)); simpl; [discriminate |].
  destruct (negb (competition_exists _ _) || _); simpl; [discriminate |].
  intros _ Hin Hid. apply in_map_iff in Hin as (r & Hr & _).
  destruct (same_uuid_spec (Competition.id r) (AllowedSchool.competition_id body))
    as [E|E].
  - now subst c.
  - subst c. contradiction.
Qed.

(** The superuser path: the preHandler returns before the write, and the
    handler inserts into [competition_allowed_schools] only. *)
Lemma superuser_grant_leaves_competitions (F : Formats) (u : Caller.t)
    (body : AllowedSchool.t) (st : Store) :
  Caller.role u = "superuser" ->
  competitions (snd (AllowedSchoolRoutes.create F u body st)) = competitions st.
Proof.
  intros Hrole. unfold AllowedSchoolRoutes.create.
  destruct (format_uuid F (AllowedSchool.competition_id body)
            && format_uuid F (AllowedSchool.school_id body)); simpl; [| reflexivity].
  unfold AllowedSchoolRoutes.create_preHandler. rewrite Hrole. simpl.
  unfold AllowedSchoolRoutes.create_handler.
  destruct (existsb _ (allowed_eq _ _ _)); simpl; [reflexivity |].
  destruct (negb (competition_exists _ _) || _); reflexivity.
Qed.

(** C3 does not hold of the code: the seeded superuser grants School 2 access
    to the public competition of School 1; the grant is created (201) and the
    competition is still public. *)
Theorem superuser_grant_keeps_visibility :
  Caller.role (Seed.caller_of Seed.developer) = "superuser"
  /\ Competition.visibility Seed.s1c1 = public
  /\ fst (AllowedSchoolRoutes.create Seed.formats (Seed.caller_of Seed.developer)
            (AllowedSchool.mk (Competition.id Seed.s1c1) Seed.school2) Seed.store)
     = Sent 201 (AllowedSchool.mk (Competition.id Seed.s1c1) Seed.school2)
  /\ granted
       (snd (AllowedSchoolRoutes.create Seed.formats (Seed.caller_of Seed.developer)
               (AllowedSchool.mk (Competition.id Seed.s1c1) Seed.school2) Seed.store))
       (Competition.id Seed.s1c1) Seed.school2 = true
  /\ map Competition.visibility
       (competitions_eq_id
          (snd (AllowedSchoolRoutes.create Seed.formats (Seed.caller_of Seed.developer)
                  (AllowedSchool.mk (Competition.id Seed.s1c1) Seed.school2)
                  Seed.store))
          (Competition.id Seed.s1c1))
     = [public].
Proof. repeat split. Qed.

(** ** Missing targets *)






(** Deleting a competition that does not exist: the preHandler defers to the
    handler, and the handler answers 204. *)
Example missing_competition_delete :
  competitions_eq_id Seed.store Seed.nobody = []
  /\ CompetitionRoutes.delete Seed.formats (Seed.caller_of Seed.student1) Seed.nobody
       Seed.store
     = (Sent 204 tt, Seed.store).
Proof. split; reflexivity. Qed.




(** * Further properties of the routes *)

(** ** Tables *)

Lemma existsb_any_filter {A} (p : A -> bool) (rows : list A) :
  existsb (fun _ => true) (filter p rows) = existsb p rows.
Proof.
  induction rows as [|a rows IH]; simpl; [reflexivity |].
  destruct (p a); simpl; auto.
Qed.

Lemma existsb_key {A} (key : A -> string) (rows : list A) (k : string) :
  existsb (fun r => same_uuid (key r) k) rows = true
  <-> In (uuid_text k) (map (fun r => uuid_text (key r)) rows).
Proof.
  rewrite existsb_exists, in_map_iff.
  split; intros (r & H1 & H2).
  - apply same_uuid_eq in H2. eauto.
  - exists r. split; [assumption |]. now apply same_uuid_eq.
Qed.

Lemma NoDup_map_filter {A B} (g : A -> B) (p : A -> bool) (rows : list A) :
  NoDup (map g rows) -> NoDup (map g (filter p rows)).
Proof.
  induction rows as [|a rows IH]; simpl; intros H; [exact H |].
  inversion H as [|? ? Ha Hrows]; subst.
  destruct (p a); simpl; [| now apply IH].
  constructor; [| now apply IH].
  intros Hin. apply Ha. apply in_map_iff in Hin as (r & E & Hr).
  apply filter_In in Hr as [Hr _]. apply in_map_iff. eauto.
Qed.

Lemma primary_key_filter {A} (key : A -> string) (p : A -> bool) (rows : list A) :
  primary_key key rows -> primary_key key (filter p rows).
Proof. apply NoDup_map_filter. Qed.

Lemma NoDup_app_fresh {A} (rows : list A) (r : A) :
  NoDup rows -> ~ In r rows -> NoDup (rows ++ [r]).
Proof.
  intros Hnd Hr. apply NoDup_app; [exact Hnd | repeat constructor; intros [] |].
  intros k Hk [<-|[]]. contradiction.
Qed.

Lemma primary_key_app {A} (key : A -> string) (rows : list A) (r : A) :
  primary_key key rows ->
  ~ In (uuid_text (key r)) (map (fun x => uuid_text (key x)) rows) ->
  primary_key key (rows ++ [r]).
Proof.
  unfold primary_key. intros Hnd Hr. rewrite map_app. simpl.
  now apply NoDup_app_fresh.
Qed.

(** The rows an update returns are the images of the selected rows. *)
Lemma update_where_returned {A} (sel : A -> bool) (f : A -> option A)
    (rows table returned : list A) (x : A) :
  update_where sel f rows = Some (table, returned) ->
  In x returned -> exists r, In r rows /\ sel r = true /\ f r = Some x.
Proof.
  revert table returned.
  induction rows as [|a rows IH]; simpl; intros table returned H Hin.
  - inversion H; subst. contradiction.
  - destruct (update_where sel f rows) as [[table0 returned0]|]; [| discriminate].
    specialize (IH table0 returned0 eq_refl).
    destruct (sel a) eqn:Ea.
    + destruct (f a) as [a'|] eqn:Fa; [| discriminate].
      inversion H; subst. destruct Hin as [<-|Hin].
      * exists a. auto.
      * destruct (IH Hin) as (r & ? & ? & ?). exists r. auto.
    + inversion H; subst. destruct (IH Hin) as (r & ? & ? & ?). exists r. auto.
Qed.

(** The rows an update does not select stay in the table. *)
Lemma update_where_frame {A} (sel : A -> bool) (f : A -> option A)
    (rows table returned : list A) (x : A) :
  update_where sel f rows = Some (table, returned) ->
  In x rows -> sel x = false -> In x table.
Proof.
  revert table returned.
  induction rows as [|a rows IH]; simpl; intros table returned H Hin Hsel.
  - contradiction.
  - destruct (update_where sel f rows) as [[table0 returned0]|]; [| discriminate].
    specialize (IH table0 returned0 eq_refl).
    destruct (sel a) eqn:Ea.
    + destruct (f a) as [a'|]; [| discriminate].
      inversion H; subst. destruct Hin as [->|Hin]; [congruence |].
      right. auto.
    + inversion H; subst. destruct Hin as [->|Hin]; [now left | right; auto].
Qed.

(** The image of a selected row is in the table. *)
Lemma update_where_image {A} (sel : A -> bool) (f : A -> option A)
    (rows table returned : list A) (r : A) :
  update_where sel f rows = Some (table, returned) ->
  In r rows -> sel r = true ->
  exists r', f r = Some r' /\ In r' table /\ In r' returned.
Proof.
  revert table returned.
  induction rows as [|a rows IH]; simpl; intros table returned H Hin Hsel.
  - contradiction.
  - destruct (update_where sel f rows) as [[table0 returned0]|]; [| discriminate].
    specialize (IH table0 returned0 eq_refl).
    destruct (sel a) eqn:Ea.
    + destruct (f a) as [a'|] eqn:Fa; [| discriminate].
      inversion H; subst. destruct Hin as [->|Hin].
      * exists a'. simpl. auto.
      * destruct (IH Hin Hsel) as (r' & ? & ? & ?). exists r'. simpl. auto.
    + inversion H; subst. destruct Hin as [->|Hin]; [congruence |].
      destruct (IH Hin Hsel) as (r' & ? & ? & ?). exists r'. simpl. auto.
Qed.

Lemma update_where_unselected {A} (sel : A -> bool) (f : A -> option A) (rows : list A) :
  (forall x, In x rows -> sel x = false) -> update_where sel f rows = Some (rows, []).
Proof.
  induction rows as [|a rows IH]; simpl; intros H; [reflexivity |].
  rewrite IH by (intros x Hx; apply H; now right).
  now rewrite (H a (or_introl eq_refl)).
Qed.

(** An update by id keeps the primary key when the key it gives to a row is
    not the key of a row it does not select. *)
Lemma update_where_primary_key {A} (key : A -> string) (id : string)
    (f : A -> option A) (all rows table returned : list A) :
  (forall x, In x rows -> In x all) ->
  primary_key key rows ->
  (forall r r', In r rows -> same_uuid (key r) id = true -> f r = Some r' ->
                forall x, In x all -> same_uuid (key x) id = false ->
                          uuid_text (key x) <> uuid_text (key r')) ->
  update_where (fun r => same_uuid (key r) id) f rows = Some (table, returned) ->
  primary_key key table.
Proof.
  unfold primary_key. revert table returned.
  induction rows as [|a rows IH]; intros table returned Hall Hnd Hf H.
  - simpl in H. inversion H; subst. constructor.
  - inversion Hnd as [|? ? Ha Hrows]; subst.
    simpl in H. destruct (same_uuid (key a) id) eqn:Ea.
    + assert (Hnone : forall x, In x rows -> same_uuid (key x) id = false).
      { intros x Hx. apply not_true_is_false. intros Ex. apply Ha.
        apply same_uuid_eq in Ea, Ex. rewrite Ea, <- Ex.
        apply (in_map (fun r => uuid_text (key r))). exact Hx. }
      rewrite (update_where_unselected _ f rows Hnone) in H.
      destruct (f a) as [a'|] eqn:Fa; [| discriminate].
      inversion H; subst. simpl. constructor; [| exact Hrows].
      intros Hin. apply in_map_iff in Hin as (x & Ex & Hx).
      apply (Hf a a' (or_introl eq_refl) Ea Fa x); auto.
      apply Hall. now right.
    + destruct (update_where _ f rows) as [[table0 returned0]|] eqn:Hu; [| discriminate].
      inversion H; subst. simpl. constructor.
      * intros Hin. apply in_map_iff in Hin as (x & Ex & Hx).
        destruct (update_where_In _ _ _ _ _ x Hu Hx) as [[Hrow _]|(r & Hr & Hsel & Hfr)].
        -- apply Ha. rewrite <- Ex.
           apply (in_map (fun r => uuid_text (key r))). exact Hrow.
        -- apply (Hf r x (or_intror Hr) Hsel Hfr a); auto.
           apply Hall. now left.
      * eapply IH; [| exact Hrows | | reflexivity].
        -- intros x Hx. apply Hall. now right.
        -- intros r r' Hr. apply Hf. now right.
Qed.

Lemma tenant_exists_In (st : Store) (tid : string) :
  tenant_exists st tid = true
  <-> In (uuid_text tid) (map (fun t => uuid_text (Tenant.id t)) (tenants st)).
Proof. apply existsb_key. Qed.

Lemma competition_exists_In (st : Store) (cid : string) :
  competition_exists st cid = true
  <-> In (uuid_text cid) (map (fun c => uuid_text (Competition.id c)) (competitions st)).
Proof. apply existsb_key. Qed.

Lemma existsb_ext_in {A} (p q : A -> bool) (rows : list A) :
  (forall x, p x = q x) -> existsb p rows = existsb q rows.
Proof.
  intros H. induction rows as [|a rows IH]; simpl; [reflexivity |].
  now rewrite H, IH.
Qed.

Lemma tenant_exists_text (st : Store) (tid : string) :
  tenant_exists st (uuid_text tid) = tenant_exists st tid.
Proof.
  unfold tenant_exists. apply existsb_ext_in. intros t. apply same_uuid_text_r.
Qed.

Lemma competition_exists_text (st : Store) (cid : string) :
  competition_exists st (uuid_text cid) = competition_exists st cid.
Proof.
  unfold competition_exists. apply existsb_ext_in. intros c. apply same_uuid_text_r.
Qed.

Lemma guarded_snd {A} (P : Store -> Prop) (d : Decision) (st : Store)
    (next : Response A * Store) :
  P st -> P (snd next) -> P (snd (guarded d st next)).
Proof. destruct d; simpl; auto. Qed.

Lemma validated_snd {A} (P : Store -> Prop) (ok : bool) (st : Store)
    (next : Response A * Store) :
  P st -> P (snd next) -> P (snd (validated ok st next)).
Proof. destruct ok; simpl; auto. Qed.

(** ** Primary and foreign keys under the writes *)

Lemma consistent_tenant_create (env : Env) (name : string) (st : Store) :
  consistent st -> consistent (snd (TenantRoutes.create_handler env name st)).
Proof.
  intros [(Kt & Ku & Kc & Kg) (Ru & Rc & Rg)].
  unfold TenantRoutes.create_handler.
  destruct (tenant_exists st (generated_id env)) eqn:Hex; simpl.
  - repeat split; auto; apply Rg; assumption.
  - assert (Hmono : forall tid, tenant_exists st tid = true ->
                           tenant_exists
                             (with_tenants st
                                (tenants st ++
                                   [Tenant.mk (generated_id env) name (current_time env)]))
                             tid = true).
    { intros tid H. unfold tenant_exists in *. simpl.
      rewrite existsb_app, H. reflexivity. }
    split; [split; [| auto] | repeat split].
    + apply primary_key_app; [exact Kt |]. simpl.
      intros Hin. apply tenant_exists_In in Hin. congruence.
    + intros r Hr. apply Hmono. auto.
    + intros c Hc. apply Hmono. auto.
    + now apply Rg.
    + apply Hmono. now apply Rg.
Qed.

Lemma consistent_same_keys (st st' : Store) :
  map (fun t => uuid_text (Tenant.id t)) (tenants st')
  = map (fun t => uuid_text (Tenant.id t)) (tenants st) ->
  users st' = users st ->
  competitions st' = competitions st ->
  competition_allowed_schools st' = competition_allowed_schools st ->
  consistent st -> consistent st'.
Proof.
  intros Ht Hu Hc Hg [(Kt & Ku & Kc & Kg) (Ru & Rc & Rg)].
  assert (Hex : forall tid, tenant_exists st' tid = tenant_exists st tid).
  { intros tid. apply eq_true_iff_eq. rewrite !tenant_exists_In. now rewrite Ht. }
  assert (Hcx : forall cid, competition_exists st' cid = competition_exists st cid).
  { intros cid. unfold competition_exists. now rewrite Hc. }
  unfold consistent, keys_hold, references_hold, primary_key.
  rewrite Ht, Hu, Hc, Hg.
  split; [auto |]. split; [| split].
  - intros r Hr. rewrite Hex. auto.
  - intros c Hc'. rewrite Hex. auto.
  - intros a Ha. rewrite Hex, Hcx. auto.
Qed.

Lemma consistent_tenant_update (id name : string) (st : Store) :
  consistent st -> consistent (snd (TenantRoutes.update_handler id name st)).
Proof.
  intros H. unfold TenantRoutes.update_handler.
  destruct (update_where _ _ (tenants st)) as [[table returned]|] eqn:Hu;
    [| exact H].
  assert (Hk : map (fun t => uuid_text (Tenant.id t)) table
               = map (fun t => uuid_text (Tenant.id t)) (tenants st)).
  { apply (update_where_map _ _ _ _ _ _) with (2 := Hu).
    intros r r' _ _ E. now inversion E. }
  destruct (single returned); simpl;
    apply (consistent_same_keys st); auto.
Qed.

Lemma consistent_tenant_delete (id : string) (st : Store) :
  consistent st -> consistent (snd (TenantRoutes.delete_handler id st)).
Proof.
  intros H. unfold TenantRoutes.delete_handler.
  destruct (tenant_exists st id); [| exact H]. simpl.
  destruct H as [(Kt & Ku & Kc & Kg) (Ru & Rc & Rg)].
  assert (Hex : forall tid, same_uuid tid id = false -> tenant_exists st tid = true ->
                In (uuid_text tid)
                  (map (fun t => uuid_text (Tenant.id t))
                     (filter (fun t => negb (same_uuid (Tenant.id t) id)) (tenants st)))).
  { intros tid Hne Htid. apply tenant_exists_In in Htid.
    apply in_map_iff in Htid as (t & E & Ht). apply in_map_iff. exists t.
    split; [exact E |]. apply filter_In. split; [exact Ht |].
    apply negb_true_iff. unfold same_uuid in *. now rewrite E. }
  split; [repeat split | split; [| split; [| intros a H; split]]]; simpl.
  - now apply primary_key_filter.
  - now apply primary_key_filter.
  - now apply primary_key_filter.
  - now apply NoDup_map_filter.
  - intros r Hr. apply filter_In in Hr as [Hr Hne].
    apply negb_true_iff in Hne.
    apply tenant_exists_In. simpl. apply Hex; auto.
  - intros c Hc. apply filter_In in Hc as [Hc Hne].
    apply negb_true_iff in Hne.
    apply tenant_exists_In. simpl. apply Hex; auto.
  - apply filter_In in H as [Ha Hkeep].
    apply andb_true_iff in Hkeep as [_ Hcomp]. apply negb_true_iff in Hcomp.
    destruct (Rg a Ha) as [Hc _].
    apply competition_exists_In in Hc. apply in_map_iff in Hc as (c & Ec & Hc).
    apply competition_exists_In. simpl. apply in_map_iff. exists c.
    split; [exact Ec |]. apply filter_In. split; [exact Hc |].
    destruct (same_uuid (Competition.tenant_id c) id) eqn:Et; [| reflexivity].
    exfalso. assert (Hx : existsb
                            (fun c0 => same_uuid (Competition.id c0)
                                         (AllowedSchool.competition_id a)
                                       && same_uuid (Competition.tenant_id c0) id)
                            (competitions st) = true).
    { apply existsb_exists. exists c. split; [exact Hc |].
      rewrite Et, andb_true_r. now apply same_uuid_eq. }
    congruence.
  - apply filter_In in H as [Ha Hkeep].
    apply andb_true_iff in Hkeep as [Hschool _].
    apply negb_true_iff in Hschool.
    apply tenant_exists_In. simpl. apply Hex; [exact Hschool |]. now apply Rg.
Qed.

Lemma consistent_user_create (env : Env) (body : UserBody.t) (st : Store) :
  consistent st -> consistent (snd (UserRoutes.create_handler env body st)).
Proof.
  intros H. unfold UserRoutes.create_handler.
  destruct (UserBody.email body) as [email|]; [| exact H].
  destruct (UserBody.tenant_id body) as [tenant_id|]; [| exact H].
  destruct (UserBody.role body) as [role|]; [| exact H].
  destruct (role_of_string role) as [ro|]; [| exact H].
  unfold users_eq_id. rewrite existsb_any_filter.
  destruct (existsb _ (users st)) eqn:Hid; [exact H |].
  destruct (tenant_exists st tenant_id) eqn:Ht; [| exact H]. simpl.
  destruct H as [(Kt & Ku & Kc & Kg) (Ru & Rc & Rg)].
  split; [repeat split; auto | split; [| split; auto]].
  - apply primary_key_app; [exact Ku |]. simpl. intros Hin.
    apply (existsb_key User.id) in Hin. congruence.
  - simpl. intros r Hr. apply in_app_iff in Hr as [Hr|[<-|[]]]; [now apply Ru |].
    simpl. unfold tenant_exists in *. simpl.
    rewrite <- Ht. apply existsb_ext_in. intros t. apply same_uuid_text_r.
Qed.

Lemma user_checked_update_fields (id : string) (body : UserBody.t) (st : Store)
    (r r' : User.t) :
  UserRoutes.checked_update id body st r = Some r' ->
  UserRoutes.apply_update body r = Some r'
  /\ tenant_exists st (User.tenant_id r') = true
  /\ existsb (fun x => same_uuid (User.id x) (User.id r')
                       && negb (same_uuid (User.id x) id))
       (users st) = false.
Proof.
  unfold UserRoutes.checked_update.
  destruct (UserRoutes.apply_update body r) as [r0|]; [| discriminate].
  destruct (tenant_exists st _) eqn:Ht; simpl; [| discriminate].
  destruct (existsb _ (users st)) eqn:Hk; [discriminate |].
  intros E. inversion E; subst. auto.
Qed.

(** The key an update gives to a row is not the key of a row it leaves. *)
Lemma key_not_taken {A} (key : A -> string) (id k : string) (rows : list A) :
  existsb (fun x => same_uuid (key x) k && negb (same_uuid (key x) id)) rows = false ->
  forall x, In x rows -> same_uuid (key x) id = false -> uuid_text (key x) <> uuid_text k.
Proof.
  intros H x Hx Hsel E.
  assert (Hex : existsb (fun x => same_uuid (key x) k && negb (same_uuid (key x) id)) rows
                = true).
  { apply existsb_exists. exists x. split; [exact Hx |].
    rewrite Hsel. simpl. rewrite andb_true_r. now apply same_uuid_eq. }
  congruence.
Qed.

Lemma consistent_user_update (id : string) (body : UserBody.t) (st : Store) :
  consistent st -> consistent (snd (UserRoutes.update_handler id body st)).
Proof.
  intros H. unfold UserRoutes.update_handler.
  destruct (UserBody.is_empty body); [exact H |].
  destruct (update_where _ _ (users st)) as [[table returned]|] eqn:Hu; [| exact H].
  destruct H as [(Kt & Ku & Kc & Kg) (Ru & Rc & Rg)].
  assert (Hres : consistent (with_users st table)).
  { split; [repeat split; auto | split; [| split; auto]].
    - simpl.
      apply (update_where_primary_key User.id id (UserRoutes.checked_update id body st)
               (users st) (users st) table returned); auto.
      intros r r' Hr Hsel Hf.
      destruct (user_checked_update_fields id body st r r' Hf) as (_ & _ & Hk).
      now apply (key_not_taken User.id id).
    - simpl. intros r Hr.
      destruct (update_where_In _ _ _ _ _ r Hu Hr) as [[Hin _]|(r0 & _ & _ & Hf)].
      + now apply Ru.
      + now apply (user_checked_update_fields id body st r0). }
  destruct (single returned); exact Hres.
Qed.

Lemma consistent_user_delete (id : string) (st : Store) :
  consistent st -> consistent (snd (UserRoutes.delete_handler id st)).
Proof.
  intros [(Kt & Ku & Kc & Kg) (Ru & Rc & Rg)]. simpl.
  split; [repeat split; auto | split; [| split; auto]].
  - now apply primary_key_filter.
  - simpl. intros r Hr. apply filter_In in Hr as [Hr _]. now apply Ru.
Qed.

Lemma consistent_competition_create (env : Env) (body : CompetitionBody.t) (st : Store) :
  consistent st -> consistent (snd (CompetitionRoutes.create_handler env body st)).
Proof.
  intros H. unfold CompetitionRoutes.create_handler.
  destruct (CompetitionBody.title body) as [title|]; [| exact H].
  destruct (CompetitionBody.tenant_id body) as [tenant_id|]; [| exact H].
  destruct (js_or (CompetitionBody.visibility body) (Some "private")) as [v|];
    [| exact H].
  destruct (visibility_of_string v) as [vis|]; [| exact H].
  unfold competitions_eq_id. rewrite existsb_any_filter.
  destruct (existsb _ (competitions st)) eqn:Hid; [exact H |].
  destruct (tenant_exists st tenant_id) eqn:Ht; [| exact H]. simpl.
  destruct H as [(Kt & Ku & Kc & Kg) (Ru & Rc & Rg)].
  split; [repeat split; auto | split; [auto | split]].
  - apply primary_key_app; [exact Kc |]. simpl. intros Hin.
    apply (existsb_key Competition.id) in Hin. congruence.
  - simpl. intros c Hc. apply in_app_iff in Hc as [Hc|[<-|[]]]; [now apply Rc |].
    simpl. unfold tenant_exists in *. simpl.
    rewrite <- Ht. apply existsb_ext_in. intros t. apply same_uuid_text_r.
  - simpl. intros a Ha. destruct (Rg a Ha) as [Hc Hs]. split; [| exact Hs].
    unfold competition_exists in *. simpl. now rewrite existsb_app, Hc.
Qed.

Lemma consistent_competition_update (id : string) (body : CompetitionBody.t)
    (st : Store) :
  consistent st -> consistent (snd (CompetitionRoutes.update_handler id body st)).
Proof.
  intros H. unfold CompetitionRoutes.update_handler.
  destruct (CompetitionBody.is_empty body); [exact H |].
  destruct (update_where _ _ (competitions st)) as [[table returned]|] eqn:Hu;
    [| exact H].
  destruct H as [(Kt & Ku & Kc & Kg) (Ru & Rc & Rg)].
  assert (Hres : consistent (with_competitions st table)).
  { split; [repeat split; auto | split; [auto | split]].
    - simpl.
      apply (update_where_primary_key Competition.id id
               (CompetitionRoutes.checked_update id body st) (competitions st)
               (competitions st) table returned); auto.
      intros r r' Hr Hsel Hf.
      destruct (checked_update_fields id body st r r' Hf) as (_ & _ & _ & Hk & _).
      now apply (key_not_taken Competition.id id).
    - simpl. intros c Hc.
      destruct (update_where_In _ _ _ _ _ c Hu Hc) as [[Hin _]|(r0 & _ & _ & Hf)].
      + now apply Rc.
      + now apply (checked_update_fields id body st r0 c Hf).
    - simpl. intros a Ha. destruct (Rg a Ha) as [Hc Hs]. split; [| exact Hs].
      apply competition_exists_In in Hc. apply in_map_iff in Hc as (c & Ec & Hc).
      apply competition_exists_In. simpl.
      destruct (same_uuid (Competition.id c) id) eqn:Hsel.
      + destruct (update_where_image _ _ _ _ _ c Hu Hc Hsel) as (c' & Hf & Hin & _).
        destruct (checked_update_fields id body st c c' Hf)
          as (_ & _ & _ & _ & [Hid|Hfree]).
        * apply in_map_iff. exists c'. split; [congruence | exact Hin].
        * exfalso.
          assert (Hx : existsb (fun a0 => same_uuid (AllowedSchool.competition_id a0)
                                            (Competition.id c))
                         (competition_allowed_schools st) = true).
          { apply existsb_exists. exists a. split; [exact Ha |].
            apply same_uuid_eq. now symmetry. }
          congruence.
      + apply in_map_iff. exists c. split; [exact Ec |].
        now apply (update_where_frame _ _ _ _ _ c Hu Hc). }
  destruct (single returned); exact Hres.
Qed.

Lemma consistent_competition_delete (id : string) (st : Store) :
  consistent st -> consistent (snd (CompetitionRoutes.delete_handler id st)).
Proof.
  intros [(Kt & Ku & Kc & Kg) (Ru & Rc & Rg)]. simpl.
  split; [repeat split; auto | split; [auto | split]].
  - now apply primary_key_filter.
  - now apply NoDup_map_filter.
  - simpl. intros c Hc. apply filter_In in Hc as [Hc _]. now apply Rc.
  - simpl. intros a Ha. apply filter_In in Ha as [Ha Hne].
    apply negb_true_iff in Hne.
    destruct (Rg a Ha) as [Hc Hs]. split; [| exact Hs].
    apply competition_exists_In in Hc. apply in_map_iff in Hc as (c & Ec & Hc).
    apply competition_exists_In. simpl. apply in_map_iff. exists c.
    split; [exact Ec |]. apply filter_In.
    split; [exact Hc |]. apply negb_true_iff.
    unfold same_uuid in *. now rewrite Ec.
Qed.

Lemma consistent_remap_competitions (f : Competition.t -> Competition.t) (st : Store) :
  (forall c, Competition.id (f c) = Competition.id c
             /\ Competition.tenant_id (f c) = Competition.tenant_id c) ->
  consistent st -> consistent (with_competitions st (map f (competitions st))).
Proof.
  intros Hf [(Kt & Ku & Kc & Kg) (Ru & Rc & Rg)].
  assert (Hk : map (fun c => uuid_text (Competition.id c)) (map f (competitions st))
               = map (fun c => uuid_text (Competition.id c)) (competitions st)).
  { rewrite map_map. apply map_ext. intros c. now destruct (Hf c) as [-> _]. }
  split; [repeat split; auto | split; [auto | split]].
  - unfold primary_key. simpl. now rewrite Hk.
  - simpl. intros c Hc. apply in_map_iff in Hc as (c0 & <- & Hc0).
    destruct (Hf c0) as [_ ->]. now apply Rc.
  - simpl. intros a Ha. destruct (Rg a Ha) as [Hc Hs]. split; [| exact Hs].
    apply competition_exists_In. simpl. rewrite Hk. now apply competition_exists_In.
Qed.

Lemma consistent_grant_preHandler (u : Caller.t) (body : AllowedSchool.t) (st : Store) :
  consistent st -> consistent (snd (AllowedSchoolRoutes.create_preHandler u body st)).
Proof.
  intros H. unfold AllowedSchoolRoutes.create_preHandler.
  destruct (Caller.role u =? "superuser"); [exact H |].
  destruct (Caller.role u =? "school_admin"); [| exact H].
  destruct (single _) as [competition|]; [| exact H].
  destruct (negb _); [exact H |]. simpl.
  apply consistent_remap_competitions; [| exact H].
  intros c. destruct (same_uuid (Competition.id c) _); auto.
Qed.

Lemma consistent_grant_create (body : AllowedSchool.t) (st : Store) :
  consistent st -> consistent (snd (AllowedSchoolRoutes.create_handler body st)).
Proof.
  intros H. unfold AllowedSchoolRoutes.create_handler.
  unfold allowed_eq. rewrite !existsb_any_filter.
  destruct (existsb _ (competition_allowed_schools st)) eqn:Hdup; [exact H |].
  destruct (competition_exists st _) eqn:Hc; simpl; [| exact H].
  destruct (tenant_exists st (AllowedSchool.school_id body)) eqn:Hs; simpl;
    [| exact H].
  destruct H as [(Kt & Ku & Kc & Kg) (Ru & Rc & Rg)].
  split; [repeat split; auto | split; [auto | split; auto]].
  - simpl. rewrite map_app. apply NoDup_app_fresh; [exact Kg |]. intros Hin.
    apply in_map_iff in Hin as (a & Ea & Ha).
    assert (Hx : existsb
                   (fun a => same_uuid (AllowedSchool.competition_id a)
                               (AllowedSchool.competition_id body)
                             && same_uuid (AllowedSchool.school_id a)
                                  (AllowedSchool.school_id body))
                   (competition_allowed_schools st) = true).
    { apply existsb_exists. exists a. split; [exact Ha |].
      unfold grant_key in Ea. simpl in Ea. rewrite !uuid_text_idem in Ea.
      inversion Ea as [[E1 E2]]. unfold same_uuid. rewrite E1, E2, !String.eqb_refl.
      reflexivity. }
    congruence.
  - simpl. intros a Ha. apply in_app_iff in Ha as [Ha|[<-|[]]]; [now apply Rg |].
    simpl. rewrite competition_exists_text, tenant_exists_text.
    split; [exact Hc | exact Hs].
Qed.

Lemma consistent_grant_delete (competitionId schoolId : string) (st : Store) :
  consistent st ->
  consistent (snd (AllowedSchoolRoutes.delete_handler competitionId schoolId st)).
Proof.
  intros [(Kt & Ku & Kc & Kg) (Ru & Rc & Rg)]. simpl.
  split; [repeat split; auto | split; [auto | split; auto]].
  - now apply NoDup_map_filter.
  - simpl. intros a Ha. apply filter_In in Ha as [Ha _]. now apply Rg.
Qed.

(** X15: every write of the API keeps the primary keys and the foreign keys
    of the four tables, whoever the caller, whatever the payload and whatever
    the reply. *)
Theorem perform_keeps_consistent (F : Formats) (env : Env) (u : Caller.t)
    (q : option string) (w : Write) (st : Store) :
  consistent st -> consistent (snd (perform F env u q w st)).
Proof.
  intros H. destruct w; unfold perform, outcome; simpl.
  - unfold TenantRoutes.create. apply validated_snd, guarded_snd; try exact H.
    destruct name; [now apply consistent_tenant_create | exact H].
  - unfold TenantRoutes.update. apply validated_snd, guarded_snd; try exact H.
    destruct name; [now apply consistent_tenant_update | exact H].
  - unfold TenantRoutes.delete. apply validated_snd, guarded_snd; try exact H.
    now apply consistent_tenant_delete.
  - unfold UserRoutes.create.
    apply guarded_snd, validated_snd, guarded_snd; try exact H.
    now apply consistent_user_create.
  - unfold UserRoutes.update.
    apply guarded_snd, validated_snd, guarded_snd; try exact H.
    now apply consistent_user_update.
  - unfold UserRoutes.delete.
    apply guarded_snd, validated_snd, guarded_snd; try exact H.
    now apply consistent_user_delete.
  - unfold CompetitionRoutes.create.
    apply guarded_snd, validated_snd; try exact H.
    destruct (Middleware.enforceTenantId _ u POST None q (Some body)) as [d body'].
    apply guarded_snd; [exact H |].
    destruct body'; now apply consistent_competition_create.
  - unfold CompetitionRoutes.update.
    apply guarded_snd, validated_snd; try exact H.
    destruct (Middleware.enforceTenantId _ u PUT None q (Some body)) as [d body'].
    apply guarded_snd; [exact H |].
    destruct body'; now apply consistent_competition_update.
  - unfold CompetitionRoutes.delete. apply validated_snd, guarded_snd; try exact H.
    now apply consistent_competition_delete.
  - unfold AllowedSchoolRoutes.create. apply validated_snd; [exact H |].
    pose proof (consistent_grant_preHandler u body st H) as Hpre.
    destruct (AllowedSchoolRoutes.create_preHandler u body st) as [d st'].
    apply guarded_snd; [exact H |]. now apply consistent_grant_create.
  - unfold AllowedSchoolRoutes.delete. apply validated_snd, guarded_snd; try exact H.
    now apply consistent_grant_delete.
Qed.

Lemma seed_consistent : consistent Seed.store.
Proof.
  split; [repeat split | split; [| split]].
  - unfold primary_key. simpl.
    repeat (constructor; [simpl; intuition discriminate |]). constructor.
  - exact seed_users_key.
  - exact seed_competitions_key.
  - simpl. repeat (constructor; [simpl; intuition discriminate |]). constructor.
  - intros r Hr. simpl in Hr. intuition (subst; reflexivity).
  - intros c Hc. simpl in Hc. intuition (subst; reflexivity).
  - intros a Ha. simpl in Ha. intuition (subst; reflexivity).
Qed.

Lemma perform_keeps_consistent_witness :
  consistent Seed.store
  /\ consistent
       (snd (perform Seed.formats (mkEnv Seed.nobody Seed.now)
               (Seed.caller_of Seed.developer) None
               (WTenantDelete Seed.school2) Seed.store)).
Proof.
  split; [exact seed_consistent |].
  apply (perform_keeps_consistent Seed.formats (mkEnv Seed.nobody Seed.now)
           (Seed.caller_of Seed.developer) None (WTenantDelete Seed.school2)
           Seed.store).
  exact seed_consistent.
Defined.

(** ** Superuser accounts *)

Lemma enum_roles_not_superuser (s : string) (ro : Role) :
  enum ["school_admin"; "student"] s = true -> role_of_string s = Some ro ->
  ro <> superuser.
Proof.
  unfold enum, includes. cbn [existsb].
  rewrite !orb_true_iff, !String.eqb_eq.
  intros [<-|[<-|H]]; [| | discriminate]; intros E; inversion E; discriminate.
Qed.

Lemma is_superuser_role (r : User.t) : is_superuser r = true <-> User.role r = superuser.
Proof. unfold is_superuser. destruct (User.role r); split; congruence. Qed.

(** An update that gives a property to no row keeps the number of rows that
    have it from growing. *)
Lemma update_where_count {A} (p : A -> bool) (sel : A -> bool) (f : A -> option A)
    (rows table returned : list A) :
  (forall r r', f r = Some r' -> p r' = true -> p r = true) ->
  update_where sel f rows = Some (table, returned) ->
  List.length (filter p table) <= List.length (filter p rows).
Proof.
  intros Hf. revert table returned.
  induction rows as [|a rows IH]; simpl; intros table returned H.
  - inversion H; subst. simpl. lia.
  - destruct (update_where sel f rows) as [[table0 returned0]|]; [| discriminate].
    specialize (IH table0 returned0 eq_refl).
    destruct (sel a).
    + destruct (f a) as [a'|] eqn:Fa; [| discriminate].
      inversion H; subst. simpl.
      destruct (p a') eqn:Pa'.
      * rewrite (Hf a a' Fa Pa'). simpl. lia.
      * destruct (p a); simpl; lia.
    + inversion H; subst. simpl. destruct (p a); simpl; lia.
Qed.

Lemma filter_length_le {A} (p q : A -> bool) (rows : list A) :
  List.length (filter p (filter q rows)) <= List.length (filter p rows).
Proof.
  induction rows as [|a rows IH]; simpl; [lia |].
  destruct (q a); simpl; destruct (p a); simpl; lia.
Qed.

Lemma superusers_same (st st' : Store) :
  users st' = users st ->
  List.length (superusers st') <= List.length (superusers st).
Proof. unfold superusers. intros ->. lia. Qed.

Lemma superusers_user_create (F : Formats) (env : Env) (body : UserBody.t) (st : Store) :
  UserRoutes.create_schema F body = true ->
  List.length (superusers (snd (UserRoutes.create_handler env body st)))
  <= List.length (superusers st).
Proof.
  intros Hschema. unfold UserRoutes.create_schema in Hschema.
  apply andb_prop in Hschema as [_ Hrole].
  unfold UserRoutes.create_handler.
  destruct (UserBody.email body) as [email|]; [| now apply superusers_same].
  destruct (UserBody.tenant_id body) as [tenant_id|]; [| now apply superusers_same].
  destruct (UserBody.role body) as [role|]; [| now apply superusers_same].
  simpl in Hrole.
  destruct (role_of_string role) as [ro|] eqn:Hro; [| now apply superusers_same].
  destruct (existsb _ _); [now apply superusers_same |].
  destruct (negb _); [now apply superusers_same |].
  unfold superusers. simpl. rewrite filter_app. simpl.
  assert (Hno : is_superuser (User.mk (generated_id env) email (uuid_text tenant_id) ro)
                = false).
  { apply not_true_is_false. intros Hs. apply is_superuser_role in Hs.
    now apply (enum_roles_not_superuser role ro). }
  rewrite Hno, app_nil_r. lia.
Qed.

Lemma superusers_user_update (F : Formats) (id : string) (body : UserBody.t)
    (st : Store) :
  UserRoutes.update_schema F body = true ->
  List.length (superusers (snd (UserRoutes.update_handler id body st)))
  <= List.length (superusers st).
Proof.
  intros Hschema. unfold UserRoutes.update_schema in Hschema.
  apply andb_prop in Hschema as [_ Hrole].
  unfold UserRoutes.update_handler.
  destruct (UserBody.is_empty body); [now apply superusers_same |].
  destruct (update_where _ _ (users st)) as [[table returned]|] eqn:Hu;
    [| now apply superusers_same].
  assert (Hres : List.length (superusers (with_users st table))
                 <= List.length (superusers st)).
  { unfold superusers. simpl.
    apply (update_where_count is_superuser _ _ _ _ _) with (2 := Hu).
    intros r r' Hf Hsuper. apply is_superuser_role in Hsuper.
    apply is_superuser_role.
    destruct (user_checked_update_fields id body st r r' Hf) as (Ha & _).
    unfold UserRoutes.apply_update in Ha.
    destruct (UserBody.role body) as [s|].
    - simpl in Hrole. destruct (role_of_string s) as [ro|] eqn:Hro; [| discriminate].
      inversion Ha; subst. simpl in Hsuper. subst ro.
      exfalso. now apply (enum_roles_not_superuser s superuser).
    - inversion Ha; subst. exact Hsuper. }
  destruct (single returned); exact Hres.
Qed.

(** X8: no write of the API adds a superuser. After any POST, PUT or DELETE
    on tenants, users, competitions or grants, the table of users holds at
    most as many rows with the role superuser as before, whoever the caller (a
    superuser included) and whatever the payload: the schemas of POST /users
    and PUT /users/:id admit the roles school_admin and student only. *)
Theorem perform_makes_no_superuser (F : Formats) (env : Env) (u : Caller.t)
    (q : option string) (w : Write) (st : Store) :
  List.length (superusers (snd (perform F env u q w st)))
  <= List.length (superusers st).
Proof.
  set (P := fun s : Store => List.length (superusers s) <= List.length (superusers st)).
  assert (H : P st) by (unfold P; lia).
  change (P (snd (perform F env u q w st))).
  destruct w; unfold perform, outcome; simpl.
  - unfold TenantRoutes.create.
    apply validated_snd, guarded_snd; try exact H. apply superusers_same.
    destruct name; [| reflexivity]. unfold TenantRoutes.create_handler.
    destruct (tenant_exists st _); reflexivity.
  - unfold TenantRoutes.update.
    apply validated_snd, guarded_snd; try exact H. apply superusers_same.
    destruct name; [| reflexivity]. unfold TenantRoutes.update_handler.
    destruct (update_where _ _ _) as [[? returned]|]; [| reflexivity].
    destruct (single returned); reflexivity.
  - unfold TenantRoutes.delete.
    apply validated_snd, guarded_snd; try exact H.
    unfold TenantRoutes.delete_handler.
    destruct (tenant_exists st id); [| exact H]. unfold P, superusers. simpl.
    apply filter_length_le.
  - unfold UserRoutes.create. apply guarded_snd; [exact H |].
    destruct (UserRoutes.create_schema F body) eqn:Hschema; simpl; [| exact H].
    apply guarded_snd; [exact H |]. now apply (superusers_user_create F).
  - unfold UserRoutes.update. apply guarded_snd; [exact H |].
    destruct (format_uuid F id); simpl; [| exact H].
    destruct (UserRoutes.update_schema F body) eqn:Hschema; simpl; [| exact H].
    apply guarded_snd; [exact H |]. now apply (superusers_user_update F).
  - unfold UserRoutes.delete.
    apply guarded_snd, validated_snd, guarded_snd; try exact H.
    unfold P, superusers. simpl. apply filter_length_le.
  - unfold CompetitionRoutes.create.
    apply guarded_snd, validated_snd; try exact H.
    destruct (Middleware.enforceTenantId _ u POST None q (Some body)) as [d body'].
    apply guarded_snd; [exact H |]. apply superusers_same.
    assert (Hh : forall b, users (snd (CompetitionRoutes.create_handler env b st))
                           = users st).
    { intros b. unfold CompetitionRoutes.create_handler.
      repeat match goal with
             | |- context [match ?x with _ => _ end] => destruct x
             end; reflexivity. }
    destruct body'; apply Hh.
  - unfold CompetitionRoutes.update.
    apply guarded_snd, validated_snd; try exact H.
    destruct (Middleware.enforceTenantId _ u PUT None q (Some body)) as [d body'].
    apply guarded_snd; [exact H |]. apply superusers_same.
    assert (Hh : forall b, users (snd (CompetitionRoutes.update_handler id b st))
                           = users st).
    { intros b. unfold CompetitionRoutes.update_handler.
      destruct (CompetitionBody.is_empty b); [reflexivity |].
      destruct (update_where _ _ _) as [[? returned]|]; [| reflexivity].
      destruct (single returned); reflexivity. }
    destruct body'; apply Hh.
  - unfold CompetitionRoutes.delete.
    apply validated_snd, guarded_snd; exact H.
  - unfold AllowedSchoolRoutes.create. apply validated_snd; [exact H |].
    assert (Hpre : users (snd (AllowedSchoolRoutes.create_preHandler u body st))
                   = users st).
    { unfold AllowedSchoolRoutes.create_preHandler.
      repeat match goal with
             | |- context [match ?x with _ => _ end] => destruct x
             end; reflexivity. }
    destruct (AllowedSchoolRoutes.create_preHandler u body st) as [d st'].
    simpl in Hpre. apply guarded_snd; [exact H |]. apply superusers_same.
    unfold AllowedSchoolRoutes.create_handler.
    repeat match goal with
           | |- context [if ?x then _ else _] => destruct x
           end; simpl; auto.
  - unfold AllowedSchoolRoutes.delete.
    apply validated_snd, guarded_snd; exact H.
Qed.

(** The schemas do not close the body: a key [id] changes the primary key of
    the row, so the id of a superuser after a request need not be the id of
    a superuser before it. The seeded superuser renames the own row. *)
Example superuser_id_rewritten :
  fst (UserRoutes.update Seed.formats (Seed.caller_of Seed.developer)
         (User.id Seed.developer) None
         (UserBody.make None None None (Some Seed.nobody) None) Seed.store)
  = Sent 200 (User.mk Seed.nobody (User.email Seed.developer)
                (User.tenant_id Seed.developer) superuser)
  /\ users_eq_id
       (snd (UserRoutes.update Seed.formats (Seed.caller_of Seed.developer)
               (User.id Seed.developer) None
               (UserBody.make None None None (Some Seed.nobody) None) Seed.store))
       (User.id Seed.developer)
     = [].
Proof. split; reflexivity. Qed.

(** ** Who may read what *)

(** X2: for a competition of the table, the guard of GET /competitions/:id
    lets a caller through exactly when the caller is a superuser, or the
    competition is public, or it belongs to the caller's tenant, or it is
    restricted and one grant names the caller's tenant. In particular a
    private competition of another tenant is refused to every caller that is
    not a superuser, grants or not. *)
Theorem competition_read_decision (u : Caller.t) (q : option string) (st : Store)
    (c : Competition.t) :
  primary_key Competition.id (competitions st) -> In c (competitions st) ->
  (decide (mkRequest u q (CompetitionGet (Competition.id c))) st = Allow
   <-> may_read u st c = true)
  /\ (Competition.visibility c = private ->
      Competition.tenant_id c <> Caller.tenant_id u ->
      Caller.role u <> "superuser" ->
      decide (mkRequest u q (CompetitionGet (Competition.id c))) st
      = Deny "Access denied to this competition").
Proof.
  intros Hpk Hin. unfold decide, may_read; simpl.
  unfold CompetitionRoutes.get_by_id_preHandler.
  rewrite (competition_lookup st c Hpk Hin). split.
  - destruct (Caller.role u =? "superuser"), (Caller.role u =? "school_admin"),
      (Competition.tenant_id c =? Caller.tenant_id u),
      (Visibility_eqb (Competition.visibility c) public),
      (Visibility_eqb (Competition.visibility c) restricted),
      (single (allowed_eq st (Competition.id c) (Caller.tenant_id u)));
      simpl; split; intros; congruence.
  - intros Hvis Hten Hrole. rewrite Hvis.
    destruct (String.eqb_spec (Caller.role u) "superuser"); [contradiction |].
    destruct (String.eqb_spec (Competition.tenant_id c) (Caller.tenant_id u));
      [contradiction |].
    simpl. now rewrite andb_false_r.
Qed.

Lemma competition_read_decision_witness :
  primary_key Competition.id (competitions Seed.store)
  /\ decide (mkRequest (Seed.caller_of Seed.admin1) None
               (CompetitionGet (Competition.id Seed.s2c2))) Seed.store
     = Deny "Access denied to this competition".
Proof.
  split; [exact seed_competitions_key |].
  destruct (competition_read_decision (Seed.caller_of Seed.admin1) None Seed.store
              Seed.s2c2 seed_competitions_key) as [_ H].
  - simpl. tauto.
  - apply H.
    + reflexivity.
    + discriminate.
    + discriminate.
Defined.

(** X3: the guard of GET /competition-allowed-schools/competition/:id and the
    guard of GET /competitions/:id refuse the same requests: whoever may read
    a competition may list the schools it is granted to, and conversely. *)
Theorem grants_of_readable_competitions (u : Caller.t) (q : option string)
    (id : string) (st : Store) :
  decide (mkRequest u q (GrantListByCompetition id)) st = Allow
  <-> decide (mkRequest u q (CompetitionGet id)) st = Allow.
Proof.
  unfold decide; simpl.
  unfold AllowedSchoolRoutes.get_by_competition_preHandler,
    CompetitionRoutes.get_by_id_preHandler.
  destruct (Caller.role u =? "superuser"); [tauto |].
  destruct (single (competitions_eq_id st id)) as [competition|]; [| tauto].
  destruct (Caller.role u =? "school_admin"),
    (Competition.tenant_id competition =? Caller.tenant_id u),
    (Visibility_eqb (Competition.visibility competition) public),
    (Visibility_eqb (Competition.visibility competition) restricted),
    (single (allowed_eq st id (Caller.tenant_id u)));
    simpl; split; intros; congruence.
Qed.

(** X4: a user row that GET /users/:id sends is the caller's own (it carries
    the uuid of the caller), or the caller is a superuser, or the caller is a
    school_admin and the row is of the caller's tenant. *)
Theorem user_read_discloses (F : Formats) (u : Caller.t) (id : string)
    (q : option string) (st st' : Store) (code : nat) (r : User.t) :
  UserRoutes.get_by_id F u id q st = (Sent code r, st') ->
  uuid_text (User.id r) = uuid_text (Caller.id u)
  \/ Caller.role u = "superuser"
  \/ (Caller.role u = "school_admin" /\ User.tenant_id r = Caller.tenant_id u).
Proof.
  unfold UserRoutes.get_by_id.
  destruct (UserRoutes.onRequest u GET None q); simpl; [| discriminate].
  destruct (format_uuid F id); simpl; [| discriminate].
  unfold UserRoutes.get_by_id_preHandler, UserRoutes.get_by_id_handler.
  destruct (single (users_eq_id st id)) as [data|] eqn:Hdata.
  - assert (Hid : uuid_text (User.id data) = uuid_text id).
    { apply single_filter_In in Hdata as [_ E]. now apply same_uuid_eq. }
    destruct (String.eqb_spec id (Caller.id u)) as [E|E]; simpl.
    + intros H; inversion H; subst. now left.
    + destruct (String.eqb_spec (Caller.role u) "school_admin") as [Ea|Ea].
      * destruct (String.eqb_spec (User.tenant_id data) (Caller.tenant_id u)); simpl.
        -- intros H; inversion H; subst. right. right. auto.
        -- destruct (String.eqb_spec (Caller.role u) "superuser"); simpl;
             [| discriminate].
           intros H; inversion H; subst. right. now left.
      * destruct (String.eqb_spec (Caller.role u) "superuser"); simpl;
          [| discriminate].
        intros H; inversion H; subst. right. now left.
  - destruct (id =? Caller.id u); simpl; [discriminate |].
    destruct (Caller.role u =? "school_admin"); simpl;
      destruct (Caller.role u =? "superuser"); simpl; discriminate.
Qed.

Lemma user_read_discloses_witness :
  UserRoutes.get_by_id Seed.formats (Seed.caller_of Seed.admin1)
    (User.id Seed.student1) None Seed.store
  = (Sent 200 Seed.student1, Seed.store)
  /\ (uuid_text (User.id Seed.student1) = uuid_text (Caller.id (Seed.caller_of Seed.admin1))
      \/ Caller.role (Seed.caller_of Seed.admin1) = "superuser"
      \/ (Caller.role (Seed.caller_of Seed.admin1) = "school_admin"
          /\ User.tenant_id Seed.student1
             = Caller.tenant_id (Seed.caller_of Seed.admin1))).
Proof.
  split; [reflexivity |].
  apply (user_read_discloses Seed.formats (Seed.caller_of Seed.admin1)
           (User.id Seed.student1) None Seed.store Seed.store 200 Seed.student1).
  reflexivity.
Defined.

Lemma js_or_truthy (x y : option string) : truthy x = true -> js_or x y = x.
Proof. unfold js_or. now intros ->. Qed.

(** X6: the rows GET /users/tenant/:tenantId sends to a caller that is not a
    superuser are rows of the caller's own tenant, and the caller is not a
    student. *)
Theorem users_by_tenant_isolated (F : Formats) (u : Caller.t) (tenantId : string)
    (q : option string) (st st' : Store) (code : nat) (rows : list User.t) :
  format_uuid F EmptyString = false ->
  Caller.role u <> "superuser" ->
  UserRoutes.get_by_tenant F u tenantId q st = (Sent code rows, st') ->
  Caller.role u <> "student"
  /\ forall r, In r rows -> uuid_text (User.tenant_id r) = uuid_text (Caller.tenant_id u).
Proof.
  intros H0 Hrole. unfold UserRoutes.get_by_tenant, UserRoutes.onRequest,
    Middleware.enforceTenantId.
  destruct (String.eqb_spec (Caller.role u) "superuser"); [contradiction |].
  destruct (format_uuid F tenantId) eqn:Hfmt.
  - rewrite (js_or_truthy _ q (format_truthy _ tenantId H0 Hfmt)),
      (format_truthy _ tenantId H0 Hfmt), strict_eq_Some.
    destruct (String.eqb_spec tenantId (Caller.tenant_id u)) as [E|E]; simpl;
      [| discriminate].
    unfold UserRoutes.get_by_tenant_preHandler.
    rewrite E, String.eqb_refl, andb_false_r.
    destruct (String.eqb_spec (Caller.role u) "student"); simpl; [discriminate |].
    intros H; inversion H; subst. split; [assumption |].
    intros r Hr. apply filter_In in Hr as [_ Hr]. now apply same_uuid_eq.
  - destruct (truthy _ && _); simpl; discriminate.
Qed.

Lemma users_by_tenant_isolated_witness :
  UserRoutes.get_by_tenant Seed.formats (Seed.caller_of Seed.admin1) Seed.school1
    None Seed.store
  = (Sent 200 [Seed.developer; Seed.admin1; Seed.student1], Seed.store)
  /\ Caller.role (Seed.caller_of Seed.admin1) <> "student"
  /\ (forall r,
        In r [Seed.developer; Seed.admin1; Seed.student1] ->
        uuid_text (User.tenant_id r)
        = uuid_text (Caller.tenant_id (Seed.caller_of Seed.admin1))).
Proof.
  split; [reflexivity |].
  apply (users_by_tenant_isolated Seed.formats (Seed.caller_of Seed.admin1)
           Seed.school1 None Seed.store Seed.store 200
           [Seed.developer; Seed.admin1; Seed.student1]).
  - reflexivity.
  - discriminate.
  - reflexivity.
Defined.

(** ** Who may write what *)

Lemma strict_eq_true (x : option string) (s : string) :
  strict_eq x (Some s) = true <-> x = Some s.
Proof.
  destruct x as [a|]; simpl.
  - rewrite String.eqb_eq. split; congruence.
  - split; discriminate.
Qed.

(** X5: what DELETE /users/:id keeps. A request whose [:id] is the caller's
    id as the token spells it removes nothing; for a caller that is not a
    superuser the route never removes a superuser nor a user of another
    tenant; and for a caller that is neither superuser nor school_admin it
    removes nothing. *)
Theorem user_delete_protects (F : Formats) (u : Caller.t) (id : string)
    (q : option string) (st : Store) (r : User.t) :
  In r (users st) ->
  id = Caller.id u
  \/ (Caller.role u <> "superuser"
      /\ (User.role r = superuser \/ User.tenant_id r <> Caller.tenant_id u
          \/ Caller.role u <> "school_admin")) ->
  In r (users (snd (UserRoutes.delete F u id q st))).
Proof.
  intros Hin Hprot. unfold UserRoutes.delete.
  apply (guarded_snd (fun s => In r (users s))); [exact Hin |].
  apply (validated_snd (fun s => In r (users s))); [exact Hin |].
  destruct (UserRoutes.delete_preHandler u id st) eqn:Hpre; simpl; [| exact Hin].
  apply filter_In. split; [exact Hin |]. apply negb_true_iff, not_true_is_false.
  intros Hid. unfold UserRoutes.delete_preHandler in Hpre.
  destruct (String.eqb_spec id (Caller.id u)) as [E|E]; [discriminate |].
  destruct Hprot as [Hown|[Hrole Hrow]]; [contradiction |].
  destruct (String.eqb_spec (Caller.role u) "school_admin") as [Ea|Ea].
  - destruct (single (users_eq_id st id)) as [data|] eqn:Hdata; [| discriminate].
    pose proof (single_filter_only _ _ data r Hdata Hin Hid) as ->.
    destruct (String.eqb_spec (User.tenant_id data) (Caller.tenant_id u)) as [Et|Et];
      simpl in Hpre; [| discriminate].
    destruct Hrow as [Hsuper|[Hten|Hadm]]; [| contradiction | contradiction].
    rewrite Hsuper in Hpre. simpl in Hpre. discriminate.
  - destruct (String.eqb_spec (Caller.role u) "superuser"); [contradiction |].
    simpl in Hpre. discriminate.
Qed.

Lemma user_delete_protects_witness :
  In Seed.developer (users Seed.store)
  /\ In Seed.developer
       (users (snd (UserRoutes.delete Seed.formats (Seed.caller_of Seed.admin1)
                      (User.id Seed.developer) None Seed.store))).
Proof.
  split; [simpl; tauto |].
  apply (user_delete_protects Seed.formats (Seed.caller_of Seed.admin1)
           (User.id Seed.developer) None Seed.store Seed.developer).
  - simpl. tauto.
  - right. split; [discriminate | left; reflexivity].
Defined.

(** X28: the guard against deleting oneself compares spellings. A superuser
    who sends the own id spelled otherwise than in the token (upper-case
    digits) is answered 204, and no row with the caller's uuid is left. *)
Theorem self_delete_by_spelling (F : Formats) (u : Caller.t) (id : string)
    (q : option string) (st : Store) :
  Caller.role u = "superuser" ->
  id <> Caller.id u -> uuid_text id = uuid_text (Caller.id u) ->
  format_uuid F id = true ->
  fst (UserRoutes.delete F u id q st) = Sent 204 tt
  /\ users_eq_id (snd (UserRoutes.delete F u id q st)) (Caller.id u) = [].
Proof.
  intros Hrole Hne Hid Hfmt. unfold UserRoutes.delete.
  rewrite (onRequest_superuser _ _ _ _ Hrole), Hfmt. simpl.
  unfold UserRoutes.delete_preHandler.
  destruct (String.eqb_spec id (Caller.id u)); [contradiction |].
  rewrite Hrole. simpl. split; [reflexivity |].
  unfold users_eq_id. simpl.
  induction (users st) as [|r rows IH]; simpl; [reflexivity |].
  rewrite (same_uuid_congr _ _ (User.id r) Hid).
  destruct (same_uuid (User.id r) (Caller.id u)) eqn:E; simpl; [exact IH |].
  now rewrite E.
Qed.

Lemma self_delete_by_spelling_witness :
  Caller.role (Seed.caller_of Seed.developer) = "superuser"
  /\ In Seed.developer (users Seed.store)
  /\ fst (UserRoutes.delete Seed.formats (Seed.caller_of Seed.developer)
            Seed.developer_upper None Seed.store) = Sent 204 tt
  /\ users_eq_id
       (snd (UserRoutes.delete Seed.formats (Seed.caller_of Seed.developer)
               Seed.developer_upper None Seed.store))
       (Caller.id (Seed.caller_of Seed.developer))
     = [].
Proof.
  split; [reflexivity |]. split; [simpl; tauto |].
  apply (self_delete_by_spelling Seed.formats (Seed.caller_of Seed.developer)
           Seed.developer_upper None Seed.store).
  - reflexivity.
  - discriminate.
  - reflexivity.
  - reflexivity.
Defined.

(** A school_admin passes as well: the row found under the upper-case id is of
    the caller's tenant and not a superuser, namely the caller's own. *)
Example school_admin_self_delete_by_spelling :
  UserRoutes.delete Seed.formats (Seed.caller_of Seed.admin1) Seed.admin1_upper None
    Seed.store
  = (Sent 204 tt,
     with_users Seed.store
       [Seed.admin3; Seed.admin2; Seed.developer; Seed.student3; Seed.student4;
        Seed.student2; Seed.student1]).
Proof. reflexivity. Qed.

(** X7: the guard of POST /users. A superuser passes; a school_admin passes
    exactly when the body names the caller's own tenant and not the role
    superuser; a caller of any other role, a student included, passes exactly
    when the body does not name the role superuser, whatever the tenant. *)
Theorem user_create_decision (u : Caller.t) (body : UserBody.t) :
  UserRoutes.create_preHandler u body = Allow
  <-> Caller.role u = "superuser"
      \/ (Caller.role u = "school_admin"
          /\ UserBody.tenant_id body = Some (Caller.tenant_id u)
          /\ UserBody.role body <> Some "superuser")
      \/ (Caller.role u <> "superuser" /\ Caller.role u <> "school_admin"
          /\ UserBody.role body <> Some "superuser").
Proof.
  unfold UserRoutes.create_preHandler.
  pose proof (strict_eq_true (UserBody.role body) "superuser") as Hr.
  pose proof (strict_eq_true (UserBody.tenant_id body) (Caller.tenant_id u)) as Ht.
  destruct (strict_eq (UserBody.role body) (Some "superuser"));
    destruct (strict_eq (UserBody.tenant_id body) (Some (Caller.tenant_id u)));
    destruct (String.eqb_spec (Caller.role u) "school_admin") as [Ea|Ea];
    destruct (String.eqb_spec (Caller.role u) "superuser") as [Es|Es];
    simpl; try (rewrite Ea in Es; discriminate);
    (split;
     [ intros H; try discriminate;
       first [ now left
             | right; left; repeat split; try assumption; try (now apply Ht);
               intros X; apply Hr in X; discriminate
             | right; right; repeat split; try assumption;
               intros X; apply Hr in X; discriminate ]
     | intros [H|[(H1 & H2 & H3)|(H1 & H2 & H3)]]; try reflexivity; try contradiction;
       try (exfalso; apply H3; now apply Hr);
       try (apply Ht in H2; discriminate) ]).
Qed.

(** X18: the six routes guarded by [requireRole(['superuser'])] alone (the
    tenant list, creation, update and deletion, the list of all users, the
    list of all grants) are open to a caller exactly when its role is
    superuser. *)
Theorem superuser_only_routes (r : Request) (st : Store) :
  superuser_only (operation r) = true ->
  (decide r st = Allow <-> Caller.role (user r) = "superuser").
Proof.
  destruct r as [u q op]. simpl.
  assert (Hreq : Middleware.requireRole ["superuser"] u = Allow
                 <-> Caller.role u = "superuser").
  { unfold Middleware.requireRole, includes. cbn [existsb].
    rewrite orb_false_r.
    destruct (String.eqb_spec "superuser" (Caller.role u)) as [E|E]; simpl;
      split; congruence. }
  destruct op; simpl; try discriminate; intros _; unfold decide; simpl;
    try exact Hreq.
  unfold UserRoutes.get_all_preHandler. split.
  - destruct (UserRoutes.onRequest u GET None q); simpl; [apply Hreq | discriminate].
  - intros H. rewrite (onRequest_superuser _ _ _ _ H). simpl. now apply Hreq.
Qed.

Lemma superuser_only_routes_witness :
  superuser_only TenantList = true
  /\ (decide (mkRequest (Seed.caller_of Seed.admin1) None TenantList) Seed.store = Allow
      <-> Caller.role (Seed.caller_of Seed.admin1) = "superuser").
Proof.
  split; [reflexivity |].
  apply (superuser_only_routes
           (mkRequest (Seed.caller_of Seed.admin1) None TenantList) Seed.store).
  reflexivity.
Defined.

(** X19: to a caller that is not a superuser the tenant routes disclose the
    caller's own tenant only: the list is refused with 403, and the row
    GET /tenants/:id sends is the row of the caller's tenant. *)
Theorem tenant_rows_disclosed (F : Formats) (u : Caller.t) (st : Store) :
  Caller.role u <> "superuser" ->
  TenantRoutes.get_all u st = (Failed 403 "Insufficient permissions", st)
  /\ forall id code t st',
      TenantRoutes.get_by_id F u id st = (Sent code t, st') ->
      uuid_text (Tenant.id t) = uuid_text (Caller.tenant_id u).
Proof.
  intros Hrole. split.
  - unfold TenantRoutes.get_all, TenantRoutes.manage_preHandler,
      Middleware.requireRole, includes. cbn [existsb].
    destruct (String.eqb_spec "superuser" (Caller.role u)); [congruence |].
    reflexivity.
  - intros id code t st'. unfold TenantRoutes.get_by_id,
      TenantRoutes.get_by_id_preHandler, TenantRoutes.get_by_id_handler.
    destruct (format_uuid F id); simpl; [| discriminate].
    destruct (String.eqb_spec (Caller.role u) "superuser"); [contradiction |].
    destruct (String.eqb_spec id (Caller.tenant_id u)) as [E|E]; simpl;
      [| discriminate].
    destruct (single (tenants_eq_id st id)) as [data|] eqn:Hdata; [| discriminate].
    apply single_filter_In in Hdata as [_ Hin]. apply same_uuid_eq in Hin.
    intros H; inversion H; subst. exact Hin.
Qed.

Lemma tenant_rows_disclosed_witness :
  Caller.role (Seed.caller_of Seed.student1) <> "superuser"
  /\ TenantRoutes.get_all (Seed.caller_of Seed.student1) Seed.store
     = (Failed 403 "Insufficient permissions", Seed.store).
Proof.
  split; [discriminate |].
  apply (tenant_rows_disclosed Seed.formats (Seed.caller_of Seed.student1) Seed.store).
  discriminate.
Defined.

Lemma competition_create_handler_sent (env : Env) (b : CompetitionBody.t)
    (st st' : Store) (code : nat) (c : Competition.t) :
  CompetitionRoutes.create_handler env b st = (Sent code c, st') ->
  (exists t, CompetitionBody.tenant_id b = Some t
             /\ Competition.tenant_id c = uuid_text t)
  /\ Competition.id c = generated_id env
  /\ tenant_exists st (Competition.tenant_id c) = true
  /\ competitions st' = (competitions st ++ [c])%list
  /\ (CompetitionBody.visibility b = None -> Competition.visibility c = private).
Proof.
  unfold CompetitionRoutes.create_handler.
  destruct (CompetitionBody.title b) as [title|]; [| discriminate].
  destruct (CompetitionBody.tenant_id b) as [tenant_id|]; [| discriminate].
  destruct (js_or (CompetitionBody.visibility b) (Some "private")) as [v|] eqn:Hv;
    [| discriminate].
  destruct (visibility_of_string v) as [vis|] eqn:Hvis; [| discriminate].
  destruct (existsb _ _); [discriminate |].
  destruct (tenant_exists st tenant_id) eqn:Ht; simpl; [| discriminate].
  intros H; inversion H; subst; simpl.
  split; [eauto |]. split; [reflexivity |].
  split; [now rewrite tenant_exists_text |]. split; [reflexivity |].
  intros Hnone. rewrite Hnone in Hv. unfold js_or in Hv. simpl in Hv.
  inversion Hv; subst. simpl in Hvis. now inversion Hvis.
Qed.

(** X9: a competition that POST /competitions creates belongs to the caller's
    tenant unless the caller is a superuser, and then the caller is a
    school_admin; its id is the generated one, its tenant exists, it is added
    at the end of the table, and it is private when the body names no
    visibility. *)
Theorem competition_create_owner (F : Formats) (env : Env) (u : Caller.t)
    (q : option string) (body : CompetitionBody.t) (st st' : Store) (code : nat)
    (c : Competition.t) :
  CompetitionRoutes.create F env u q body st = (Sent code c, st') ->
  (Caller.role u = "superuser"
   \/ (Caller.role u = "school_admin"
       /\ Competition.tenant_id c = uuid_text (Caller.tenant_id u)))
  /\ Competition.id c = generated_id env
  /\ tenant_exists st (Competition.tenant_id c) = true
  /\ competitions st' = (competitions st ++ [c])%list
  /\ (CompetitionBody.visibility body = None -> Competition.visibility c = private).
Proof.
  unfold CompetitionRoutes.create, CompetitionRoutes.create_preValidation,
    Middleware.enforceTenantId.
  destruct (String.eqb_spec (Caller.role u) "superuser") as [Es|Es]; simpl.
  - rewrite andb_false_r. simpl.
    destruct (CompetitionRoutes.create_schema F body); simpl; [| discriminate].
    intros H. apply competition_create_handler_sent in H
      as (_ & Hid & Hex & Htab & Hvis). auto.
  - destruct (negb (strict_eq (CompetitionBody.tenant_id body)
                      (Some (Caller.tenant_id u)))); simpl; [discriminate |].
    destruct (String.eqb_spec (Caller.role u) "school_admin") as [Ea|Ea]; simpl;
      [| discriminate].
    destruct (CompetitionRoutes.create_schema F body); simpl; [| discriminate].
    destruct (truthy (js_or None q) && _); simpl; [discriminate |].
    intros H. apply competition_create_handler_sent in H
      as ((t & Hten & Hown) & Hid & Hex & Htab & Hvis). simpl in Hten, Hvis.
    assert (Ht : t = Caller.tenant_id u) by congruence.
    subst t. clear Hten. split; [right; split; [exact Ea | exact Hown] | auto].
Qed.

Lemma competition_create_owner_witness :
  CompetitionRoutes.create Seed.formats (mkEnv Seed.nobody Seed.now)
    (Seed.caller_of Seed.admin1) None
    (CompetitionBody.mk (Some "Chess") None None (Some Seed.school1)) Seed.store
  = (Sent 201 (Competition.mk Seed.nobody "Chess" None private Seed.school1 Seed.now),
     with_competitions Seed.store
       (competitions Seed.store
        ++ [Competition.mk Seed.nobody "Chess" None private Seed.school1 Seed.now]))
  /\ (Caller.role (Seed.caller_of Seed.admin1) = "superuser"
      \/ (Caller.role (Seed.caller_of Seed.admin1) = "school_admin"
          /\ Competition.tenant_id
               (Competition.mk Seed.nobody "Chess" None private Seed.school1 Seed.now)
             = uuid_text (Caller.tenant_id (Seed.caller_of Seed.admin1)))).
Proof.
  split; [reflexivity |].
  apply (competition_create_owner Seed.formats (mkEnv Seed.nobody Seed.now)
           (Seed.caller_of Seed.admin1) None
           (CompetitionBody.mk (Some "Chess") None None (Some Seed.school1))
           Seed.store
           (with_competitions Seed.store
              (competitions Seed.store
               ++ [Competition.mk Seed.nobody "Chess" None private Seed.school1 Seed.now]))
           201).
  reflexivity.
Defined.

(** ** What a write leaves alone *)

Lemma competition_update_handler_frame (id : string) (b : CompetitionBody.t)
    (st : Store) (c : Competition.t) :
  In c (competitions st) -> uuid_text (Competition.id c) <> uuid_text id ->
  In c (competitions (snd (CompetitionRoutes.update_handler id b st))).
Proof.
  intros Hin Hne. unfold CompetitionRoutes.update_handler.
  destruct (CompetitionBody.is_empty b); [exact Hin |].
  destruct (update_where _ _ (competitions st)) as [[table returned]|] eqn:Hu;
    [| exact Hin].
  assert (Ht : In c table).
  { apply (update_where_frame _ _ _ _ _ c Hu Hin). now apply same_uuid_neq. }
  destruct (single returned); exact Ht.
Qed.

Lemma user_update_handler_frame (id : string) (b : UserBody.t) (st : Store)
    (r : User.t) :
  In r (users st) -> uuid_text (User.id r) <> uuid_text id ->
  In r (users (snd (UserRoutes.update_handler id b st))).
Proof.
  intros Hin Hne. unfold UserRoutes.update_handler.
  destruct (UserBody.is_empty b); [exact Hin |].
  destruct (update_where _ _ (users st)) as [[table returned]|] eqn:Hu;
    [| exact Hin].
  assert (Ht : In r table).
  { apply (update_where_frame _ _ _ _ _ r Hu Hin). now apply same_uuid_neq. }
  destruct (single returned); exact Ht.
Qed.

Lemma competition_update_frame (F : Formats) (u : Caller.t) (q : option string)
    (id : string) (body : CompetitionBody.t) (st : Store) (c : Competition.t) :
  In c (competitions st) -> uuid_text (Competition.id c) <> uuid_text id ->
  In c (competitions (snd (CompetitionRoutes.update F u id q body st))).
Proof.
  intros Hin Hne. unfold CompetitionRoutes.update.
  apply (guarded_snd (fun s => In c (competitions s))); [exact Hin |].
  apply (validated_snd (fun s => In c (competitions s))); [exact Hin |].
  destruct (Middleware.enforceTenantId _ u PUT None q (Some body)) as [d body'].
  apply (guarded_snd (fun s => In c (competitions s))); [exact Hin |].
  destruct body'; now apply competition_update_handler_frame.
Qed.

(** X20: an update touches the rows of its [:id] only: after
    PUT /competitions/:id every competition with another uuid, and after
    PUT /users/:id every user with another uuid, is in the table as it was. *)
Theorem update_touches_its_id_only (F : Formats) (u : Caller.t) (q : option string)
    (id : string) (st : Store) :
  (forall body c,
      In c (competitions st) -> uuid_text (Competition.id c) <> uuid_text id ->
      In c (competitions (snd (CompetitionRoutes.update F u id q body st))))
  /\ (forall body r,
         In r (users st) -> uuid_text (User.id r) <> uuid_text id ->
         In r (users (snd (UserRoutes.update F u id q body st)))).
Proof.
  split.
  - intros body c Hin Hne. now apply competition_update_frame.
  - intros body r Hin Hne. unfold UserRoutes.update.
    apply (guarded_snd (fun s => In r (users s))); [exact Hin |].
    apply (validated_snd (fun s => In r (users s))); [exact Hin |].
    apply (guarded_snd (fun s => In r (users s))); [exact Hin |].
    now apply user_update_handler_frame.
Qed.

Lemma update_touches_its_id_only_witness :
  In Seed.student2 (users Seed.store)
  /\ uuid_text (User.id Seed.student2) <> uuid_text (User.id Seed.student1)
  /\ In Seed.student2
       (users (snd (UserRoutes.update Seed.formats (Seed.caller_of Seed.developer)
                      (User.id Seed.student1) None
                      (UserBody.mk (Some "first@school1.com") None None) Seed.store))).
Proof.
  split; [simpl; tauto |]. split; [discriminate |].
  apply (update_touches_its_id_only Seed.formats (Seed.caller_of Seed.developer) None
           (User.id Seed.student1) Seed.store).
  - simpl. tauto.
  - discriminate.
Defined.

(** X10: under the primary key of [competitions], no PUT and no DELETE on
    /competitions/:id by a student, or by a school_admin of another tenant,
    changes or removes a competition: the row is in the table afterwards as it
    was, whatever the id and the body of the request. *)
Theorem competition_writes_isolated (F : Formats) (u : Caller.t) (q : option string)
    (st : Store) (c : Competition.t) :
  primary_key Competition.id (competitions st) -> In c (competitions st) ->
  Caller.role u = "student"
  \/ (Caller.role u = "school_admin"
      /\ Competition.tenant_id c <> Caller.tenant_id u) ->
  (forall id body,
      In c (competitions (snd (CompetitionRoutes.update F u id q body st))))
  /\ (forall id, In c (competitions (snd (CompetitionRoutes.delete F u id st)))).
Proof.
  intros Hpk Hin Hwho.
  assert (Hc : forall id, uuid_text (Competition.id c) = uuid_text id ->
                          single (competitions_eq_id st id) = Some c).
  { intros id E. now rewrite (competition_lookup_spelled st c id Hpk Hin E). }
  split.
  - intros id body.
    destruct (same_uuid_spec (Competition.id c) id) as [E|Hne].
    + unfold CompetitionRoutes.update, CompetitionRoutes.update_preValidation.
      rewrite (Hc id E). destruct Hwho as [Hs|[Ha Hten]].
      * rewrite Hs. simpl. exact Hin.
      * rewrite Ha. simpl.
        destruct (String.eqb_spec (Competition.tenant_id c) (Caller.tenant_id u));
          [contradiction |]. simpl. exact Hin.
    + now apply competition_update_frame.
  - intros id.
    unfold CompetitionRoutes.delete.
    apply (validated_snd (fun s => In c (competitions s))); [exact Hin |].
    destruct (same_uuid_spec (Competition.id c) id) as [E|Hne].
    + unfold CompetitionRoutes.delete_preHandler. rewrite (Hc id E).
      destruct Hwho as [Hs|[Ha Hten]].
      * rewrite Hs. simpl. exact Hin.
      * rewrite Ha. simpl.
        destruct (String.eqb_spec (Competition.tenant_id c) (Caller.tenant_id u));
          [contradiction |]. simpl. exact Hin.
    + apply (guarded_snd (fun s => In c (competitions s))); [exact Hin |].
      simpl. apply filter_In. split; [exact Hin |].
      now apply negb_true_iff, same_uuid_neq.
Qed.

Lemma competition_writes_isolated_witness :
  primary_key Competition.id (competitions Seed.store)
  /\ In Seed.s2c2
       (competitions
          (snd (CompetitionRoutes.delete Seed.formats (Seed.caller_of Seed.admin1)
                  (Competition.id Seed.s2c2) Seed.store))).
Proof.
  split; [exact seed_competitions_key |].
  apply (competition_writes_isolated Seed.formats (Seed.caller_of Seed.admin1) None
           Seed.store Seed.s2c2 seed_competitions_key).
  - simpl. tauto.
  - right. split; [reflexivity | discriminate].
Defined.

Lemma tenant_exists_congr (st : Store) (a b : string) :
  uuid_text a = uuid_text b -> tenant_exists st a = tenant_exists st b.
Proof.
  intros E. unfold tenant_exists. apply existsb_ext_in. intros t.
  now apply same_uuid_congr.
Qed.

(** X16: DELETE /tenants/:id. When the foreign keys hold, no user, no
    competition and no grant refers to the tenant once the route has answered
    204, and the tenant is gone; whatever the reply, the users and the
    competitions of the other tenants and the other tenants themselves are in
    their tables as they were. *)
Theorem tenant_delete_cascade (F : Formats) (u : Caller.t) (id : string) (st : Store) :
  references_hold st ->
  (status (fst (TenantRoutes.delete F u id st)) = 204 ->
   tenant_exists (snd (TenantRoutes.delete F u id st)) id = false
   /\ (forall r, In r (users (snd (TenantRoutes.delete F u id st))) ->
                 uuid_text (User.tenant_id r) <> uuid_text id)
   /\ (forall c, In c (competitions (snd (TenantRoutes.delete F u id st))) ->
                 uuid_text (Competition.tenant_id c) <> uuid_text id)
   /\ (forall a, In a (competition_allowed_schools
                         (snd (TenantRoutes.delete F u id st))) ->
                 uuid_text (AllowedSchool.school_id a) <> uuid_text id))
  /\ (forall t, In t (tenants st) -> uuid_text (Tenant.id t) <> uuid_text id ->
                In t (tenants (snd (TenantRoutes.delete F u id st))))
  /\ (forall r, In r (users st) -> uuid_text (User.tenant_id r) <> uuid_text id ->
                In r (users (snd (TenantRoutes.delete F u id st))))
  /\ (forall c, In c (competitions st) ->
                uuid_text (Competition.tenant_id c) <> uuid_text id ->
                In c (competitions (snd (TenantRoutes.delete F u id st)))).
Proof.
  intros (Ru & Rc & Rg). unfold TenantRoutes.delete.
  destruct (format_uuid F id); simpl.
  2:{ split; [discriminate | auto]. }
  destruct (TenantRoutes.manage_preHandler u); simpl.
  2:{ split; [discriminate | auto]. }
  unfold TenantRoutes.delete_handler.
  destruct (tenant_exists st id) eqn:Hex; simpl.
  - split; [intros _; split; [| split; [| split]] | split; [| split]].
    + unfold tenant_exists. simpl. apply not_true_is_false. intros H.
      apply existsb_exists in H as (t & Ht & E). apply filter_In in Ht as [_ Ht].
      rewrite E in Ht. discriminate.
    + intros r Hr. apply filter_In in Hr as [_ Hr].
      now apply negb_true_iff, same_uuid_neq in Hr.
    + intros c Hc. apply filter_In in Hc as [_ Hc].
      now apply negb_true_iff, same_uuid_neq in Hc.
    + intros a Ha. apply filter_In in Ha as [_ Ha].
      apply andb_true_iff in Ha as [Ha _].
      now apply negb_true_iff, same_uuid_neq in Ha.
    + intros t Ht Hne. apply filter_In. split; [exact Ht |].
      now apply negb_true_iff, same_uuid_neq.
    + intros r Hr Hne. apply filter_In. split; [exact Hr |].
      now apply negb_true_iff, same_uuid_neq.
    + intros c Hc Hne. apply filter_In. split; [exact Hc |].
      now apply negb_true_iff, same_uuid_neq.
  - split; [intros _; split; [| split; [| split]] | auto].
    + exact Hex.
    + intros r Hr E. specialize (Ru r Hr).
      rewrite (tenant_exists_congr st _ _ E) in Ru. congruence.
    + intros c Hc E. specialize (Rc c Hc).
      rewrite (tenant_exists_congr st _ _ E) in Rc. congruence.
    + intros a Ha E. destruct (Rg a Ha) as [_ H].
      rewrite (tenant_exists_congr st _ _ E) in H. congruence.
Qed.

Lemma tenant_delete_cascade_witness :
  references_hold Seed.store
  /\ status (fst (TenantRoutes.delete Seed.formats (Seed.caller_of Seed.developer)
                    Seed.school2 Seed.store)) = 204
  /\ (forall r,
        In r (users (snd (TenantRoutes.delete Seed.formats
                            (Seed.caller_of Seed.developer) Seed.school2
                            Seed.store))) ->
        uuid_text (User.tenant_id r) <> uuid_text Seed.school2).
Proof.
  split; [exact (proj2 seed_consistent) |]. split; [reflexivity |].
  destruct (tenant_delete_cascade Seed.formats (Seed.caller_of Seed.developer)
              Seed.school2 Seed.store (proj2 seed_consistent)) as [H _].
  destruct (H eq_refl) as (_ & Hu & _). exact Hu.
Defined.

(** ** Grants *)

Lemma restrict_competition_id (cid : string) (c : Competition.t) :
  Competition.id (restrict_competition cid c) = Competition.id c.
Proof. unfold restrict_competition. now destruct (same_uuid (Competition.id c) cid). Qed.

Lemma restrict_competition_tenant (cid : string) (c : Competition.t) :
  Competition.tenant_id (restrict_competition cid c) = Competition.tenant_id c.
Proof. unfold restrict_competition. now destruct (same_uuid (Competition.id c) cid). Qed.

Lemma restrict_competition_idem (cid : string) (c : Competition.t) :
  restrict_competition cid (restrict_competition cid c) = restrict_competition cid c.
Proof.
  unfold restrict_competition.
  destruct (same_uuid (Competition.id c) cid) eqn:E; simpl; rewrite E; reflexivity.
Qed.

Lemma filter_id_restrict (cid id : string) (rows : list Competition.t) :
  filter (fun c => same_uuid (Competition.id c) id) (map (restrict_competition cid) rows)
  = map (restrict_competition cid)
      (filter (fun c => same_uuid (Competition.id c) id) rows).
Proof.
  induction rows as [|c rows IH]; simpl; [reflexivity |].
  rewrite restrict_competition_id.
  destruct (same_uuid (Competition.id c) id); simpl; now rewrite IH.
Qed.

Lemma filter_none_negb {A} (p : A -> bool) (rows : list A) :
  filter p rows = [] -> filter (fun r => negb (p r)) rows = rows.
Proof.
  induction rows as [|a rows IH]; simpl; [reflexivity |].
  destruct (p a); [discriminate |]. intros H. simpl. now rewrite (IH H).
Qed.

Lemma existsb_any_nil {A} (rows : list A) :
  existsb (fun _ => true) rows = false -> rows = [].
Proof. destruct rows; [reflexivity | discriminate]. Qed.

(** The row of a grant as the store holds it. *)
Lemma grant_row_matches (cid sid : string) :
  same_uuid (uuid_text cid) cid && same_uuid (uuid_text sid) sid = true.
Proof. now rewrite !same_uuid_text_l, !same_uuid_refl. Qed.

(** What a successful POST /competition-allowed-schools has done. *)
Lemma grant_create_sent (F : Formats) (u : Caller.t) (body : AllowedSchool.t)
    (st st1 : Store) (code : nat) (a : AllowedSchool.t) :
  AllowedSchoolRoutes.create F u body st = (Sent code a, st1) ->
  let cid := AllowedSchool.competition_id body in
  let sid := AllowedSchool.school_id body in
  format_uuid F cid = true /\ format_uuid F sid = true
  /\ a = AllowedSchool.mk (uuid_text cid) (uuid_text sid) /\ code = 201
  /\ allowed_eq st cid sid = []
  /\ tenant_exists st sid = true
  /\ ((Caller.role u = "superuser"
       /\ st1 = with_allowed_schools st (competition_allowed_schools st ++ [a]))
      \/ (Caller.role u <> "superuser" /\ Caller.role u = "school_admin"
          /\ (exists comp, single (competitions_eq_id st cid) = Some comp
                           /\ Competition.tenant_id comp = Caller.tenant_id u)
          /\ st1 = with_allowed_schools
                     (with_competitions st
                        (map (restrict_competition cid) (competitions st)))
                     (competition_allowed_schools st ++ [a]))).
Proof.
  unfold AllowedSchoolRoutes.create. intros H. simpl.
  destruct (format_uuid F (AllowedSchool.competition_id body)); [| discriminate].
  destruct (format_uuid F (AllowedSchool.school_id body)); [| discriminate].
  simpl in H. unfold AllowedSchoolRoutes.create_preHandler in H.
  assert (Hh : forall s, AllowedSchoolRoutes.create_handler body s = (Sent code a, st1) ->
                         a = AllowedSchool.mk
                               (uuid_text (AllowedSchool.competition_id body))
                               (uuid_text (AllowedSchool.school_id body))
                         /\ code = 201
                         /\ allowed_eq s (AllowedSchool.competition_id body)
                              (AllowedSchool.school_id body) = []
                         /\ tenant_exists s (AllowedSchool.school_id body) = true
                         /\ st1 = with_allowed_schools s
                                    (competition_allowed_schools s ++ [a])).
  { intros s Hs. unfold AllowedSchoolRoutes.create_handler in Hs.
    destruct (existsb _ (allowed_eq _ _ _)) eqn:Hdup; [discriminate |].
    destruct (competition_exists s _); simpl in Hs; [| discriminate].
    destruct (tenant_exists s _) eqn:Ht; simpl in Hs; [| discriminate].
    inversion Hs; subst.
    repeat split; auto. now apply existsb_any_nil. }
  destruct (String.eqb_spec (Caller.role u) "superuser") as [Es|Es].
  - simpl in H. destruct (Hh st H) as (Ha & Hc & Hd & Ht & Hst). tauto.
  - destruct (String.eqb_spec (Caller.role u) "school_admin") as [Ea|Ea];
      [| discriminate].
    destruct (single (competitions_eq_id st (AllowedSchool.competition_id body)))
      as [comp|] eqn:Hcomp; [| discriminate].
    destruct (String.eqb_spec (Competition.tenant_id comp) (Caller.tenant_id u))
      as [Et|Et]; simpl in H; [| discriminate].
    destruct (Hh _ H) as (Ha & Hc & Hd & Ht & Hst).
    repeat split; auto. right. repeat split; auto. eauto.
Qed.

Lemma allowed_eq_app (st : Store) (rows : list AllowedSchool.t) (cid sid : string) :
  allowed_eq (with_allowed_schools st rows) cid sid
  = filter (fun a => same_uuid (AllowedSchool.competition_id a) cid
                     && same_uuid (AllowedSchool.school_id a) sid) rows.
Proof. reflexivity. Qed.

Lemma grant_create_again (F : Formats) (u : Caller.t) (body : AllowedSchool.t)
    (st st1 : Store) (code : nat) (a : AllowedSchool.t) :
  AllowedSchoolRoutes.create F u body st = (Sent code a, st1) ->
  allowed_eq st1 (AllowedSchool.competition_id body) (AllowedSchool.school_id body)
  = [a]
  /\ fst (AllowedSchoolRoutes.create_preHandler u body st1) = Allow
  /\ snd (AllowedSchoolRoutes.create_preHandler u body st1) = st1.
Proof.
  intros H. destruct (grant_create_sent F u body st st1 code a H)
    as (Hc & Hs & Ha & -> & Hnone & Hten & Hst).
  assert (Hnew : filter (fun a => same_uuid (AllowedSchool.competition_id a)
                                    (AllowedSchool.competition_id body)
                                  && same_uuid (AllowedSchool.school_id a)
                                       (AllowedSchool.school_id body))
                   (competition_allowed_schools st ++ [a]) = [a]).
  { rewrite filter_app. unfold allowed_eq in Hnone. rewrite Hnone. simpl.
    rewrite Ha. simpl. now rewrite grant_row_matches. }
  unfold AllowedSchoolRoutes.create_preHandler.
  destruct Hst as [[Hrole ->]|(Hns & Hrole & (comp & Hcomp & Hown) & ->)].
  - rewrite Hrole. simpl. auto.
  - destruct (String.eqb_spec (Caller.role u) "superuser"); [contradiction |].
    rewrite Hrole. split; [exact Hnew |].
    unfold competitions_eq_id. simpl.
    fold (restrict_competition (AllowedSchool.competition_id body)).
    rewrite filter_id_restrict.
    apply single_Some in Hcomp. unfold competitions_eq_id in Hcomp. rewrite Hcomp.
    simpl. rewrite restrict_competition_tenant, Hown, String.eqb_refl. simpl.
    split; [reflexivity |]. unfold with_competitions, with_allowed_schools. simpl.
    f_equal. rewrite map_map. apply map_ext. intros c.
    apply restrict_competition_idem.
Qed.

(** X11: creating the same grant a second time. After
    POST /competition-allowed-schools has answered 201, the table holds the
    pair once, and the same request by the same caller is answered 500 (the
    primary key) and leaves the store as it is. *)
Theorem grant_create_twice (F : Formats) (u : Caller.t) (body : AllowedSchool.t)
    (st st1 : Store) (code : nat) (a : AllowedSchool.t) :
  AllowedSchoolRoutes.create F u body st = (Sent code a, st1) ->
  allowed_eq st1 (AllowedSchool.competition_id body) (AllowedSchool.school_id body)
  = [AllowedSchool.mk (uuid_text (AllowedSchool.competition_id body))
       (uuid_text (AllowedSchool.school_id body))]
  /\ AllowedSchoolRoutes.create F u body st1 = (Failed 500 unique_violation, st1).
Proof.
  intros H. destruct (grant_create_again F u body st st1 code a H) as (Hone & Hd & Hs).
  destruct (grant_create_sent F u body st st1 code a H) as (Hc & Hsid & Ha & _).
  simpl in Hc, Hsid, Ha. split; [now rewrite Hone, Ha |].
  unfold AllowedSchoolRoutes.create. rewrite Hc, Hsid. simpl.
  destruct (AllowedSchoolRoutes.create_preHandler u body st1) as [d st2].
  simpl in Hd, Hs. subst d st2. simpl.
  unfold AllowedSchoolRoutes.create_handler. now rewrite Hone.
Qed.

Lemma grant_create_twice_witness :
  fst (AllowedSchoolRoutes.create Seed.formats (Seed.caller_of Seed.admin1)
         (AllowedSchool.mk (Competition.id Seed.s1c1) Seed.school2) Seed.store)
  = Sent 201 (AllowedSchool.mk (Competition.id Seed.s1c1) Seed.school2)
  /\ AllowedSchoolRoutes.create Seed.formats (Seed.caller_of Seed.admin1)
       (AllowedSchool.mk (Competition.id Seed.s1c1) Seed.school2)
       (snd (AllowedSchoolRoutes.create Seed.formats (Seed.caller_of Seed.admin1)
               (AllowedSchool.mk (Competition.id Seed.s1c1) Seed.school2) Seed.store))
     = (Failed 500 unique_violation,
        snd (AllowedSchoolRoutes.create Seed.formats (Seed.caller_of Seed.admin1)
               (AllowedSchool.mk (Competition.id Seed.s1c1) Seed.school2) Seed.store)).
Proof.
  split; [reflexivity |].
  apply (grant_create_twice Seed.formats (Seed.caller_of Seed.admin1)
           (AllowedSchool.mk (Competition.id Seed.s1c1) Seed.school2) Seed.store
           _ 201 (AllowedSchool.mk (Competition.id Seed.s1c1) Seed.school2)).
  reflexivity.
Defined.

(** X13: removing a grant that was just created. After
    POST /competition-allowed-schools has answered 201, the DELETE of the same
    pair by the same caller answers 204 and puts the table of grants back as
    it was before the creation; the competitions stay as the creation left
    them, so a visibility switched to restricted is not switched back. *)
Theorem grant_create_delete (F : Formats) (u : Caller.t) (body : AllowedSchool.t)
    (st st1 : Store) (code : nat) (a : AllowedSchool.t) :
  AllowedSchoolRoutes.create F u body st = (Sent code a, st1) ->
  AllowedSchoolRoutes.delete F u (AllowedSchool.competition_id body)
    (AllowedSchool.school_id body) st1
  = (Sent 204 tt, with_allowed_schools st1 (competition_allowed_schools st)).
Proof.
  intros H. destruct (grant_create_again F u body st st1 code a H) as (_ & Hd & _).
  destruct (grant_create_sent F u body st st1 code a H)
    as (Hc & Hs & Ha & -> & Hnone & Hten & Hst).
  simpl in Hc, Hs. unfold AllowedSchoolRoutes.delete. rewrite Hc, Hs. simpl.
  assert (Hpre : AllowedSchoolRoutes.delete_preHandler u
                   (AllowedSchool.competition_id body) st1 = Allow).
  { unfold AllowedSchoolRoutes.create_preHandler in Hd.
    unfold AllowedSchoolRoutes.delete_preHandler.
    destruct (Caller.role u =? "superuser"); [reflexivity |].
    destruct (Caller.role u =? "school_admin"); [| discriminate].
    destruct (single _); [| discriminate].
    destruct (negb _); [discriminate | reflexivity]. }
  rewrite Hpre. simpl. unfold AllowedSchoolRoutes.delete_handler. f_equal.
  assert (Hg : competition_allowed_schools st1
               = (competition_allowed_schools st ++ [a])%list).
  { destruct Hst as [[_ ->]|(_ & _ & _ & ->)]; reflexivity. }
  rewrite Hg, filter_app. unfold allowed_eq in Hnone.
  rewrite (filter_none_negb _ _ Hnone). simpl. rewrite Ha. simpl.
  rewrite grant_row_matches. simpl. now rewrite app_nil_r.
Qed.

Lemma grant_create_delete_witness :
  fst (AllowedSchoolRoutes.create Seed.formats (Seed.caller_of Seed.admin1)
         (AllowedSchool.mk (Competition.id Seed.s1c1) Seed.school2) Seed.store)
  = Sent 201 (AllowedSchool.mk (Competition.id Seed.s1c1) Seed.school2)
  /\ competition_allowed_schools
       (snd (AllowedSchoolRoutes.delete Seed.formats (Seed.caller_of Seed.admin1)
               (Competition.id Seed.s1c1) Seed.school2
               (snd (AllowedSchoolRoutes.create Seed.formats (Seed.caller_of Seed.admin1)
                       (AllowedSchool.mk (Competition.id Seed.s1c1) Seed.school2)
                       Seed.store))))
     = competition_allowed_schools Seed.store.
Proof.
  split; [reflexivity |].
  exact (f_equal (fun r => competition_allowed_schools (snd r))
           (grant_create_delete Seed.formats (Seed.caller_of Seed.admin1)
              (AllowedSchool.mk (Competition.id Seed.s1c1) Seed.school2) Seed.store
              (snd (AllowedSchoolRoutes.create Seed.formats
                      (Seed.caller_of Seed.admin1)
                      (AllowedSchool.mk (Competition.id Seed.s1c1) Seed.school2)
                      Seed.store))
              201 (AllowedSchool.mk (Competition.id Seed.s1c1) Seed.school2)
              eq_refl)).
Defined.

Lemma allowed_eq_congr (st : Store) (cid sid sid' : string) :
  uuid_text sid = uuid_text sid' -> allowed_eq st cid sid = allowed_eq st cid sid'.
Proof.
  intros E. unfold allowed_eq. apply filter_ext. intros a.
  now rewrite (same_uuid_congr _ _ _ E).
Qed.

(** X12: a grant opens the competition to the school it names. After
    POST /competition-allowed-schools has answered 201 to a school_admin (or
    to a superuser, for a competition that is restricted), every caller whose
    tenant is the school of the grant passes the guard of
    GET /competitions/:id for that competition. *)
Theorem grant_gives_read (F : Formats) (u v : Caller.t) (q : option string)
    (body : AllowedSchool.t) (st st1 : Store) (code : nat) (a : AllowedSchool.t) :
  AllowedSchoolRoutes.create F u body st = (Sent code a, st1) ->
  Caller.role u = "school_admin"
  \/ (exists comp,
         single (competitions_eq_id st (AllowedSchool.competition_id body)) = Some comp
         /\ Competition.visibility comp = restricted) ->
  uuid_text (Caller.tenant_id v) = uuid_text (AllowedSchool.school_id body) ->
  decide (mkRequest v q (CompetitionGet (AllowedSchool.competition_id body))) st1
  = Allow.
Proof.
  intros H Hwho Hv.
  destruct (grant_create_again F u body st st1 code a H) as (Hone & _ & _).
  destruct (grant_create_sent F u body st st1 code a H)
    as (_ & _ & _ & _ & _ & _ & Hst).
  simpl in Hst.
  assert (Hcomp : exists comp',
             single (competitions_eq_id st1 (AllowedSchool.competition_id body))
             = Some comp'
             /\ Competition.visibility comp' = restricted).
  { destruct Hst as [[Hrole ->]|(Hns & Hrole & (comp & Hcomp & Hown) & ->)].
    - destruct Hwho as [Ha|(comp & Hcomp & Hvis)].
      + rewrite Ha in Hrole. discriminate.
      + exists comp. split; [exact Hcomp | exact Hvis].
    - unfold competitions_eq_id. simpl. rewrite filter_id_restrict.
      destruct (single_filter_In _ _ _ Hcomp) as [_ Hid].
      apply single_Some in Hcomp. unfold competitions_eq_id in Hcomp. rewrite Hcomp.
      simpl. eexists. split; [reflexivity |].
      unfold restrict_competition. now rewrite Hid. }
  destruct Hcomp as (comp' & Hlook & Hvis).
  unfold decide; simpl. unfold CompetitionRoutes.get_by_id_preHandler.
  rewrite Hlook, (allowed_eq_congr st1 _ _ _ Hv), Hone, Hvis. simpl.
  destruct (Caller.role v =? "superuser"); [reflexivity |].
  destruct ((Caller.role v =? "school_admin")
            && (Competition.tenant_id comp' =? Caller.tenant_id v));
    [reflexivity |].
  destruct (Competition.tenant_id comp' =? Caller.tenant_id v); reflexivity.
Qed.

Lemma grant_gives_read_witness :
  fst (AllowedSchoolRoutes.create Seed.formats (Seed.caller_of Seed.admin1)
         (AllowedSchool.mk (Competition.id Seed.s1c2) Seed.school2) Seed.store)
  = Sent 201 (AllowedSchool.mk (Competition.id Seed.s1c2) Seed.school2)
  /\ decide (mkRequest (Seed.caller_of Seed.student2) None
               (CompetitionGet (Competition.id Seed.s1c2)))
       (snd (AllowedSchoolRoutes.create Seed.formats (Seed.caller_of Seed.admin1)
               (AllowedSchool.mk (Competition.id Seed.s1c2) Seed.school2) Seed.store))
     = Allow.
Proof.
  split; [reflexivity |].
  apply (grant_gives_read Seed.formats (Seed.caller_of Seed.admin1)
           (Seed.caller_of Seed.student2) None
           (AllowedSchool.mk (Competition.id Seed.s1c2) Seed.school2) Seed.store
           _ 201 (AllowedSchool.mk (Competition.id Seed.s1c2) Seed.school2)).
  - reflexivity.
  - left. reflexivity.
  - reflexivity.
Defined.

(** X14: a grant on a competition that is not restricted opens nothing. When
    a superuser has created a grant (201) for a competition that is not
    restricted, the guard of GET /competitions/:id decides every request of
    every caller as it did before the grant. *)
Theorem grant_on_unrestricted_opens_nothing (F : Formats) (u : Caller.t)
    (body : AllowedSchool.t) (st st1 : Store) (code : nat) (a : AllowedSchool.t) :
  AllowedSchoolRoutes.create F u body st = (Sent code a, st1) ->
  Caller.role u = "superuser" ->
  (forall c, In c (competitions st) ->
             uuid_text (Competition.id c)
             = uuid_text (AllowedSchool.competition_id body) ->
             Competition.visibility c <> restricted) ->
  forall v q id,
    decide (mkRequest v q (CompetitionGet id)) st1
    = decide (mkRequest v q (CompetitionGet id)) st.
Proof.
  intros H Hrole Hvis v q id.
  destruct (grant_create_sent F u body st st1 code a H)
    as (_ & _ & Ha & _ & _ & _ & Hst).
  simpl in Hst, Ha. destruct Hst as [[_ ->]|(Hns & _)]; [| contradiction].
  unfold decide; simpl. unfold CompetitionRoutes.get_by_id_preHandler.
  destruct (Caller.role v =? "superuser"); [reflexivity |].
  change (competitions_eq_id
            (with_allowed_schools st (competition_allowed_schools st ++ [a])) id)
    with (competitions_eq_id st id).
  destruct (single (competitions_eq_id st id)) as [comp|] eqn:Hcomp; [| reflexivity].
  destruct ((Caller.role v =? "school_admin")
            && (Competition.tenant_id comp =? Caller.tenant_id v)); [reflexivity |].
  destruct (Visibility_eqb (Competition.visibility comp) public); [reflexivity |].
  destruct (Competition.tenant_id comp =? Caller.tenant_id v); [reflexivity |].
  destruct (Visibility_eqb (Competition.visibility comp) restricted) eqn:Hr;
    [| reflexivity].
  simpl. rewrite allowed_eq_app, filter_app. simpl.
  destruct (single_filter_In _ _ _ Hcomp) as [Hin Hid]. apply same_uuid_eq in Hid.
  rewrite Ha. simpl. rewrite same_uuid_text_l.
  destruct (same_uuid_spec (AllowedSchool.competition_id body) id) as [E|E].
  - exfalso. apply (Hvis comp Hin); [congruence |].
    destruct (Competition.visibility comp); try discriminate. reflexivity.
  - simpl. now rewrite app_nil_r.
Qed.

Lemma grant_on_unrestricted_opens_nothing_witness :
  fst (AllowedSchoolRoutes.create Seed.formats (Seed.caller_of Seed.developer)
         (AllowedSchool.mk (Competition.id Seed.s1c2) Seed.school2) Seed.store)
  = Sent 201 (AllowedSchool.mk (Competition.id Seed.s1c2) Seed.school2)
  /\ decide (mkRequest (Seed.caller_of Seed.student2) None
               (CompetitionGet (Competition.id Seed.s1c2)))
       (snd (AllowedSchoolRoutes.create Seed.formats (Seed.caller_of Seed.developer)
               (AllowedSchool.mk (Competition.id Seed.s1c2) Seed.school2) Seed.store))
     = Deny "Access denied to this competition".
Proof.
  split; [reflexivity |].
  rewrite (grant_on_unrestricted_opens_nothing Seed.formats
             (Seed.caller_of Seed.developer)
             (AllowedSchool.mk (Competition.id Seed.s1c2) Seed.school2) Seed.store
             (snd (AllowedSchoolRoutes.create Seed.formats
                     (Seed.caller_of Seed.developer)
                     (AllowedSchool.mk (Competition.id Seed.s1c2) Seed.school2)
                     Seed.store))
             201 (AllowedSchool.mk (Competition.id Seed.s1c2) Seed.school2)
             eq_refl eq_refl).
  - reflexivity.
  - intros c Hc Hid. simpl in Hc.
    repeat (destruct Hc as [<-|Hc]; [try discriminate; simpl in Hid; discriminate |]).
    contradiction.
Defined.

(** X17: the visibility write of a school_admin does not wait for the insert.
    When a school_admin sends a well-formed POST /competition-allowed-schools
    for a competition of the own tenant, the reply is 201 or 500, and in both
    cases every competition with that id is restricted afterwards. *)
Theorem school_admin_grant_restricts_first (F : Formats) (u : Caller.t)
    (body : AllowedSchool.t) (st : Store) (comp : Competition.t) :
  Caller.role u = "school_admin" ->
  single (competitions_eq_id st (AllowedSchool.competition_id body)) = Some comp ->
  Competition.tenant_id comp = Caller.tenant_id u ->
  format_uuid F (AllowedSchool.competition_id body) = true ->
  format_uuid F (AllowedSchool.school_id body) = true ->
  (status (fst (AllowedSchoolRoutes.create F u body st)) = 201
   \/ status (fst (AllowedSchoolRoutes.create F u body st)) = 500)
  /\ forall c,
      In c (competitions (snd (AllowedSchoolRoutes.create F u body st))) ->
      uuid_text (Competition.id c) = uuid_text (AllowedSchool.competition_id body) ->
      Competition.visibility c = restricted.
Proof.
  intros Hrole Hcomp Hown Hc Hs. unfold AllowedSchoolRoutes.create.
  rewrite Hc, Hs. simpl. unfold AllowedSchoolRoutes.create_preHandler.
  rewrite Hrole, Hcomp, Hown. rewrite !String.eqb_refl. simpl.
  fold (restrict_competition (AllowedSchool.competition_id body)).
  unfold AllowedSchoolRoutes.create_handler.
  assert (Hmap : forall c,
             In c (map (restrict_competition (AllowedSchool.competition_id body))
                     (competitions st)) ->
             uuid_text (Competition.id c)
             = uuid_text (AllowedSchool.competition_id body) ->
             Competition.visibility c = restricted).
  { intros c Hin Hid. apply in_map_iff in Hin as (c0 & <- & _).
    rewrite restrict_competition_id in Hid. unfold restrict_competition.
    rewrite (proj2 (same_uuid_eq _ _) Hid). reflexivity. }
  destruct (existsb _ (allowed_eq _ _ _)); simpl; [split; [now right | exact Hmap] |].
  destruct (negb (competition_exists _ _) || _); simpl;
    (split; [auto | exact Hmap]).
Qed.

Lemma school_admin_grant_restricts_first_witness :
  (status (fst (AllowedSchoolRoutes.create Seed.formats (Seed.caller_of Seed.admin1)
                  (AllowedSchool.mk (Competition.id Seed.s1c1) Seed.nobody)
                  Seed.store)) = 500)
  /\ forall c,
      In c (competitions
              (snd (AllowedSchoolRoutes.create Seed.formats
                      (Seed.caller_of Seed.admin1)
                      (AllowedSchool.mk (Competition.id Seed.s1c1) Seed.nobody)
                      Seed.store))) ->
      uuid_text (Competition.id c) = uuid_text (Competition.id Seed.s1c1) ->
      Competition.visibility c = restricted.
Proof.
  split; [reflexivity |].
  apply (school_admin_grant_restricts_first Seed.formats (Seed.caller_of Seed.admin1)
           (AllowedSchool.mk (Competition.id Seed.s1c1) Seed.nobody) Seed.store
           Seed.s1c1); reflexivity.
Defined.

(** ** Lists and created rows *)

(** X1: under the primary key of [competitions], the list
    GET /competition-allowed-schools/school/:schoolId returns has no repeated
    id and holds exactly the competitions that are public, or restricted and
    owned by the school, or owned by another tenant and granted to the
    school. *)
Theorem school_accessible_rows (schoolId : string) (st : Store) :
  primary_key Competition.id (competitions st) ->
  NoDup (map Competition.id (AllowedSchoolRoutes.uniqueCompetitions schoolId st))
  /\ forall c,
      In c (AllowedSchoolRoutes.uniqueCompetitions schoolId st)
      <-> In c (competitions st) /\ code_school_accessible schoolId st c = true.
Proof.
  intros Hpk. destruct (uniqueCompetitions_spec schoolId st) as (Hnd & Hsub & Hids).
  split; [exact Hnd |]. intros c. split; [apply Hsub |].
  intros [Hc Hacc]. specialize (Hids c Hc Hacc).
  apply in_map_iff in Hids as (c' & Hid & Hc').
  destruct (Hsub c' Hc') as [Hin' _].
  now rewrite <- (primary_key_inj Competition.id _ c' c Hpk Hin' Hc Hid).
Qed.

Lemma school_accessible_rows_witness :
  primary_key Competition.id (competitions Seed.store)
  /\ NoDup (map Competition.id
              (AllowedSchoolRoutes.uniqueCompetitions Seed.school3 Seed.store))
  /\ (In Seed.s1c2 (AllowedSchoolRoutes.uniqueCompetitions Seed.school3 Seed.store)
      <-> In Seed.s1c2 (competitions Seed.store)
          /\ code_school_accessible Seed.school3 Seed.store Seed.s1c2 = true).
Proof.
  split; [exact seed_competitions_key |].
  destruct (school_accessible_rows Seed.school3 Seed.store seed_competitions_key)
    as [Hnd Hrows].
  split; [exact Hnd | exact (Hrows Seed.s1c2)].
Defined.

(** X21: a user that POST /users creates for a school_admin belongs to the
    admin's tenant, is a school_admin or a student, carries the generated id,
    and is added at the end of the table. *)
Theorem user_create_by_admin (F : Formats) (env : Env) (u : Caller.t)
    (q : option string) (body : UserBody.t) (st st' : Store) (code : nat)
    (r : User.t) :
  UserRoutes.create F env u q body st = (Sent code r, st') ->
  Caller.role u = "school_admin" ->
  User.tenant_id r = uuid_text (Caller.tenant_id u)
  /\ User.role r <> superuser
  /\ User.id r = generated_id env
  /\ users st' = (users st ++ [r])%list.
Proof.
  intros H Hrole. unfold UserRoutes.create in H.
  destruct (UserRoutes.onRequest u POST None q); simpl in H; [| discriminate].
  destruct (UserRoutes.create_schema F body) eqn:Hschema; simpl in H; [| discriminate].
  unfold UserRoutes.create_preHandler in H. rewrite Hrole in H. simpl in H.
  destruct (strict_eq (UserBody.tenant_id body) (Some (Caller.tenant_id u))) eqn:Ht;
    simpl in H; [| discriminate].
  apply strict_eq_true in Ht.
  destruct (strict_eq (UserBody.role body) (Some "superuser")); simpl in H;
    [discriminate |].
  unfold UserRoutes.create_schema in Hschema.
  apply andb_prop in Hschema as [_ Henum].
  unfold UserRoutes.create_handler in H. rewrite Ht in H.
  destruct (UserBody.email body) as [email|]; [| discriminate].
  destruct (UserBody.role body) as [role|]; [| discriminate].
  simpl in Henum.
  destruct (role_of_string role) as [ro|] eqn:Hro; [| discriminate].
  destruct (existsb _ _); [discriminate |].
  destruct (negb _); [discriminate |].
  inversion H; subst; simpl. repeat split.
  now apply (enum_roles_not_superuser role).
Qed.

Lemma user_create_by_admin_witness :
  UserRoutes.create Seed.formats (mkEnv Seed.nobody Seed.now)
    (Seed.caller_of Seed.admin1) None
    (UserBody.mk (Some "new@school1.com") (Some Seed.school1) (Some "student"))
    Seed.store
  = (Sent 201 (User.mk Seed.nobody "new@school1.com" Seed.school1 student),
     with_users Seed.store
       (users Seed.store
        ++ [User.mk Seed.nobody "new@school1.com" Seed.school1 student]))
  /\ User.tenant_id (User.mk Seed.nobody "new@school1.com" Seed.school1 student)
     = uuid_text (Caller.tenant_id (Seed.caller_of Seed.admin1)).
Proof.
  split; [reflexivity |].
  apply (user_create_by_admin Seed.formats (mkEnv Seed.nobody Seed.now)
           (Seed.caller_of Seed.admin1) None
           (UserBody.mk (Some "new@school1.com") (Some Seed.school1) (Some "student"))
           Seed.store
           (with_users Seed.store
              (users Seed.store
               ++ [User.mk Seed.nobody "new@school1.com" Seed.school1 student]))
           201).
  - reflexivity.
  - reflexivity.
Defined.

(** ** The authentication hook *)

Lemma starts_with_app (pat rest : string) : starts_with (pat ++ rest) pat = true.
Proof.
  induction pat as [|c pat IH]; simpl; [now destruct rest |].
  now rewrite Ascii.eqb_refl, IH.
Qed.

Lemma str_includes_starts (s pat : string) :
  starts_with s pat = true -> str_includes s pat = true.
Proof. intros H. destruct s; cbn [str_includes]; now rewrite H. Qed.

Lemma str_includes_app (before pat rest : string) :
  str_includes (before ++ pat ++ rest) pat = true.
Proof.
  induction before as [|c before IH]; simpl.
  - apply str_includes_starts, starts_with_app.
  - rewrite IH. apply orb_true_r.
Qed.

Lemma append_nonempty (a b : string) : b <> EmptyString -> (a ++ b <> EmptyString)%string.
Proof.
  destruct a; simpl; [auto | discriminate].
Qed.

(** X22: the list of public endpoints is matched as substrings of the whole
    URL. A request whose URL contains one of them anywhere, the query string
    included, leaves the hook without a token being read: [request.user] is
    not set and nothing is rejected, whatever the Authorization header. *)
Theorem public_endpoint_substring_skips_auth
    (jwt_verify : AuthPlugin.Attempt -> string -> string -> option Payload.t)
    (jwtSecret : option string) (st : Store) (before endpoint rest : string)
    (authorization : option string) :
  In endpoint AuthPlugin.public_endpoints ->
  AuthPlugin.onRequest jwt_verify jwtSecret st (before ++ endpoint ++ rest) authorization
  = AuthPlugin.Skipped.
Proof.
  intros Hin. unfold AuthPlugin.onRequest.
  assert (Hne : (before ++ endpoint ++ rest)%string <> EmptyString).
  { apply append_nonempty.
    simpl in Hin. destruct Hin as [<-|[<-|[<-|[<-|[<-|[]]]]]]; discriminate. }
  destruct (String.eqb_spec (before ++ endpoint ++ rest) EmptyString);
    [contradiction |].
  assert (Hex : existsb (fun e => str_includes (before ++ endpoint ++ rest) e)
                  AuthPlugin.public_endpoints = true).
  { apply existsb_exists. exists endpoint. split; [exact Hin |].
    apply str_includes_app. }
  now rewrite Hex.
Qed.

Lemma public_endpoint_substring_skips_auth_witness :
  AuthPlugin.onRequest (fun _ _ _ => None) None Seed.store
    "/api/users?next=/docs" None
  = AuthPlugin.Skipped.
Proof.
  apply (public_endpoint_substring_skips_auth (fun _ _ _ => None) None Seed.store
           "/api/users?next=" "/docs" EmptyString None).
  simpl. tauto.
Defined.

Lemma spread_same (v : JsVal) : AuthPlugin.spread v v = v.
Proof. now destruct v. Qed.

(** X23: on a URL that requires a tenant, an authenticated request carries a
    non-empty [tenant_id]. Either the metadata of the verified token has one:
    then [request.user] is built from the subject and that metadata, its
    [tenant_id] is the one of the token, and nothing is written back. Or it
    has none: then exactly one row of [users] carries the subject as id, its
    [tenant_id] is not empty and becomes the [tenant_id] of [request.user],
    and the hook writes that tenant back to the identity provider for the
    subject. *)
Theorem authenticated_tenant_populated
    (jwt_verify : AuthPlugin.Attempt -> string -> string -> option Payload.t)
    (jwtSecret : option string) (st : Store) (url : string)
    (authorization : option string) (user : RequestUser.t)
    (backfill : option (string * string)) :
  AuthPlugin.onRequest jwt_verify jwtSecret st url authorization
  = AuthPlugin.Authenticated user backfill ->
  AuthPlugin.isTenantRequired url = true ->
  js_truthy (RequestUser.tenant_id user) = true
  /\ exists token secret decoded sub userMetadata,
      AuthPlugin.bearer_token authorization = Some token
      /\ jwtSecret = Some secret
      /\ AuthPlugin.verify_any jwt_verify secret token = Some decoded
      /\ Payload.sub decoded = JStr sub
      /\ userMetadata = match Payload.user_metadata decoded with
                        | Some m => m
                        | None => Metadata.empty
                        end
      /\ ((js_truthy (Metadata.tenant_id userMetadata) = true
           /\ user = AuthPlugin.request_user sub userMetadata
           /\ RequestUser.tenant_id user = Metadata.tenant_id userMetadata
           /\ backfill = None)
          \/ (js_truthy (Metadata.tenant_id userMetadata) = false
              /\ exists row,
                  single (users_eq_id st sub) = Some row
                  /\ User.tenant_id row <> EmptyString
                  /\ user = AuthPlugin.request_user sub
                              (Metadata.set_tenant_id userMetadata
                                 (JStr (User.tenant_id row)))
                  /\ RequestUser.tenant_id user = JStr (User.tenant_id row)
                  /\ backfill = Some (sub, User.tenant_id row))).
Proof.
  intros H Hreq. unfold AuthPlugin.onRequest in H. rewrite Hreq in H.
  destruct (negb (url =? EmptyString) && _); [discriminate |].
  destruct (AuthPlugin.bearer_token authorization) as [token|]; [| discriminate].
  destruct (token =? EmptyString); [discriminate |].
  destruct (negb (truthy jwtSecret)); [discriminate |].
  destruct jwtSecret as [secret|]; [| discriminate].
  destruct (AuthPlugin.verify_any jwt_verify secret token) as [decoded|] eqn:Hv;
    [| discriminate].
  destruct (Payload.sub decoded) as [| |sub] eqn:Hsub; try discriminate.
  destruct (sub =? EmptyString); [discriminate |].
  rewrite andb_true_r in H.
  set (userMetadata := match Payload.user_metadata decoded with
                       | Some m => m
                       | None => Metadata.empty
                       end) in *.
  destruct (js_truthy (Metadata.tenant_id userMetadata)) eqn:Ht; simpl in H.
  - inversion H; subst user backfill. simpl. rewrite spread_same.
    split; [exact Ht |].
    exists token, secret, decoded, sub, userMetadata.
    split; [reflexivity |]. split; [reflexivity |]. split; [exact Hv |].
    split; [exact Hsub |]. split; [reflexivity |].
    left. split; [exact Ht |]. split; [reflexivity |]. split; reflexivity.
  - destruct (single (users_eq_id st sub)) as [row|] eqn:Hrow; [| discriminate].
    destruct (String.eqb_spec (User.tenant_id row) EmptyString) as [E|E]; simpl in H;
      [discriminate |].
    inversion H; subst user backfill. simpl.
    destruct (String.eqb_spec (User.tenant_id row) EmptyString) as [|_];
      [contradiction |].
    split; [reflexivity |].
    exists token, secret, decoded, sub, userMetadata.
    split; [reflexivity |]. split; [reflexivity |]. split; [exact Hv |].
    split; [exact Hsub |]. split; [reflexivity |].
    right. split; [exact Ht |]. exists row.
    split; [exact Hrow |]. split; [exact E |]. split; [reflexivity |].
    split; reflexivity.
Qed.

Lemma authenticated_tenant_populated_witness :
  AuthPlugin.onRequest
    (fun _ _ _ => Some (Payload.mk (JStr (User.id Seed.student1)) None))
    (Some "secret") Seed.store "/api/competitions" (Some "Bearer token")
  = AuthPlugin.Authenticated
      (AuthPlugin.request_user (User.id Seed.student1)
         (Metadata.set_tenant_id Metadata.empty (JStr Seed.school1)))
      (Some (User.id Seed.student1, Seed.school1))
  /\ AuthPlugin.isTenantRequired "/api/competitions" = true
  /\ js_truthy
       (RequestUser.tenant_id
          (AuthPlugin.request_user (User.id Seed.student1)
             (Metadata.set_tenant_id Metadata.empty (JStr Seed.school1))))
     = true.
Proof.
  split; [reflexivity |]. split; [reflexivity |].
  apply (authenticated_tenant_populated
           (fun _ _ _ => Some (Payload.mk (JStr (User.id Seed.student1)) None))
           (Some "secret") Seed.store "/api/competitions" (Some "Bearer token")
           _ (Some (User.id Seed.student1, Seed.school1))).
  - reflexivity.
  - reflexivity.
Defined.

(** X24: the hook authenticates a request only with a non-empty bearer token
    that one of the four verifications accepts under the configured secret
    and whose subject is a non-empty string; when the token has no
    [user_metadata], the request is authenticated with that subject as id and
    with the role student. *)
Theorem authenticated_implies_verified
    (jwt_verify : AuthPlugin.Attempt -> string -> string -> option Payload.t)
    (jwtSecret : option string) (st : Store) (url : string)
    (authorization : option string) (user : RequestUser.t)
    (backfill : option (string * string)) :
  AuthPlugin.onRequest jwt_verify jwtSecret st url authorization
  = AuthPlugin.Authenticated user backfill ->
  exists token secret attempt decoded sub,
    AuthPlugin.bearer_token authorization = Some token
    /\ token <> EmptyString
    /\ jwtSecret = Some secret
    /\ jwt_verify attempt secret token = Some decoded
    /\ Payload.sub decoded = JStr sub
    /\ sub <> EmptyString
    /\ (Payload.user_metadata decoded = None ->
        RequestUser.id user = JStr sub /\ RequestUser.role user = JStr "student").
Proof.
  intros H. unfold AuthPlugin.onRequest in H.
  destruct (negb (url =? EmptyString) && _); [discriminate |].
  destruct (AuthPlugin.bearer_token authorization) as [token|]; [| discriminate].
  destruct (String.eqb_spec token EmptyString) as [|Htok]; [discriminate |].
  destruct (negb (truthy jwtSecret)); [discriminate |].
  destruct jwtSecret as [secret|]; [| discriminate].
  destruct (AuthPlugin.verify_any jwt_verify secret token) as [decoded|] eqn:Hv;
    [| discriminate].
  assert (Hatt : exists attempt, jwt_verify attempt secret token = Some decoded).
  { unfold AuthPlugin.verify_any in Hv.
    destruct (jwt_verify AuthPlugin.RawSecret secret token) eqn:H1;
      [inversion Hv; subst; eauto |].
    destruct (jwt_verify AuthPlugin.DecodedString secret token) eqn:H2;
      [inversion Hv; subst; eauto |].
    destruct (jwt_verify AuthPlugin.DecodedBuffer secret token) eqn:H3;
      [inversion Hv; subst; eauto |].
    eauto. }
  destruct Hatt as [attempt Hatt].
  destruct (Payload.sub decoded) as [| |sub] eqn:Hsub; try discriminate.
  destruct (String.eqb_spec sub EmptyString) as [|Hne]; [discriminate |].
  exists token, secret, attempt, decoded, sub.
  split; [reflexivity |]. split; [exact Htok |]. split; [reflexivity |].
  split; [exact Hatt |]. split; [auto |]. split; [exact Hne |].
  intros Hmd. rewrite Hmd in H. simpl in H.
  destruct (AuthPlugin.isTenantRequired url); simpl in H.
  - destruct (single (users_eq_id st sub)) as [row|]; [| discriminate].
    destruct (negb _); [| discriminate]. inversion H. split; reflexivity.
  - inversion H. split; reflexivity.
Qed.

Lemma authenticated_implies_verified_witness :
  exists token secret attempt decoded sub,
    AuthPlugin.bearer_token (Some "Bearer token") = Some token
    /\ token <> EmptyString
    /\ Some "secret" = Some secret
    /\ (fun (_ : AuthPlugin.Attempt) (_ _ : string) =>
          Some (Payload.mk (JStr (User.id Seed.student1)) None))
         attempt secret token = Some decoded
    /\ Payload.sub decoded = JStr sub
    /\ sub <> EmptyString
    /\ (Payload.user_metadata decoded = None ->
        RequestUser.id
          (AuthPlugin.request_user (User.id Seed.student1)
             (Metadata.set_tenant_id Metadata.empty (JStr Seed.school1)))
        = JStr sub
        /\ RequestUser.role
             (AuthPlugin.request_user (User.id Seed.student1)
                (Metadata.set_tenant_id Metadata.empty (JStr Seed.school1)))
           = JStr "student").
Proof.
  apply (authenticated_implies_verified
           (fun _ _ _ => Some (Payload.mk (JStr (User.id Seed.student1)) None))
           (Some "secret") Seed.store "/api/competitions" (Some "Bearer token")
           _ (Some (User.id Seed.student1, Seed.school1))).
  reflexivity.
Defined.

Lemma split_on_no_sep (sep : ascii) (s : string) :
  ~ In sep (list_ascii_of_string s) -> split_on sep s = [s].
Proof.
  induction s as [|c s IH]; simpl; intros H; [reflexivity |].
  destruct (Ascii.eqb_spec c sep) as [E|E]; [exfalso; apply H; now left |].
  rewrite IH; [reflexivity |]. intros Hin. apply H. now right.
Qed.

Lemma split_on_app (sep : ascii) (a b : string) :
  ~ In sep (list_ascii_of_string a) ->
  split_on sep (a ++ String sep b) = a :: split_on sep b.
Proof.
  induction a as [|c a IH]; simpl; intros H.
  - now rewrite Ascii.eqb_refl.
  - destruct (Ascii.eqb_spec c sep) as [E|E]; [exfalso; apply H; now left |].
    rewrite IH; [reflexivity |]. intros Hin. apply H. now right.
Qed.

(** X25: the hook reads the second space-separated word of the Authorization
    header as the token and does not look at the first: for a scheme word and
    a token without spaces, the header [scheme token] gives [token], whatever
    the scheme is. *)
Theorem bearer_token_ignores_scheme (scheme token : string) :
  ~ In " "%char (list_ascii_of_string scheme) ->
  ~ In " "%char (list_ascii_of_string token) ->
  AuthPlugin.bearer_token (Some (scheme ++ String " "%char token)) = Some token.
Proof.
  intros Hs Ht. unfold AuthPlugin.bearer_token.
  assert (Hne : (scheme ++ String " "%char token)%string <> EmptyString)
    by (apply append_nonempty; discriminate).
  rewrite (truthy_Some _ Hne), (split_on_app _ _ _ Hs), (split_on_no_sep _ _ Ht).
  reflexivity.
Qed.

Lemma bearer_token_ignores_scheme_witness :
  AuthPlugin.bearer_token (Some "Basic abc.def.ghi") = Some "abc.def.ghi".
Proof.
  apply (bearer_token_ignores_scheme "Basic" "abc.def.ghi").
  - simpl. intuition discriminate.
  - simpl. intuition discriminate.
Defined.
